(** * ChainHealth mock API: query pipeline, aggregates and dataset generator

    A shallow embedding of the Express route handlers
    (server/src/routes/{nodes,stakers,healthRecords,epochs,transactions,stats}.js),
    of the dataset generator (server/src/generator.js) and of the client's
    query-string builder (client/src/api/index.ts), with the properties the
    specification states about them.

    Modelling conventions.
    - Strings are sequences of 8-bit code units; only the ASCII range is given
      a meaning by the case conversions and the white-space test.
    - A JavaScript number is [NaN], a signed infinity or an exact rational:
      IEEE-754 rounding, overflow and the negative zero are not modelled.
    - Arrays live in a heap of cells addressed by references, so that a copy
      ([[...xs]], [filter], [slice], [map]) and an alias are different things
      and the in-place operations ([sort], [reverse], [push]) update the cell
      they are called on.
    - [Array.prototype.sort] is modelled as the stable insertion sort driven
      by the sign of the comparator. *)

From Stdlib Require Import ZArith QArith Qround Qabs Lia Lqa Ascii String.
From stdpp Require Import base list strings gmap sorting.

Open Scope Z_scope.

(** ** Strings *)

Module Str.

Definition code (c : ascii) : Z := Z.of_N (N_of_ascii c).

Definition of_code (z : Z) : ascii := ascii_of_N (Z.to_N z).

Definition is_between (lo hi : Z) (c : ascii) : bool :=
    (lo <=? code c) && (code c <=? hi).

Definition is_digit : ascii -> bool := is_between 48 57.
Definition is_lower : ascii -> bool := is_between 97 122.
Definition is_upper : ascii -> bool := is_between 65 90.

  (** StrWhiteSpaceChar, ASCII part: TAB, LF, VT, FF, CR and SP. *)
Definition is_space (c : ascii) : bool :=
    is_between 9 13 c || (code c =? 32).

Definition upper_char (c : ascii) : ascii :=
    if is_lower c then of_code (code c - 32) else c.

Definition lower_char (c : ascii) : ascii :=
    if is_upper c then of_code (code c + 32) else c.

Fixpoint map (f : ascii -> ascii) (s : string) : string :=
    match s with
    | EmptyString => EmptyString
    | String c r => String (f c) (map f r)
    end.

  (** [s.toUpperCase()] and [s.toLowerCase()]. *)
Definition toUpperCase : string -> string := map upper_char.
Definition toLowerCase : string -> string := map lower_char.

Fixpoint trim_start (s : string) : string :=
    match s with
    | String c r => if is_space c then trim_start r else s
    | EmptyString => EmptyString
    end.

Definition trim (s : string) : string :=
    String.rev (trim_start (String.rev (trim_start s))).

  (** [s.padStart(width, '0')]. *)
Definition padStart0 (width : nat) (s : string) : string :=
    String.concat "" (replicate (width - String.length s) "0"%string) +:+ s.

  (** The relational comparison of two strings: code unit order. *)
Definition lt (a b : string) : bool := String.ltb a b.

  (** JavaScript truthiness of a string. *)
Definition truthy (s : string) : bool := negb (String.eqb s "").

  (** Decimal digits. *)
Definition digit_val (c : ascii) : Z := code c - 48.

Definition digit_char (d : Z) : ascii := of_code (48 + d).

  (** The value of a hexadecimal digit. *)
Definition hex_val (c : ascii) : option Z :=
    if is_digit c then Some (code c - 48)
    else if is_between 97 102 c then Some (code c - 87)
    else if is_between 65 70 c then Some (code c - 55)
    else None.

Definition radix_val (radix : Z) (c : ascii) : option Z :=
    match hex_val c with
    | Some d => if d <? radix then Some d else None
    | None => None
    end.

  (** The longest prefix of digits of the radix, as a list of digit values,
      and what follows it. *)
Fixpoint span_digits (radix : Z) (s : string) : list Z * string :=
    match s with
    | String c r =>
        match radix_val radix c with
        | Some d => let '(ds, rest) := span_digits radix r in (d :: ds, rest)
        | None => ([], s)
        end
    | EmptyString => ([], EmptyString)
    end.

Definition digits_value (radix : Z) (ds : list Z) : Z :=
    foldl (fun acc d => acc * radix + d) 0 ds.

  (** The [w] least significant decimal digits of [n], most significant
      first. *)
Fixpoint fixed_digits (w : nat) (n : Z) : string :=
    match w with
    | O => EmptyString
    | S w' => fixed_digits w' (n / 10) +:+ String (digit_char (n mod 10)) EmptyString
    end.

Fixpoint count_digits (fuel : nat) (n : Z) : nat :=
    match fuel with
    | O => 1%nat
    | S f => if n <? 10 then 1%nat else S (count_digits f (n / 10))
    end.

  (** The decimal numeral of a natural number, without leading zeros. *)
Definition of_nonneg (n : Z) : string :=
    fixed_digits (count_digits (Z.to_nat (Z.log2 n) + 1) n) n.

  (** The decimal numeral of an integer. *)
Definition of_Z (n : Z) : string :=
    if n <? 0 then String "-"%char (of_nonneg (- n)) else of_nonneg n.

Definition starts_with (p s : string) : bool := String.prefix p s.

Fixpoint drop (n : nat) (s : string) : string :=
    match n, s with
    | S n', String _ r => drop n' r
    | _, _ => s
    end.

End Str.

(** ** Numbers *)

Inductive number :=
| NaN
| Inf (negative : bool)
| Fin (q : Q).

Module Num.

Definition of_Z (z : Z) : number := Fin (inject_Z z).

Definition Qltb (a b : Q) : bool := negb (Qle_bool b a).

Definition is_zero (x : number) : bool :=
    match x with Fin q => Qeq_bool q 0%Q | _ => false end.

Definition isNaN (x : number) : bool :=
    match x with NaN => true | _ => false end.

  (** ToBoolean on a number: [NaN] and zero are falsy. *)
Definition truthy (x : number) : bool :=
    match x with NaN => false | Inf _ => true | Fin q => negb (Qeq_bool q 0%Q) end.

  (** [a < b] on numbers; any comparison with [NaN] is false. *)
Definition lt (a b : number) : bool :=
    match a, b with
    | NaN, _ | _, NaN => false
    | Inf true, Inf true => false
    | Inf true, _ => true
    | _, Inf true => false
    | Inf false, _ => false
    | _, Inf false => true
    | Fin x, Fin y => Qltb x y
    end.

Definition gt (a b : number) : bool := lt b a.
Definition le (a b : number) : bool :=
    match a, b with
    | NaN, _ | _, NaN => false
    | _, _ => negb (lt b a)
    end.
Definition ge (a b : number) : bool := le b a.

  (** [a === b] on numbers. *)
Definition eqb (a b : number) : bool :=
    match a, b with
    | Fin x, Fin y => Qeq_bool x y
    | Inf s, Inf t => Bool.eqb s t
    | _, _ => false
    end.

Definition neg (a : number) : number :=
    match a with
    | NaN => NaN
    | Inf s => Inf (negb s)
    | Fin q => Fin (- q)%Q
    end.

Definition add (a b : number) : number :=
    match a, b with
    | NaN, _ | _, NaN => NaN
    | Inf s, Inf t => if Bool.eqb s t then Inf s else NaN
    | Inf s, Fin _ | Fin _, Inf s => Inf s
    | Fin x, Fin y => Fin (x + y)%Q
    end.

Definition sub (a b : number) : number := add a (neg b).

Definition sign_neg (q : Q) : bool := Qltb q 0%Q.

Definition mul (a b : number) : number :=
    match a, b with
    | NaN, _ | _, NaN => NaN
    | Inf s, Inf t => Inf (xorb s t)
    | Inf s, Fin q | Fin q, Inf s =>
        if Qeq_bool q 0%Q then NaN else Inf (xorb s (sign_neg q))
    | Fin x, Fin y => Fin (x * y)%Q
    end.

Definition div (a b : number) : number :=
    match a, b with
    | NaN, _ | _, NaN => NaN
    | Inf _, Inf _ => NaN
    | Inf s, Fin q => Inf (xorb s (sign_neg q))
    | Fin _, Inf _ => Fin 0%Q
    | Fin x, Fin y =>
        if Qeq_bool y 0%Q
        then (if Qeq_bool x 0%Q then NaN else Inf (sign_neg x))
        else Fin (x / y)%Q
    end.

  (** [Math.floor], [Math.ceil] and [Math.round]. *)
Definition floor (a : number) : number :=
    match a with Fin q => of_Z (Qfloor q) | _ => a end.

Definition ceil (a : number) : number :=
    match a with Fin q => of_Z (Qceiling q) | _ => a end.

Definition round (a : number) : number :=
    match a with Fin q => of_Z (Qfloor (q + (1 # 2))%Q) | _ => a end.

Definition pow10 (e : Z) : Q := Qpower (10 # 1) e.

  (** The optional sign of a numeric literal. *)
Definition split_sign (s : string) : bool * string :=
    match s with
    | String "-" r => (true, r)
    | String "+" r => (false, r)
    | _ => (false, s)
    end.

  (** [parseInt(s)] without a radix: leading white space, a sign, an
      optional [0x] prefix, then the longest run of digits; [None] is [NaN]. *)
Definition parseInt (s : string) : option Z :=
    let '(negative, r) := split_sign (Str.trim_start s) in
    let '(radix, r) :=
      if Str.starts_with "0x" r || Str.starts_with "0X" r
      then (16, Str.drop 2 r) else (10, r) in
    match Str.span_digits radix r with
    | ([], _) => None
    | (ds, _) =>
        let v := Str.digits_value radix ds in
        Some (if negative then - v else v)
    end.

  (** The exponent part of a decimal literal, when it is well formed. *)
Definition exponent_part (s : string) : Z * string :=
    match s with
    | String c r =>
        if Ascii.eqb c "e" || Ascii.eqb c "E" then
          let '(negative, r') := split_sign r in
          match Str.span_digits 10 r' with
          | ([], _) => (0, s)
          | (ds, rest) =>
              let e := Str.digits_value 10 ds in
              (if negative then - e else e, rest)
          end
        else (0, s)
    | EmptyString => (0, s)
    end.

  (** The longest prefix that is an unsigned StrDecimalLiteral. *)
Definition unsigned_decimal (s : string) : option (number * string) :=
    if Str.starts_with "Infinity" s then Some (Inf false, Str.drop 8 s) else
    let '(ip, r1) := Str.span_digits 10 s in
    let '(fp, r2, dot) :=
      match r1 with
      | String "." r => let '(fp, r2) := Str.span_digits 10 r in (fp, r2, true)
      | _ => ([], r1, false)
      end in
    match ip, fp with
    | [], [] => None
    | _, _ =>
        let '(e, r3) := exponent_part r2 in
        let m := Str.digits_value 10 (ip ++ fp) in
        Some (Fin (inject_Z m * pow10 (e - Z.of_nat (length fp)))%Q, r3)
    end.

Definition signed_decimal (s : string) : option (number * string) :=
    let '(negative, r) := split_sign s in
    match unsigned_decimal r with
    | Some (v, rest) => Some (if negative then neg v else v, rest)
    | None => None
    end.

  (** [parseFloat(s)]. *)
Definition parseFloat (s : string) : number :=
    match signed_decimal (Str.trim_start s) with
    | Some (v, _) => v
    | None => NaN
    end.

  (** A literal with a radix prefix ([0x], [0o], [0b]), read in full. *)
Definition radix_literal (radix : Z) (s : string) : number :=
    match Str.span_digits radix s with
    | ((_ :: _) as ds, EmptyString) => of_Z (Str.digits_value radix ds)
    | _ => NaN
    end.

  (** ToNumber applied to a string (StringToNumber). *)
Definition of_string (s : string) : number :=
    let t := Str.trim s in
    match t with
    | EmptyString => Fin 0%Q
    | String "0" (String c r) =>
        if Ascii.eqb c "x" || Ascii.eqb c "X" then radix_literal 16 r
        else if Ascii.eqb c "o" || Ascii.eqb c "O" then radix_literal 8 r
        else if Ascii.eqb c "b" || Ascii.eqb c "B" then radix_literal 2 r
        else match signed_decimal t with
             | Some (v, EmptyString) => v
             | _ => NaN
             end
    | _ => match signed_decimal t with
           | Some (v, EmptyString) => v
           | _ => NaN
           end
    end.

  (** [x.toFixed(digits)]: the nearest multiple of [10^-digits], the larger
      one on a tie, printed with exactly [digits] decimals. *)
Definition toFixed (x : number) (digits : nat) : string :=
    match x with
    | NaN => "NaN"
    | Inf false => "Infinity"
    | Inf true => "-Infinity"
    | Fin q =>
        let negative := Qltb q 0%Q in
        let n := Qfloor (Qabs q * inject_Z (10 ^ Z.of_nat digits) + (1 # 2))%Q in
        let ip := Str.of_nonneg (n / 10 ^ Z.of_nat digits) in
        let body :=
          match digits with
          | O => ip
          | _ => ip +:+ "." +:+ Str.fixed_digits digits n
          end in
        if negative then String "-" body else body
    end.

  (** [String(x)] for an integral number; other finite values have no
      rendering in this model and print as their integral part. *)
Definition to_string (x : number) : string :=
    match x with
    | NaN => "NaN"
    | Inf false => "Infinity"
    | Inf true => "-Infinity"
    | Fin q => Str.of_Z (Qfloor q)
    end.

End Num.

(** ** Dynamically typed values

    What a property read [record[key]] can yield on the records of the data
    model: nothing, a number, a string, or a nested plain object. *)

Inductive jsvalue :=
| VUndefined
| VNumber (n : number)
| VString (s : string)
| VObject.

Module Value.

  (** [typeof v === 'string'] *)
Definition is_string (v : jsvalue) : bool :=
    match v with VString _ => true | _ => false end.

  (** [parseFloat(v)]: the argument is first converted to a string; the
      numeral of a number reads back as that number. *)
Definition parseFloat (v : jsvalue) : number :=
    match v with
    | VUndefined => Num.parseFloat "undefined"
    | VNumber n => n
    | VString s => Num.parseFloat s
    | VObject => Num.parseFloat "[object Object]"
    end.

  (** ToPrimitive: a plain object becomes the string [[object Object]]. *)
Definition to_primitive (v : jsvalue) : jsvalue :=
    match v with VObject => VString "[object Object]" | _ => v end.

  (** ToNumber on a primitive. *)
Definition to_number (v : jsvalue) : number :=
    match v with
    | VUndefined => NaN
    | VNumber n => n
    | VString s => Num.of_string s
    | VObject => NaN
    end.

  (** [a < b]: two strings compare by code units, anything else as
      numbers. *)
Definition lt (a b : jsvalue) : bool :=
    match to_primitive a, to_primitive b with
    | VString x, VString y => Str.lt x y
    | x, y => Num.lt (to_number x) (to_number y)
    end.

Definition gt (a b : jsvalue) : bool := lt b a.

End Value.

(** ** The data model (generator.js) *)

Module NodeMetadata.
Record t := make { version : string; hardware : string; bandwidth : number }.
End NodeMetadata.

Module Node.
Record t := make {
    nodeId : string;
    operatorAddress : string;
    nodeType : string;
    region : string;
    status : string;
    stakedAmount : string;
    totalRewardsEarned : string;
    uptime : string;
    validationsPerformed : number;
    validationsSuccessful : number;
    validationsFailed : number;
    slashingEvents : number;
    registeredAt : number;
    lastHeartbeat : number;
    metadata : NodeMetadata.t
  }.

  (** [node[key]] *)
Definition get (n : t) (key : string) : jsvalue :=
    if String.eqb key "nodeId" then VString (nodeId n)
    else if String.eqb key "operatorAddress" then VString (operatorAddress n)
    else if String.eqb key "nodeType" then VString (nodeType n)
    else if String.eqb key "region" then VString (region n)
    else if String.eqb key "status" then VString (status n)
    else if String.eqb key "stakedAmount" then VString (stakedAmount n)
    else if String.eqb key "totalRewardsEarned" then VString (totalRewardsEarned n)
    else if String.eqb key "uptime" then VString (uptime n)
    else if String.eqb key "validationsPerformed" then VNumber (validationsPerformed n)
    else if String.eqb key "validationsSuccessful" then VNumber (validationsSuccessful n)
    else if String.eqb key "validationsFailed" then VNumber (validationsFailed n)
    else if String.eqb key "slashingEvents" then VNumber (slashingEvents n)
    else if String.eqb key "registeredAt" then VNumber (registeredAt n)
    else if String.eqb key "lastHeartbeat" then VNumber (lastHeartbeat n)
    else if String.eqb key "metadata" then VObject
    else VUndefined.
End Node.

Module Staker.
Record t := make {
    stakerId : string;
    walletAddress : string;
    stakedAmount : string;
    pendingRewards : string;
    claimedRewards : string;
    lockPeriod : number;
    unlockTime : number;
    stakingMultiplier : number;
    delegatedTo : string
  }.

  (** [staker[key]] *)
Definition get (s : t) (key : string) : jsvalue :=
    if String.eqb key "stakerId" then VString (stakerId s)
    else if String.eqb key "walletAddress" then VString (walletAddress s)
    else if String.eqb key "stakedAmount" then VString (stakedAmount s)
    else if String.eqb key "pendingRewards" then VString (pendingRewards s)
    else if String.eqb key "claimedRewards" then VString (claimedRewards s)
    else if String.eqb key "lockPeriod" then VNumber (lockPeriod s)
    else if String.eqb key "unlockTime" then VNumber (unlockTime s)
    else if String.eqb key "stakingMultiplier" then VNumber (stakingMultiplier s)
    else if String.eqb key "delegatedTo" then VString (delegatedTo s)
    else VUndefined.
End Staker.

Module HealthRecord.
  (** [value] is a one-decimal string for BLOOD_OXYGEN and a number for the
      other data types. *)
Record t := make {
    recordId : string;
    userAddress : string;
    dataType : string;
    value : jsvalue;
    unit : string;
    deviceType : string;
    timestamp : number;
    validatedBy : string;
    validationStatus : string;
    rewardEarned : string
  }.

  (** [record[key]] *)
Definition get (r : t) (key : string) : jsvalue :=
    if String.eqb key "recordId" then VString (recordId r)
    else if String.eqb key "userAddress" then VString (userAddress r)
    else if String.eqb key "dataType" then VString (dataType r)
    else if String.eqb key "value" then value r
    else if String.eqb key "unit" then VString (unit r)
    else if String.eqb key "deviceType" then VString (deviceType r)
    else if String.eqb key "timestamp" then VNumber (timestamp r)
    else if String.eqb key "validatedBy" then VString (validatedBy r)
    else if String.eqb key "validationStatus" then VString (validationStatus r)
    else if String.eqb key "rewardEarned" then VString (rewardEarned r)
    else VUndefined.
End HealthRecord.

Module NodeReward.
Record t := make { nodeId : string; reward : string; validations : number }.
End NodeReward.

Module Epoch.
  (** [nodeRewards] is [None] when the property is missing, which the
      route handlers guard against. *)
Record t := make {
    epochNumber : number;
    startTime : number;
    endTime : number;
    totalRewardsPool : string;
    totalValidations : number;
    activeNodes : number;
    activeStakers : number;
    nodeRewards : option (list NodeReward.t)
  }.
End Epoch.

Module Transaction.
Record t := make {
    txHash : string;
    txType : string;
    from : string;
    to : string;
    amount : string;
    gasUsed : number;
    gasPrice : number;
    timestamp : number;
    blockNumber : number;
    status : string;
    nonce : number
  }.

  (** [tx[key]] *)
Definition get (x : t) (key : string) : jsvalue :=
    if String.eqb key "txHash" then VString (txHash x)
    else if String.eqb key "txType" then VString (txType x)
    else if String.eqb key "from" then VString (from x)
    else if String.eqb key "to" then VString (to x)
    else if String.eqb key "amount" then VString (amount x)
    else if String.eqb key "gasUsed" then VNumber (gasUsed x)
    else if String.eqb key "gasPrice" then VNumber (gasPrice x)
    else if String.eqb key "timestamp" then VNumber (timestamp x)
    else if String.eqb key "blockNumber" then VNumber (blockNumber x)
    else if String.eqb key "status" then VString (status x)
    else if String.eqb key "nonce" then VNumber (nonce x)
    else VUndefined.
End Transaction.

Module Metadata.
Record t := make { generatedAt : string; version : string }.
End Metadata.

(** What the data module exports once loaded. *)
Record Dataset := {
  ds_metadata : Metadata.t;
  ds_nodes : list Node.t;
  ds_stakers : list Staker.t;
  ds_healthRecords : list HealthRecord.t;
  ds_epochs : list Epoch.t;
  ds_transactions : list Transaction.t
}.

(** ** Response payloads built by the handlers *)

Module EpochSummary.
Record t := make {
    epochNumber : number;
    startTime : number;
    endTime : number;
    totalRewardsPool : string;
    totalValidations : number;
    activeNodes : number;
    activeStakers : number;
    topNodeRewardsCount : Z
  }.
End EpochSummary.

Module CurrentEpoch.
Record t := make {
    epochNumber : number;
    startTime : number;
    endTime : number;
    totalRewardsPool : string;
    totalValidations : number;
    activeNodes : number;
    activeStakers : number;
    topRewards : list NodeReward.t
  }.
End CurrentEpoch.

Module TopStaker.
Record t := make {
    stakerId : string;
    walletAddress : string;
    stakedAmount : string;
    delegatedTo : string
  }.
End TopStaker.

Module RecentTx.
Record t := make {
    txHash : string;
    txType : string;
    amount : string;
    timestamp : number;
    status : string
  }.
End RecentTx.

Module RewardsTrend.
Record t := make {
    epoch : number;
    rewards : string;
    validations : number;
    activeNodes : number
  }.
End RewardsTrend.

Module DayCount.
Record t := make { date : string; count : Z }.
End DayCount.

Module NodeSummary.
Record t := make {
    nodeId : string;
    nodeType : string;
    status : string;
    uptime : string
  }.
End NodeSummary.

Record Pagination := {
  page : Z;
  limit : Z;
  totalItems : Z;
  totalPages : Z;
  hasMore : bool
}.

Record Page (T : Type) := { data : list T; pagination : Pagination }.
Arguments data {T} _.
Arguments pagination {T} _.

(** [res.json(body)] answers with status 200; [res.status(c).json({error})]
    with the given status and an [error] string. *)
Inductive response (B : Type) :=
| Json (body : B)
| JsonError (status : Z) (error : string).
Arguments Json {B} _.
Arguments JsonError {B} _ _.


(** ** The heap of arrays *)

Inductive cell :=
| ANode (l : list Node.t)
| AStaker (l : list Staker.t)
| ARecord (l : list HealthRecord.t)
| AEpoch (l : list Epoch.t)
| ATx (l : list Transaction.t)
| AString (l : list string)
| AEpochSummary (l : list EpochSummary.t)
| ATopStaker (l : list TopStaker.t)
| ARecentTx (l : list RecentTx.t)
| ATrend (l : list RewardsTrend.t)
| ADay (l : list DayCount.t).

Abbreviation heap := (list cell).

(** The element types an array can hold. *)
Class Elem (T : Type) := {
  wrap : list T -> cell;
  unwrap : cell -> option (list T);
  unwrap_wrap : forall l, unwrap (wrap l) = Some l
}.

#[export] Instance elem_node : Elem Node.t :=
  {| wrap := ANode; unwrap c := match c with ANode l => Some l | _ => None end;
     unwrap_wrap _ := eq_refl |}.
#[export] Instance elem_staker : Elem Staker.t :=
  {| wrap := AStaker; unwrap c := match c with AStaker l => Some l | _ => None end;
     unwrap_wrap _ := eq_refl |}.
#[export] Instance elem_record : Elem HealthRecord.t :=
  {| wrap := ARecord; unwrap c := match c with ARecord l => Some l | _ => None end;
     unwrap_wrap _ := eq_refl |}.
#[export] Instance elem_epoch : Elem Epoch.t :=
  {| wrap := AEpoch; unwrap c := match c with AEpoch l => Some l | _ => None end;
     unwrap_wrap _ := eq_refl |}.
#[export] Instance elem_tx : Elem Transaction.t :=
  {| wrap := ATx; unwrap c := match c with ATx l => Some l | _ => None end;
     unwrap_wrap _ := eq_refl |}.
#[export] Instance elem_string : Elem string :=
  {| wrap := AString; unwrap c := match c with AString l => Some l | _ => None end;
     unwrap_wrap _ := eq_refl |}.
#[export] Instance elem_epoch_summary : Elem EpochSummary.t :=
  {| wrap := AEpochSummary;
     unwrap c := match c with AEpochSummary l => Some l | _ => None end;
     unwrap_wrap _ := eq_refl |}.
#[export] Instance elem_top_staker : Elem TopStaker.t :=
  {| wrap := ATopStaker; unwrap c := match c with ATopStaker l => Some l | _ => None end;
     unwrap_wrap _ := eq_refl |}.
#[export] Instance elem_recent_tx : Elem RecentTx.t :=
  {| wrap := ARecentTx; unwrap c := match c with ARecentTx l => Some l | _ => None end;
     unwrap_wrap _ := eq_refl |}.
#[export] Instance elem_trend : Elem RewardsTrend.t :=
  {| wrap := ATrend; unwrap c := match c with ATrend l => Some l | _ => None end;
     unwrap_wrap _ := eq_refl |}.
#[export] Instance elem_day : Elem DayCount.t :=
  {| wrap := ADay; unwrap c := match c with ADay l => Some l | _ => None end;
     unwrap_wrap _ := eq_refl |}.

(** A reference to an array of [T]. *)
Record ref (T : Type) := Ref { loc : nat }.
Arguments Ref {T} _.
Arguments loc {T} _.

(** ** Computations: heap passing with exceptions *)

Inductive outcome (A : Type) :=
| Ok (a : A)
| Throw (error : string).
Arguments Ok {A} _.
Arguments Throw {A} _.

Definition M (A : Type) : Type := heap -> outcome A * heap.

#[export] Instance M_ret : MRet M := fun A a h => (Ok a, h).

#[export] Instance M_bind : MBind M := fun A B f m h =>
  match m h with
  | (Ok a, h') => f a h'
  | (Throw e, h') => (Throw e, h')
  end.

Definition throw {A} (e : string) : M A := fun h => (Throw e, h).

(** [try { body } catch (error) { handler }] *)
Definition try_catch {A} (body : M A) (handler : string -> M A) : M A := fun h =>
  match body h with
  | (Ok a, h') => (Ok a, h')
  | (Throw e, h') => handler e h'
  end.

Module Arr.
Section Ops.
Context {T : Type} `{Elem T}.

  (** Reading the cell behind a reference.  A dangling or ill-typed
      reference cannot be built by the handlers; it raises. *)
Definition read (r : ref T) : M (list T) := fun h =>
    match h !! loc r with
    | Some c =>
        match unwrap c with
        | Some l => (Ok l, h)
        | None => (Throw "TypeError", h)
        end
    | None => (Throw "ReferenceError", h)
    end.

Definition alloc (l : list T) : M (ref T) := fun h =>
    (Ok (Ref (length h)), h ++ [wrap l]).

Definition write (r : ref T) (l : list T) : M () := fun h =>
    (Ok (), <[loc r := wrap l]> h).

  (** [[...xs]] *)
Definition spread (xs : ref T) : M (ref T) :=
    l ← read xs; alloc l.

  (** [xs.filter(p)] *)
Definition filter (p : T -> bool) (xs : ref T) : M (ref T) :=
    l ← read xs; alloc (List.filter p l).

  (** [xs.length] *)
Definition length (xs : ref T) : M Z :=
    l ← read xs; mret (Z.of_nat (List.length l)).

  (** A relative index of [slice], clamped to the array. *)
Definition clamp_index (len i : Z) : Z :=
    if i <? 0 then Z.max (len + i) 0 else Z.min i len.

Definition slice_list (l : list T) (start stop : Z) : list T :=
    let len := Z.of_nat (List.length l) in
    let k := clamp_index len start in
    let final := clamp_index len stop in
    take (Z.to_nat (final - k)) (drop (Z.to_nat k) l).

  (** [xs.slice(start, stop)] *)
Definition slice (xs : ref T) (start stop : Z) : M (ref T) :=
    l ← read xs; alloc (slice_list l start stop).

  (** The place of [x] in a sorted list: before the first element it must
      precede. *)
Fixpoint insert (cmp : T -> T -> number) (x : T) (l : list T) : list T :=
    match l with
    | [] => [x]
    | y :: l' =>
        if Num.lt (cmp x y) (Fin 0%Q) then x :: l else y :: insert cmp x l'
    end.

Definition sort_list (cmp : T -> T -> number) (l : list T) : list T :=
    foldl (fun acc x => insert cmp x acc) [] l.

  (** [xs.sort(cmp)]: sorts the array in place and returns it. *)
Definition sort (cmp : T -> T -> number) (xs : ref T) : M (ref T) :=
    l ← read xs; _ ← write xs (sort_list cmp l); mret xs.

  (** [xs.reverse()]: in place. *)
Definition reverse (xs : ref T) : M (ref T) :=
    l ← read xs; _ ← write xs (rev l); mret xs.

  (** [xs.push(x)] *)
Definition push (xs : ref T) (x : T) : M () :=
    l ← read xs; write xs (l ++ [x]).

  (** [xs.find(p)]; [None] is [undefined]. *)
Definition find (p : T -> bool) (xs : ref T) : M (option T) :=
    l ← read xs; mret (List.find p l).

  (** [xs.reduce(f, init)] *)
Definition reduce {B} (f : B -> T -> B) (init : B) (xs : ref T) : M B :=
    l ← read xs; mret (foldl f init l).

  (** [xs.reduce(f)], which raises on an empty array. *)
Definition reduce1 (f : T -> T -> T) (xs : ref T) : M T :=
    l ← read xs;
    match l with
    | [] => throw "TypeError: Reduce of empty array with no initial value"
    | x :: l' => mret (foldl f x l')
    end.

  (** The elements, as [res.json] serialises them. *)
Definition elements (xs : ref T) : M (list T) := read xs.

End Ops.

  (** [xs.map(f)] *)
Definition map {T U} `{Elem T} `{Elem U} (f : T -> U) (xs : ref T) : M (ref U) :=
    l ← read xs; alloc (List.map f l).

End Arr.

(** The default comparator of [sort()]: code unit order of the strings. *)
Definition default_compare (a b : string) : number :=
  if Str.lt a b then Num.of_Z (-1) else if Str.lt b a then Num.of_Z 1 else Num.of_Z 0.

(** [new Set(xs)], as the list of its elements in insertion order. *)
Definition set_of (xs : list string) : list string :=
  foldl (fun acc x => if bool_decide (x ∈ acc) then acc else acc ++ [x]) [] xs.

(** The bindings of [require('../data/data')]. *)
Record exports := {
  metadata : Metadata.t;
  nodes : ref Node.t;
  stakers : ref Staker.t;
  healthRecords : ref HealthRecord.t;
  epochs : ref Epoch.t;
  transactions : ref Transaction.t
}.

(** Loading the data module: one array per collection. *)
Definition load_heap (ds : Dataset) : heap :=
  [ANode (ds_nodes ds); AStaker (ds_stakers ds); ARecord (ds_healthRecords ds);
   AEpoch (ds_epochs ds); ATx (ds_transactions ds)].

Definition load_exports (ds : Dataset) : exports :=
  {| metadata := ds_metadata ds;
     nodes := Ref 0; stakers := Ref 1; healthRecords := Ref 2;
     epochs := Ref 3; transactions := Ref 4 |}.

(** ** Requests *)

(** [req.query] and [req.params]: names to string values; a missing name
    reads as [undefined]. *)
Record request := {
  query : gmap string string;
  params : gmap string string
}.

(** ToString of a possibly undefined string. *)
Definition js_string (v : option string) : string := default "undefined"%string v.

(** [x || d] where [x] is the result of [parseInt]. *)
Definition or_default (x : option Z) (d : Z) : Z :=
  match x with
  | Some n => if n =? 0 then d else n
  | None => d
  end.

(** [if (v) { then_ } else { else_ }] on a possibly undefined string. *)
Definition if_truthy {A} (v : option string) (then_ : string -> A) (else_ : A) : A :=
  match v with
  | Some s => if Str.truthy s then then_ s else else_
  | None => else_
  end.

(** [Math.ceil(a / b)] on integers. *)
Definition ceil_div (a b : Z) : Z := Qceiling (inject_Z a / inject_Z b)%Q.

Definition int_number (x : option Z) : number :=
  match x with Some z => Num.of_Z z | None => NaN end.

(** The first two statements of every list handler:
    [Math.max(1, parseInt(req.query.page) || 1)] and
    [Math.min(100, Math.max(1, parseInt(req.query.limit) || 20))]. *)
Definition parse_page (req : request) : Z :=
  Z.max 1 (or_default (Num.parseInt (js_string (query req !! "page"))) 1).

Definition parse_limit (req : request) : Z :=
  Z.min 100 (Z.max 1 (or_default (Num.parseInt (js_string (query req !! "limit"))) 20)).

(** The sort comparator of the nodes, stakers and transactions lists, given
    the two property values read off the records. *)
Definition compare_parsed (sortOrder : string) (aVal bVal : jsvalue) : number :=
  let '(aVal, bVal) :=
    if Value.is_string aVal && negb (Num.isNaN (Value.parseFloat aVal))
    then (VNumber (Value.parseFloat aVal), VNumber (Value.parseFloat bVal))
    else (aVal, bVal) in
  if String.eqb sortOrder "asc"
  then (if Value.gt aVal bVal then Num.of_Z 1 else Num.of_Z (-1))
  else (if Value.lt aVal bVal then Num.of_Z 1 else Num.of_Z (-1)).

(** The sort comparator of the health-records list. *)
Definition compare_raw (sortOrder : string) (aVal bVal : jsvalue) : number :=
  if String.eqb sortOrder "asc"
  then (if Value.gt aVal bVal then Num.of_Z 1 else Num.of_Z (-1))
  else (if Value.lt aVal bVal then Num.of_Z 1 else Num.of_Z (-1)).

Definition page_info (page limit totalItems totalPages : Z) : Pagination :=
  {| page := page; limit := limit; totalItems := totalItems;
     totalPages := totalPages; hasMore := page <? totalPages |}.

(** ** Aggregates *)

(** One step of [acc[key] = (acc[key] || 0) + 1]. *)
Definition count_into {T} (key : T -> string) (acc : gmap string Z) (x : T)
  : gmap string Z :=
  <[key x := default 0 (acc !! key x) + 1]> acc.

(** One step of [acc[key] = (acc[key] || 0) + amount]. *)
Definition add_into {T} (key : T -> string) (amount : T -> number)
    (acc : gmap string number) (x : T) : gmap string number :=
  <[key x := Num.add (match acc !! key x with
                      | Some v => if Num.truthy v then v else Num.of_Z 0
                      | None => Num.of_Z 0
                      end) (amount x)]> acc.

Fixpoint for_each {A} (l : list A) (body : A -> M ()) : M () :=
  match l with
  | [] => mret ()
  | x :: l' => _ ← body x; for_each l' body
  end.

Module Date.

Definition dayMs : Z := 24 * 60 * 60 * 1000.

  (** The civil date of a day number counted from 1970-01-01. *)
Definition civil (days : Z) : Z * Z * Z :=
    let z := days + 719468 in
    let era := z / 146097 in
    let doe := z - era * 146097 in
    let yoe := (doe - doe / 1460 + doe / 36524 - doe / 146096) / 365 in
    let doy := doe - (365 * yoe + yoe / 4 - yoe / 100) in
    let mp := (5 * doy + 2) / 153 in
    let d := doy - (153 * mp + 2) / 5 + 1 in
    let m := if mp <? 10 then mp + 3 else mp - 9 in
    let y := yoe + era * 400 + (if m <=? 2 then 1 else 0) in
    (y, m, d).

Definition year_string (y : Z) : string :=
    if (0 <=? y) && (y <=? 9999) then Str.fixed_digits 4 y
    else String (if y <? 0 then "-"%char else "+"%char) (Str.fixed_digits 6 (Z.abs y)).

  (** [new Date(ms).toISOString().split('T')[0]] *)
Definition iso_day (ms : Z) : M string :=
    if Z.abs ms <=? 8640000000000000 then
      let '(y, m, d) := civil (ms / dayMs) in
      mret (year_string y +:+ "-" +:+ Str.fixed_digits 2 m +:+ "-" +:+ Str.fixed_digits 2 d)
    else throw "RangeError: Invalid time value".

End Date.

Module NodeStats.
Record t := make {
    totalNodes : Z;
    activeNodes : Z;
    totalStaked : string;
    totalRewards : string;
    avgUptime : string;
    totalValidations : number;
    byType : gmap string Z;
    byStatus : gmap string Z;
    byRegion : gmap string Z
  }.
End NodeStats.

Module StakerStats.
Record t := make {
    totalStakers : Z;
    totalStaked : string;
    totalPendingRewards : string;
    totalClaimedRewards : string;
    avgStake : string;
    avgMultiplier : string;
    byLockPeriod : gmap string Z;
    topStakers : list TopStaker.t
  }.
End StakerStats.

Module HealthStats.
Record t := make {
    totalRecords : Z;
    validatedRecords : Z;
    pendingRecords : Z;
    rejectedRecords : Z;
    validationRate : string;
    uniqueUsers : Z;
    byDataType : gmap string Z;
    byDeviceType : gmap string Z;
    recordsByDay : list DayCount.t
  }.
End HealthStats.

Module EpochStats.
Record t := make {
    totalEpochs : Z;
    totalRewardsDistributed : string;
    totalValidationsAllTime : number;
    avgRewardsPerEpoch : string;
    avgValidationsPerEpoch : number;
    avgActiveNodes : number;
    avgActiveStakers : number;
    rewardsTrend : list RewardsTrend.t
  }.
End EpochStats.

Module TxStats.
Record t := make {
    totalTransactions : Z;
    confirmedTxs : Z;
    pendingTxs : Z;
    failedTxs : Z;
    successRate : string;
    totalVolume : string;
    totalGasUsed : number;
    avgGasPrice : string;
    byType : gmap string Z;
    volumeByType : gmap string string;
    recentTxs : list RecentTx.t
  }.
End TxStats.

(** ** routes/nodes.js *)

Module NodesRoute.
Section Handlers.
Variable module : exports.

  (** GET /api/nodes *)
Definition index (req : request) : M (response (Page Node.t)) :=
    try_catch
      (let page := parse_page req in
       let limit := parse_limit req in
       let status := query req !! "status" in
       let nodeType := query req !! "nodeType" in
       let region := query req !! "region" in
       let sortBy := query req !! "sortBy" in
       let sortOrder := default "desc"%string (query req !! "sortOrder") in
       filteredNodes ← Arr.spread (nodes module);
       filteredNodes ← if_truthy status (fun status =>
           Arr.filter (fun n => String.eqb (Node.status n) (Str.toUpperCase status))
             filteredNodes) (mret filteredNodes);
       filteredNodes ← if_truthy nodeType (fun nodeType =>
           Arr.filter (fun n => String.eqb (Node.nodeType n) (Str.toUpperCase nodeType))
             filteredNodes) (mret filteredNodes);
       filteredNodes ← if_truthy region (fun region =>
           Arr.filter (fun n => String.eqb (Node.region n) (Str.toUpperCase region))
             filteredNodes) (mret filteredNodes);
       _ ← if_truthy sortBy (fun sortBy =>
           Arr.sort (fun a b =>
               compare_parsed sortOrder (Node.get a sortBy) (Node.get b sortBy))
             filteredNodes) (mret filteredNodes);
       totalItems ← Arr.length filteredNodes;
       let totalPages := ceil_div totalItems limit in
       let startIndex := (page - 1) * limit in
       paginatedNodes ← Arr.slice filteredNodes startIndex (startIndex + limit);
       data ← Arr.elements paginatedNodes;
       mret (Json {| data := data;
                     pagination := page_info page limit totalItems totalPages |}))
      (fun _ => mret (JsonError 500 "Failed to fetch nodes")).

  (** GET /api/nodes/:nodeId *)
Definition by_id (req : request) : M (response Node.t) :=
    try_catch
      (node ← Arr.find (fun n => bool_decide (Some (Node.nodeId n) = params req !! "nodeId"))
                (nodes module);
       match node with
       | None => mret (JsonError 404 "Node not found")
       | Some node => mret (Json node)
       end)
      (fun _ => mret (JsonError 500 "Failed to fetch node")).

  (** GET /api/nodes/stats *)
Definition stats (req : request) : M (response NodeStats.t) :=
    try_catch
      (totalNodes ← Arr.length (nodes module);
       active ← Arr.filter (fun n => String.eqb (Node.status n) "ACTIVE") (nodes module);
       activeNodes ← Arr.length active;
       totalStaked ← Arr.reduce (fun sum n =>
           Num.add sum (Num.parseFloat (Node.stakedAmount n))) (Num.of_Z 0) (nodes module);
       totalRewards ← Arr.reduce (fun sum n =>
           Num.add sum (Num.parseFloat (Node.totalRewardsEarned n))) (Num.of_Z 0)
           (nodes module);
       uptimes ← Arr.reduce (fun sum n =>
           Num.add sum (Num.parseFloat (Node.uptime n))) (Num.of_Z 0) (nodes module);
       let avgUptime := Num.div uptimes (Num.of_Z totalNodes) in
       totalValidations ← Arr.reduce (fun sum n =>
           Num.add sum (Node.validationsPerformed n)) (Num.of_Z 0) (nodes module);
       byType ← Arr.reduce (count_into Node.nodeType) ∅ (nodes module);
       byStatus ← Arr.reduce (count_into Node.status) ∅ (nodes module);
       byRegion ← Arr.reduce (count_into Node.region) ∅ (nodes module);
       mret (Json
         {| NodeStats.totalNodes := totalNodes;
            NodeStats.activeNodes := activeNodes;
            NodeStats.totalStaked := Num.toFixed totalStaked 2;
            NodeStats.totalRewards := Num.toFixed totalRewards 2;
            NodeStats.avgUptime := Num.toFixed avgUptime 2;
            NodeStats.totalValidations := totalValidations;
            NodeStats.byType := byType;
            NodeStats.byStatus := byStatus;
            NodeStats.byRegion := byRegion |}))
      (fun _ => mret (JsonError 500 "Failed to fetch node stats")).

End Handlers.
End NodesRoute.

(** ** routes/stakers.js *)

Inductive delegated :=
| DelegatedNull
| DelegatedUndefined
| DelegatedNode (n : NodeSummary.t).

Module StakerDetail.
  (** [{...staker, delegatedNode}] *)
Record t := make { staker : Staker.t; delegatedNode : delegated }.
End StakerDetail.

Module StakersRoute.
Section Handlers.
Variable module : exports.

  (** GET /api/stakers *)
Definition index (req : request) : M (response (Page Staker.t)) :=
    try_catch
      (let page := parse_page req in
       let limit := parse_limit req in
       let minStake := query req !! "minStake" in
       let maxStake := query req !! "maxStake" in
       let sortBy := query req !! "sortBy" in
       let sortOrder := default "desc"%string (query req !! "sortOrder") in
       filteredStakers ← Arr.spread (stakers module);
       filteredStakers ← if_truthy minStake (fun minStake =>
           Arr.filter (fun s =>
               Num.ge (Num.parseFloat (Staker.stakedAmount s)) (Num.parseFloat minStake))
             filteredStakers) (mret filteredStakers);
       filteredStakers ← if_truthy maxStake (fun maxStake =>
           Arr.filter (fun s =>
               Num.le (Num.parseFloat (Staker.stakedAmount s)) (Num.parseFloat maxStake))
             filteredStakers) (mret filteredStakers);
       _ ← if_truthy sortBy (fun sortBy =>
           Arr.sort (fun a b =>
               compare_parsed sortOrder (Staker.get a sortBy) (Staker.get b sortBy))
             filteredStakers) (mret filteredStakers);
       totalItems ← Arr.length filteredStakers;
       let totalPages := ceil_div totalItems limit in
       let startIndex := (page - 1) * limit in
       paginatedStakers ← Arr.slice filteredStakers startIndex (startIndex + limit);
       data ← Arr.elements paginatedStakers;
       mret (Json {| data := data;
                     pagination := page_info page limit totalItems totalPages |}))
      (fun _ => mret (JsonError 500 "Failed to fetch stakers")).

  (** GET /api/stakers/:stakerId *)
Definition by_id (req : request) : M (response StakerDetail.t) :=
    try_catch
      (staker ← Arr.find
           (fun s => bool_decide (Some (Staker.stakerId s) = params req !! "stakerId"))
           (stakers module);
       match staker with
       | None => mret (JsonError 404 "Staker not found")
       | Some staker =>
           delegatedNode ←
             (if Str.truthy (Staker.delegatedTo staker) then
                delegatedNode ← Arr.find
                    (fun n => String.eqb (Node.nodeId n) (Staker.delegatedTo staker))
                    (nodes module);
                mret match delegatedNode with
                     | Some delegatedNode =>
                         DelegatedNode
                           {| NodeSummary.nodeId := Node.nodeId delegatedNode;
                              NodeSummary.nodeType := Node.nodeType delegatedNode;
                              NodeSummary.status := Node.status delegatedNode;
                              NodeSummary.uptime := Node.uptime delegatedNode |}
                     | None => DelegatedUndefined
                     end
              else mret DelegatedNull);
           mret (Json {| StakerDetail.staker := staker;
                         StakerDetail.delegatedNode := delegatedNode |})
       end)
      (fun _ => mret (JsonError 500 "Failed to fetch staker")).

  (** GET /api/stakers/wallet/:address *)
Definition by_wallet (req : request) : M (response Staker.t) :=
    try_catch
      (match params req !! "address" with
       | None => throw "TypeError"
       | Some address =>
           staker ← Arr.find
               (fun s => String.eqb (Str.toLowerCase (Staker.walletAddress s))
                           (Str.toLowerCase address))
               (stakers module);
           match staker with
           | None => mret (JsonError 404 "Staker not found")
           | Some staker => mret (Json staker)
           end
       end)
      (fun _ => mret (JsonError 500 "Failed to fetch staker")).

  (** GET /api/stakers/stats *)
Definition stats (req : request) : M (response StakerStats.t) :=
    try_catch
      (totalStakers ← Arr.length (stakers module);
       totalStaked ← Arr.reduce (fun sum s =>
           Num.add sum (Num.parseFloat (Staker.stakedAmount s))) (Num.of_Z 0)
           (stakers module);
       totalPendingRewards ← Arr.reduce (fun sum s =>
           Num.add sum (Num.parseFloat (Staker.pendingRewards s))) (Num.of_Z 0)
           (stakers module);
       totalClaimedRewards ← Arr.reduce (fun sum s =>
           Num.add sum (Num.parseFloat (Staker.claimedRewards s))) (Num.of_Z 0)
           (stakers module);
       let avgStake := Num.div totalStaked (Num.of_Z totalStakers) in
       multipliers ← Arr.reduce (fun sum s =>
           Num.add sum (Staker.stakingMultiplier s)) (Num.of_Z 0) (stakers module);
       let avgMultiplier := Num.div multipliers (Num.of_Z totalStakers) in
       byLockPeriod ← Arr.reduce (count_into (fun s =>
           Num.to_string (Staker.lockPeriod s) +:+ " days")) ∅ (stakers module);
       copy ← Arr.spread (stakers module);
       sorted ← Arr.sort (fun a b =>
           Num.sub (Num.parseFloat (Staker.stakedAmount b))
                   (Num.parseFloat (Staker.stakedAmount a))) copy;
       top ← Arr.slice sorted 0 10;
       topStakers ← Arr.map (fun s =>
           {| TopStaker.stakerId := Staker.stakerId s;
              TopStaker.walletAddress := Staker.walletAddress s;
              TopStaker.stakedAmount := Staker.stakedAmount s;
              TopStaker.delegatedTo := Staker.delegatedTo s |}) top;
       topStakers ← Arr.elements topStakers;
       mret (Json
         {| StakerStats.totalStakers := totalStakers;
            StakerStats.totalStaked := Num.toFixed totalStaked 2;
            StakerStats.totalPendingRewards := Num.toFixed totalPendingRewards 2;
            StakerStats.totalClaimedRewards := Num.toFixed totalClaimedRewards 2;
            StakerStats.avgStake := Num.toFixed avgStake 2;
            StakerStats.avgMultiplier := Num.toFixed avgMultiplier 4;
            StakerStats.byLockPeriod := byLockPeriod;
            StakerStats.topStakers := topStakers |}))
      (fun _ => mret (JsonError 500 "Failed to fetch staker stats")).

End Handlers.
End StakersRoute.

(** ** routes/healthRecords.js *)

Module HealthRecordsRoute.
Section Handlers.
Variable module : exports.

  (** GET /api/health-records *)
Definition index (req : request) : M (response (Page HealthRecord.t)) :=
    try_catch
      (let page := parse_page req in
       let limit := parse_limit req in
       let dataType := query req !! "dataType" in
       let deviceType := query req !! "deviceType" in
       let validationStatus := query req !! "validationStatus" in
       let userAddress := query req !! "userAddress" in
       let startDate := query req !! "startDate" in
       let endDate := query req !! "endDate" in
       let sortBy := default "timestamp"%string (query req !! "sortBy") in
       let sortOrder := default "desc"%string (query req !! "sortOrder") in
       filteredRecords ← Arr.spread (healthRecords module);
       filteredRecords ← if_truthy dataType (fun dataType =>
           Arr.filter (fun r =>
               String.eqb (HealthRecord.dataType r) (Str.toUpperCase dataType))
             filteredRecords) (mret filteredRecords);
       filteredRecords ← if_truthy deviceType (fun deviceType =>
           Arr.filter (fun r =>
               String.eqb (HealthRecord.deviceType r) (Str.toUpperCase deviceType))
             filteredRecords) (mret filteredRecords);
       filteredRecords ← if_truthy validationStatus (fun validationStatus =>
           Arr.filter (fun r =>
               String.eqb (HealthRecord.validationStatus r)
                 (Str.toUpperCase validationStatus))
             filteredRecords) (mret filteredRecords);
       filteredRecords ← if_truthy userAddress (fun userAddress =>
           Arr.filter (fun r =>
               String.eqb (Str.toLowerCase (HealthRecord.userAddress r))
                 (Str.toLowerCase userAddress))
             filteredRecords) (mret filteredRecords);
       filteredRecords ← if_truthy startDate (fun startDate =>
           Arr.filter (fun r =>
               Num.ge (HealthRecord.timestamp r) (int_number (Num.parseInt startDate)))
             filteredRecords) (mret filteredRecords);
       filteredRecords ← if_truthy endDate (fun endDate =>
           Arr.filter (fun r =>
               Num.le (HealthRecord.timestamp r) (int_number (Num.parseInt endDate)))
             filteredRecords) (mret filteredRecords);
       _ ← Arr.sort (fun a b =>
               compare_raw sortOrder (HealthRecord.get a sortBy) (HealthRecord.get b sortBy))
             filteredRecords;
       totalItems ← Arr.length filteredRecords;
       let totalPages := ceil_div totalItems limit in
       let startIndex := (page - 1) * limit in
       paginatedRecords ← Arr.slice filteredRecords startIndex (startIndex + limit);
       data ← Arr.elements paginatedRecords;
       mret (Json {| data := data;
                     pagination := page_info page limit totalItems totalPages |}))
      (fun _ => mret (JsonError 500 "Failed to fetch health records")).

  (** GET /api/health-records/data-types *)
Definition data_types (req : request) : M (response (list string)) :=
    try_catch
      (mapped ← Arr.map HealthRecord.dataType (healthRecords module);
       names ← Arr.elements mapped;
       dataTypes ← Arr.alloc (set_of names);
       dataTypes ← Arr.sort default_compare dataTypes;
       body ← Arr.elements dataTypes;
       mret (Json body))
      (fun _ => mret (JsonError 500 "Failed to fetch data types")).

  (** GET /api/health-records/device-types *)
Definition device_types (req : request) : M (response (list string)) :=
    try_catch
      (mapped ← Arr.map HealthRecord.deviceType (healthRecords module);
       names ← Arr.elements mapped;
       deviceTypes ← Arr.alloc (set_of names);
       deviceTypes ← Arr.sort default_compare deviceTypes;
       body ← Arr.elements deviceTypes;
       mret (Json body))
      (fun _ => mret (JsonError 500 "Failed to fetch device types")).

  (** GET /api/health-records/:recordId *)
Definition by_id (req : request) : M (response HealthRecord.t) :=
    try_catch
      (record ← Arr.find
           (fun r => bool_decide (Some (HealthRecord.recordId r) = params req !! "recordId"))
           (healthRecords module);
       match record with
       | None => mret (JsonError 404 "Health record not found")
       | Some record => mret (Json record)
       end)
      (fun _ => mret (JsonError 500 "Failed to fetch health record")).

  (** GET /api/health-records/stats; [now] is the reading of [Date.now()]. *)
Definition stats (now : Z) (req : request) : M (response HealthStats.t) :=
    try_catch
      (totalRecords ← Arr.length (healthRecords module);
       validated ← Arr.filter (fun r =>
           String.eqb (HealthRecord.validationStatus r) "VALIDATED") (healthRecords module);
       validatedRecords ← Arr.length validated;
       pending ← Arr.filter (fun r =>
           String.eqb (HealthRecord.validationStatus r) "PENDING") (healthRecords module);
       pendingRecords ← Arr.length pending;
       rejected ← Arr.filter (fun r =>
           String.eqb (HealthRecord.validationStatus r) "REJECTED") (healthRecords module);
       rejectedRecords ← Arr.length rejected;
       byDataType ← Arr.reduce (count_into HealthRecord.dataType) ∅ (healthRecords module);
       byDeviceType ← Arr.reduce (count_into HealthRecord.deviceType) ∅
           (healthRecords module);
       users ← Arr.map HealthRecord.userAddress (healthRecords module);
       users ← Arr.elements users;
       let uniqueUsers := Z.of_nat (length (set_of users)) in
       let dayMs := Date.dayMs in
       recordsByDay ← Arr.alloc [];
       _ ← for_each [6; 5; 4; 3; 2; 1; 0] (fun i =>
           let dayStart := now - (i + 1) * dayMs in
           let dayEnd := now - i * dayMs in
           inDay ← Arr.filter (fun r =>
               Num.ge (HealthRecord.timestamp r) (Num.of_Z dayStart)
               && Num.lt (HealthRecord.timestamp r) (Num.of_Z dayEnd))
               (healthRecords module);
           count ← Arr.length inDay;
           date ← Date.iso_day dayEnd;
           Arr.push recordsByDay {| DayCount.date := date; DayCount.count := count |});
       recordsByDay ← Arr.elements recordsByDay;
       mret (Json
         {| HealthStats.totalRecords := totalRecords;
            HealthStats.validatedRecords := validatedRecords;
            HealthStats.pendingRecords := pendingRecords;
            HealthStats.rejectedRecords := rejectedRecords;
            HealthStats.validationRate :=
              Num.toFixed (Num.mul (Num.div (Num.of_Z validatedRecords)
                                            (Num.of_Z totalRecords)) (Num.of_Z 100)) 2;
            HealthStats.uniqueUsers := uniqueUsers;
            HealthStats.byDataType := byDataType;
            HealthStats.byDeviceType := byDeviceType;
            HealthStats.recordsByDay := recordsByDay |}))
      (fun _ => mret (JsonError 500 "Failed to fetch health record stats")).

End Handlers.
End HealthRecordsRoute.

(** ** routes/epochs.js *)

Module EpochsRoute.
Section Handlers.
Variable module : exports.

  (** GET /api/epochs *)
Definition index (req : request) : M (response (Page EpochSummary.t)) :=
    try_catch
      (let page := parse_page req in
       let limit := parse_limit req in
       let sortOrder := default "desc"%string (query req !! "sortOrder") in
       copy ← Arr.spread (epochs module);
       sortedEpochs ← Arr.sort (fun a b =>
           if String.eqb sortOrder "asc"
           then Num.sub (Epoch.epochNumber a) (Epoch.epochNumber b)
           else Num.sub (Epoch.epochNumber b) (Epoch.epochNumber a)) copy;
       totalItems ← Arr.length sortedEpochs;
       let totalPages := ceil_div totalItems limit in
       let startIndex := (page - 1) * limit in
       sliced ← Arr.slice sortedEpochs startIndex (startIndex + limit);
       paginatedEpochs ← Arr.map (fun e =>
           {| EpochSummary.epochNumber := Epoch.epochNumber e;
              EpochSummary.startTime := Epoch.startTime e;
              EpochSummary.endTime := Epoch.endTime e;
              EpochSummary.totalRewardsPool := Epoch.totalRewardsPool e;
              EpochSummary.totalValidations := Epoch.totalValidations e;
              EpochSummary.activeNodes := Epoch.activeNodes e;
              EpochSummary.activeStakers := Epoch.activeStakers e;
              EpochSummary.topNodeRewardsCount :=
                match Epoch.nodeRewards e with
                | Some nodeRewards => Z.of_nat (length nodeRewards)
                | None => 0
                end |}) sliced;
       data ← Arr.elements paginatedEpochs;
       mret (Json {| data := data;
                     pagination := page_info page limit totalItems totalPages |}))
      (fun _ => mret (JsonError 500 "Failed to fetch epochs")).

  (** GET /api/epochs/current *)
Definition current (req : request) : M (response CurrentEpoch.t) :=
    try_catch
      (currentEpoch ← Arr.reduce1 (fun max e =>
           if Num.gt (Epoch.epochNumber e) (Epoch.epochNumber max) then e else max)
           (epochs module);
       mret (Json
         {| CurrentEpoch.epochNumber := Epoch.epochNumber currentEpoch;
            CurrentEpoch.startTime := Epoch.startTime currentEpoch;
            CurrentEpoch.endTime := Epoch.endTime currentEpoch;
            CurrentEpoch.totalRewardsPool := Epoch.totalRewardsPool currentEpoch;
            CurrentEpoch.totalValidations := Epoch.totalValidations currentEpoch;
            CurrentEpoch.activeNodes := Epoch.activeNodes currentEpoch;
            CurrentEpoch.activeStakers := Epoch.activeStakers currentEpoch;
            CurrentEpoch.topRewards :=
              match Epoch.nodeRewards currentEpoch with
              | Some nodeRewards => Arr.slice_list nodeRewards 0 10
              | None => []
              end |}))
      (fun _ => mret (JsonError 500 "Failed to fetch current epoch")).

  (** GET /api/epochs/:epochNumber *)
Definition by_number (req : request) : M (response Epoch.t) :=
    try_catch
      (let epochNum := int_number (Num.parseInt (js_string (params req !! "epochNumber"))) in
       epoch ← Arr.find (fun e => Num.eqb (Epoch.epochNumber e) epochNum) (epochs module);
       match epoch with
       | None => mret (JsonError 404 "Epoch not found")
       | Some epoch =>
           mret (Json
             {| Epoch.epochNumber := Epoch.epochNumber epoch;
                Epoch.startTime := Epoch.startTime epoch;
                Epoch.endTime := Epoch.endTime epoch;
                Epoch.totalRewardsPool := Epoch.totalRewardsPool epoch;
                Epoch.totalValidations := Epoch.totalValidations epoch;
                Epoch.activeNodes := Epoch.activeNodes epoch;
                Epoch.activeStakers := Epoch.activeStakers epoch;
                Epoch.nodeRewards :=
                  Some match Epoch.nodeRewards epoch with
                       | Some nodeRewards => Arr.slice_list nodeRewards 0 50
                       | None => []
                       end |})
       end)
      (fun _ => mret (JsonError 500 "Failed to fetch epoch")).

  (** GET /api/epochs/stats *)
Definition stats (req : request) : M (response EpochStats.t) :=
    try_catch
      (totalEpochs ← Arr.length (epochs module);
       totalRewardsDistributed ← Arr.reduce (fun sum e =>
           Num.add sum (Num.parseFloat (Epoch.totalRewardsPool e))) (Num.of_Z 0)
           (epochs module);
       totalValidationsAllTime ← Arr.reduce (fun sum e =>
           Num.add sum (Epoch.totalValidations e)) (Num.of_Z 0) (epochs module);
       let avgRewardsPerEpoch := Num.div totalRewardsDistributed (Num.of_Z totalEpochs) in
       let avgValidationsPerEpoch :=
         Num.div totalValidationsAllTime (Num.of_Z totalEpochs) in
       nodeSum ← Arr.reduce (fun sum e => Num.add sum (Epoch.activeNodes e)) (Num.of_Z 0)
           (epochs module);
       let avgActiveNodes := Num.div nodeSum (Num.of_Z totalEpochs) in
       stakerSum ← Arr.reduce (fun sum e => Num.add sum (Epoch.activeStakers e))
           (Num.of_Z 0) (epochs module);
       let avgActiveStakers := Num.div stakerSum (Num.of_Z totalEpochs) in
       copy ← Arr.spread (epochs module);
       sorted ← Arr.sort (fun a b =>
           Num.sub (Epoch.epochNumber b) (Epoch.epochNumber a)) copy;
       sliced ← Arr.slice sorted 0 10;
       recentEpochs ← Arr.reverse sliced;
       rewardsTrend ← Arr.map (fun e =>
           {| RewardsTrend.epoch := Epoch.epochNumber e;
              RewardsTrend.rewards := Num.toFixed (Num.parseFloat (Epoch.totalRewardsPool e)) 2;
              RewardsTrend.validations := Epoch.totalValidations e;
              RewardsTrend.activeNodes := Epoch.activeNodes e |}) recentEpochs;
       rewardsTrend ← Arr.elements rewardsTrend;
       mret (Json
         {| EpochStats.totalEpochs := totalEpochs;
            EpochStats.totalRewardsDistributed := Num.toFixed totalRewardsDistributed 2;
            EpochStats.totalValidationsAllTime := totalValidationsAllTime;
            EpochStats.avgRewardsPerEpoch := Num.toFixed avgRewardsPerEpoch 2;
            EpochStats.avgValidationsPerEpoch := Num.round avgValidationsPerEpoch;
            EpochStats.avgActiveNodes := Num.round avgActiveNodes;
            EpochStats.avgActiveStakers := Num.round avgActiveStakers;
            EpochStats.rewardsTrend := rewardsTrend |}))
      (fun _ => mret (JsonError 500 "Failed to fetch epoch stats")).

End Handlers.
End EpochsRoute.

(** ** routes/transactions.js *)

Module TransactionsRoute.
Section Handlers.
Variable module : exports.

  (** GET /api/transactions *)
Definition index (req : request) : M (response (Page Transaction.t)) :=
    try_catch
      (let page := parse_page req in
       let limit := parse_limit req in
       let txType := query req !! "txType" in
       let status := query req !! "status" in
       let address := query req !! "address" in
       let startDate := query req !! "startDate" in
       let endDate := query req !! "endDate" in
       let sortBy := default "timestamp"%string (query req !! "sortBy") in
       let sortOrder := default "desc"%string (query req !! "sortOrder") in
       filteredTxs ← Arr.spread (transactions module);
       filteredTxs ← if_truthy txType (fun txType =>
           Arr.filter (fun tx =>
               String.eqb (Transaction.txType tx) (Str.toUpperCase txType))
             filteredTxs) (mret filteredTxs);
       filteredTxs ← if_truthy status (fun status =>
           Arr.filter (fun tx =>
               String.eqb (Transaction.status tx) (Str.toUpperCase status))
             filteredTxs) (mret filteredTxs);
       filteredTxs ← if_truthy address (fun address =>
           let addr := Str.toLowerCase address in
           Arr.filter (fun tx =>
               String.eqb (Str.toLowerCase (Transaction.from tx)) addr
               || String.eqb (Str.toLowerCase (Transaction.to tx)) addr)
             filteredTxs) (mret filteredTxs);
       filteredTxs ← if_truthy startDate (fun startDate =>
           Arr.filter (fun tx =>
               Num.ge (Transaction.timestamp tx) (int_number (Num.parseInt startDate)))
             filteredTxs) (mret filteredTxs);
       filteredTxs ← if_truthy endDate (fun endDate =>
           Arr.filter (fun tx =>
               Num.le (Transaction.timestamp tx) (int_number (Num.parseInt endDate)))
             filteredTxs) (mret filteredTxs);
       _ ← Arr.sort (fun a b =>
               compare_parsed sortOrder (Transaction.get a sortBy) (Transaction.get b sortBy))
             filteredTxs;
       totalItems ← Arr.length filteredTxs;
       let totalPages := ceil_div totalItems limit in
       let startIndex := (page - 1) * limit in
       paginatedTxs ← Arr.slice filteredTxs startIndex (startIndex + limit);
       data ← Arr.elements paginatedTxs;
       mret (Json {| data := data;
                     pagination := page_info page limit totalItems totalPages |}))
      (fun _ => mret (JsonError 500 "Failed to fetch transactions")).

  (** GET /api/transactions/types *)
Definition types (req : request) : M (response (list string)) :=
    try_catch
      (mapped ← Arr.map Transaction.txType (transactions module);
       names ← Arr.elements mapped;
       types ← Arr.alloc (set_of names);
       types ← Arr.sort default_compare types;
       body ← Arr.elements types;
       mret (Json body))
      (fun _ => mret (JsonError 500 "Failed to fetch transaction types")).

  (** GET /api/transactions/:txHash *)
Definition by_hash (req : request) : M (response Transaction.t) :=
    try_catch
      (tx ← Arr.find
           (fun t => bool_decide (Some (Transaction.txHash t) = params req !! "txHash"))
           (transactions module);
       match tx with
       | None => mret (JsonError 404 "Transaction not found")
       | Some tx => mret (Json tx)
       end)
      (fun _ => mret (JsonError 500 "Failed to fetch transaction")).

  (** GET /api/transactions/stats *)
Definition stats (req : request) : M (response TxStats.t) :=
    try_catch
      (totalTransactions ← Arr.length (transactions module);
       confirmed ← Arr.filter (fun tx => String.eqb (Transaction.status tx) "CONFIRMED")
           (transactions module);
       confirmedTxs ← Arr.length confirmed;
       pending ← Arr.filter (fun tx => String.eqb (Transaction.status tx) "PENDING")
           (transactions module);
       pendingTxs ← Arr.length pending;
       failed ← Arr.filter (fun tx => String.eqb (Transaction.status tx) "FAILED")
           (transactions module);
       failedTxs ← Arr.length failed;
       totalVolume ← Arr.reduce (fun sum tx =>
           Num.add sum (Num.parseFloat (Transaction.amount tx))) (Num.of_Z 0)
           (transactions module);
       totalGasUsed ← Arr.reduce (fun sum tx => Num.add sum (Transaction.gasUsed tx))
           (Num.of_Z 0) (transactions module);
       gasPrices ← Arr.reduce (fun sum tx => Num.add sum (Transaction.gasPrice tx))
           (Num.of_Z 0) (transactions module);
       let avgGasPrice := Num.div gasPrices (Num.of_Z totalTransactions) in
       byType ← Arr.reduce (count_into Transaction.txType) ∅ (transactions module);
       volumeByType ← Arr.reduce
           (add_into Transaction.txType (fun tx => Num.parseFloat (Transaction.amount tx)))
           ∅ (transactions module);
       let volumeByType := (fun v => Num.toFixed v 2) <$> volumeByType in
       copy ← Arr.spread (transactions module);
       sorted ← Arr.sort (fun a b =>
           Num.sub (Transaction.timestamp b) (Transaction.timestamp a)) copy;
       sliced ← Arr.slice sorted 0 10;
       recentTxs ← Arr.map (fun tx =>
           {| RecentTx.txHash := Transaction.txHash tx;
              RecentTx.txType := Transaction.txType tx;
              RecentTx.amount := Transaction.amount tx;
              RecentTx.timestamp := Transaction.timestamp tx;
              RecentTx.status := Transaction.status tx |}) sliced;
       recentTxs ← Arr.elements recentTxs;
       mret (Json
         {| TxStats.totalTransactions := totalTransactions;
            TxStats.confirmedTxs := confirmedTxs;
            TxStats.pendingTxs := pendingTxs;
            TxStats.failedTxs := failedTxs;
            TxStats.successRate :=
              Num.toFixed (Num.mul (Num.div (Num.of_Z confirmedTxs)
                                            (Num.of_Z totalTransactions)) (Num.of_Z 100)) 2;
            TxStats.totalVolume := Num.toFixed totalVolume 2;
            TxStats.totalGasUsed := totalGasUsed;
            TxStats.avgGasPrice := Num.toFixed avgGasPrice 2;
            TxStats.byType := byType;
            TxStats.volumeByType := volumeByType;
            TxStats.recentTxs := recentTxs |}))
      (fun _ => mret (JsonError 500 "Failed to fetch transaction stats")).

End Handlers.
End TransactionsRoute.

(** ** routes/stats.js *)

Module PlatformStats.
Record metadata_t := { generatedAt : string; version : string }.
Record network_t := {
  totalNodes : Z;
  activeNodes : Z;
  totalNodeStake : string;
  avgUptime : string;
  networkHealth : string
}.
Record staking_t := {
  totalStakers : Z;
  totalStaked : string;
  totalPendingRewards : string;
  avgStakePerUser : string
}.
Record healthData_t := {
  totalRecords : Z;
  validatedRecords : Z;
  pendingRecords : Z;
  validationRate : string;
  uniqueUsers : Z
}.
Record rewards_t := {
  totalEpochs : Z;
  currentEpoch : number;
  totalRewardsDistributed : string;
  avgRewardsPerEpoch : string
}.
Record transactions_t := {
  totalTransactions : Z;
  totalVolume : string;
  confirmedRate : string
}.
Record t := make {
  metadata : metadata_t;
  network : network_t;
  staking : staking_t;
  healthData : healthData_t;
  rewards : rewards_t;
  transactions : transactions_t
}.
End PlatformStats.

Module StatsOverview.
Record t := make {
  activeNodes : Z;
  totalStaked : string;
  healthRecordsValidated : Z;
  totalRewardsDistributed : string;
  totalUsers : Z;
  totalTransactions : Z
}.
End StatsOverview.

Module StatsRoute.
Section Handlers.
Variable module : exports.

(** GET /api/stats *)
Definition index (req : request) : M (response PlatformStats.t) :=
  try_catch
    (totalNodes ← Arr.length (nodes module);
     active ← Arr.filter (fun n => String.eqb (Node.status n) "ACTIVE") (nodes module);
     activeNodes ← Arr.length active;
     totalNodeStake ← Arr.reduce (fun sum n =>
         Num.add sum (Num.parseFloat (Node.stakedAmount n))) (Num.of_Z 0) (nodes module);
     totalStakers ← Arr.length (stakers module);
     totalStaked ← Arr.reduce (fun sum s =>
         Num.add sum (Num.parseFloat (Staker.stakedAmount s))) (Num.of_Z 0)
         (stakers module);
     totalPendingRewards ← Arr.reduce (fun sum s =>
         Num.add sum (Num.parseFloat (Staker.pendingRewards s))) (Num.of_Z 0)
         (stakers module);
     totalHealthRecords ← Arr.length (healthRecords module);
     validated ← Arr.filter (fun r =>
         String.eqb (HealthRecord.validationStatus r) "VALIDATED") (healthRecords module);
     validatedRecords ← Arr.length validated;
     users ← Arr.map HealthRecord.userAddress (healthRecords module);
     users ← Arr.elements users;
     let uniqueUsers := Z.of_nat (length (set_of users)) in
     totalEpochs ← Arr.length (epochs module);
     currentEpoch ← Arr.reduce1 (fun max e =>
         if Num.gt (Epoch.epochNumber e) (Epoch.epochNumber max) then e else max)
         (epochs module);
     totalRewardsDistributed ← Arr.reduce (fun sum e =>
         Num.add sum (Num.parseFloat (Epoch.totalRewardsPool e))) (Num.of_Z 0)
         (epochs module);
     totalTransactions ← Arr.length (transactions module);
     totalVolume ← Arr.reduce (fun sum tx =>
         Num.add sum (Num.parseFloat (Transaction.amount tx))) (Num.of_Z 0)
         (transactions module);
     uptimes ← Arr.reduce (fun sum n =>
         Num.add sum (Num.parseFloat (Node.uptime n))) (Num.of_Z 0) (nodes module);
     let avgUptime := Num.div uptimes (Num.of_Z totalNodes) in
     let validationRate :=
       Num.mul (Num.div (Num.of_Z validatedRecords) (Num.of_Z totalHealthRecords))
               (Num.of_Z 100) in
     let activeNodeRate :=
       Num.mul (Num.div (Num.of_Z activeNodes) (Num.of_Z totalNodes)) (Num.of_Z 100) in
     let networkHealth :=
       Num.toFixed
         (Num.div (Num.add (Num.add avgUptime validationRate) activeNodeRate) (Num.of_Z 3))
         1 in
     pending ← Arr.filter (fun r =>
         String.eqb (HealthRecord.validationStatus r) "PENDING") (healthRecords module);
     pendingRecords ← Arr.length pending;
     confirmed ← Arr.filter (fun tx => String.eqb (Transaction.status tx) "CONFIRMED")
         (transactions module);
     confirmedTxs ← Arr.length confirmed;
     mret (Json
       {| PlatformStats.metadata :=
            {| PlatformStats.generatedAt := Metadata.generatedAt (metadata module);
               PlatformStats.version := Metadata.version (metadata module) |};
          PlatformStats.network :=
            {| PlatformStats.totalNodes := totalNodes;
               PlatformStats.activeNodes := activeNodes;
               PlatformStats.totalNodeStake := Num.toFixed totalNodeStake 2;
               PlatformStats.avgUptime := Num.toFixed avgUptime 2;
               PlatformStats.networkHealth := networkHealth |};
          PlatformStats.staking :=
            {| PlatformStats.totalStakers := totalStakers;
               PlatformStats.totalStaked := Num.toFixed totalStaked 2;
               PlatformStats.totalPendingRewards := Num.toFixed totalPendingRewards 2;
               PlatformStats.avgStakePerUser :=
                 Num.toFixed (Num.div totalStaked (Num.of_Z totalStakers)) 2 |};
          PlatformStats.healthData :=
            {| PlatformStats.totalRecords := totalHealthRecords;
               PlatformStats.validatedRecords := validatedRecords;
               PlatformStats.pendingRecords := pendingRecords;
               PlatformStats.validationRate := Num.toFixed validationRate 2;
               PlatformStats.uniqueUsers := uniqueUsers |};
          PlatformStats.rewards :=
            {| PlatformStats.totalEpochs := totalEpochs;
               PlatformStats.currentEpoch := Epoch.epochNumber currentEpoch;
               PlatformStats.totalRewardsDistributed :=
                 Num.toFixed totalRewardsDistributed 2;
               PlatformStats.avgRewardsPerEpoch :=
                 Num.toFixed (Num.div totalRewardsDistributed (Num.of_Z totalEpochs)) 2 |};
          PlatformStats.transactions :=
            {| PlatformStats.totalTransactions := totalTransactions;
               PlatformStats.totalVolume := Num.toFixed totalVolume 2;
               PlatformStats.confirmedRate :=
                 Num.toFixed (Num.mul (Num.div (Num.of_Z confirmedTxs)
                                               (Num.of_Z totalTransactions))
                                      (Num.of_Z 100)) 2 |} |}))
    (fun _ => mret (JsonError 500 "Failed to fetch platform stats")).

(** GET /api/stats/overview *)
Definition overview (req : request) : M (response StatsOverview.t) :=
  try_catch
    (active ← Arr.filter (fun n => String.eqb (Node.status n) "ACTIVE") (nodes module);
     activeNodes ← Arr.length active;
     totalStaked ← Arr.reduce (fun sum s =>
         Num.add sum (Num.parseFloat (Staker.stakedAmount s))) (Num.of_Z 0)
         (stakers module);
     validated ← Arr.filter (fun r =>
         String.eqb (HealthRecord.validationStatus r) "VALIDATED") (healthRecords module);
     validatedRecords ← Arr.length validated;
     totalRewards ← Arr.reduce (fun sum e =>
         Num.add sum (Num.parseFloat (Epoch.totalRewardsPool e))) (Num.of_Z 0)
         (epochs module);
     users ← Arr.map HealthRecord.userAddress (healthRecords module);
     users ← Arr.elements users;
     totalTransactions ← Arr.length (transactions module);
     mret (Json
       {| StatsOverview.activeNodes := activeNodes;
          StatsOverview.totalStaked := Num.toFixed totalStaked 2;
          StatsOverview.healthRecordsValidated := validatedRecords;
          StatsOverview.totalRewardsDistributed := Num.toFixed totalRewards 2;
          StatsOverview.totalUsers := Z.of_nat (length (set_of users));
          StatsOverview.totalTransactions := totalTransactions |}))
    (fun _ => mret (JsonError 500 "Failed to fetch overview stats")).

End Handlers.
End StatsRoute.

(** ** generator.js

    The generator draws from [Math.random()] and reads [Date.now()]; both
    are oracles here: the k-th draw is [random k], the k-th clock reading
    is [clock k]. *)

Record world := { draws : nat; ticks : nat }.

Definition G (A : Type) : Type := world -> A * world.

#[export] Instance G_ret : MRet G := fun A a w => (a, w).

#[export] Instance G_bind : MBind G := fun A B f m w =>
  let '(a, w') := m w in f a w'.

Fixpoint repeat_gen {A} (n : nat) (i : Z) (body : Z -> G A) : G (list A) :=
  match n with
  | O => mret []
  | S n' => x ← body i; rest ← repeat_gen n' (i + 1) body; mret (x :: rest)
  end.

(** A loop whose body can raise: the first exception ends it. *)
Fixpoint repeat_try {A} (n : nat) (i : Z) (body : Z -> G (outcome A)) : G (outcome (list A)) :=
  match n with
  | O => mret (Ok [])
  | S n' =>
      x ← body i;
      match x with
      | Throw e => mret (Throw e)
      | Ok x =>
          rest ← repeat_try n' (i + 1) body;
          mret (match rest with Ok l => Ok (x :: l) | Throw e => Throw e end)
      end
  end.

(** [arr.map(f)] with a callback that draws. *)
Fixpoint map_gen {A B} (f : A -> G B) (l : list A) : G (list B) :=
  match l with
  | [] => mret []
  | x :: l' => y ← f x; ys ← map_gen f l'; mret (y :: ys)
  end.


Module Generator.
Section Oracles.
Variable random : nat -> Q.
Variable clock : nat -> Z.

(** [Math.random()] *)
Definition Math_random : G number := fun w =>
  (Fin (random (draws w)), {| draws := S (draws w); ticks := ticks w |}).

(** [Date.now()] *)
Definition Date_now : G number := fun w =>
  (Num.of_Z (clock (ticks w)), {| draws := draws w; ticks := S (ticks w) |}).

Definition randomInt (min max : number) : G number :=
  r ← Math_random;
  mret (Num.add (Num.floor (Num.mul r (Num.add (Num.sub max min) (Num.of_Z 1)))) min).

Definition randomFloat (min max : number) (decimals : nat) : G string :=
  r ← Math_random;
  mret (Num.toFixed (Num.add (Num.mul r (Num.sub max min)) min) decimals).

(** [arr[i]] for a number [i]; [None] is [undefined]. *)
Definition at_index {T} (arr : list T) (i : number) : option T :=
  match i with
  | Fin q => if Qle_bool 0 q && Qeq_bool q (inject_Z (Qfloor q))
             then arr !! Z.to_nat (Qfloor q) else None
  | _ => None
  end.

(** [randomChoice(arr)]; [undefined] stands for the out-of-range read,
    which needs a draw outside [0, 1) or an empty array. *)
Definition randomChoice {T} (undefined : T) (arr : list T) : G T :=
  r ← Math_random;
  mret (default undefined
          (at_index arr (Num.floor (Num.mul r (Num.of_Z (Z.of_nat (length arr))))))).

(** [chars[i]] appended to a string: a missing character appends the text
    [undefined]. *)
Definition char_at (chars : string) (i : number) : string :=
  match at_index (list_ascii_of_string chars) i with
  | Some c => String c EmptyString
  | None => "undefined"
  end.

Fixpoint random_hex (n : nat) (acc : string) : G string :=
  match n with
  | O => mret acc
  | S n' =>
      i ← randomInt (Num.of_Z 0) (Num.of_Z 15);
      random_hex n' (acc +:+ char_at "0123456789abcdef" i)
  end.

Definition randomAddress : G string := random_hex 40 "0x".

Definition randomHash : G string := random_hex 64 "0x".

Definition padNumber (num : Z) (width : nat) : string :=
  Str.padStart0 width (Str.of_Z num).

Definition day : number := Num.of_Z (24 * 60 * 60 * 1000).

Definition types : list string := ["VALIDATOR"; "LIGHT"; "RELAY"; "ARCHIVE"].
Definition regions : list string :=
  ["NA-EAST"; "NA-WEST"; "EU-WEST"; "EU-EAST"; "ASIA-PACIFIC"; "LATAM"].
Definition statuses : list string := ["ACTIVE"; "INACTIVE"; "PENDING"; "SLASHED"].
Definition hardware : list string :=
  ["AWS-T3"; "GCP-E2"; "AZURE-B2"; "BARE-METAL"; "HOME-SERVER"].

Definition generateNode (i : Z) : G Node.t :=
  validationsPerformed ← randomInt (Num.of_Z 10000) (Num.of_Z 500000);
  successRate ← randomFloat (Fin 0.90) (Fin 0.99) 4;
  operatorAddress ← randomAddress;
  nodeType ← randomChoice "undefined" types;
  region ← randomChoice "undefined" regions;
  status ← randomChoice "undefined" statuses;
  stakedAmount ← randomFloat (Num.of_Z 1000) (Num.of_Z 100000) 6;
  totalRewardsEarned ← randomFloat (Num.of_Z 100) (Num.of_Z 5000) 6;
  uptime ← randomFloat (Num.of_Z 70) (Fin 99.99) 4;
  slashingEvents ← randomInt (Num.of_Z 0) (Num.of_Z 3);
  now1 ← Date_now;
  age ← randomInt (Num.of_Z 30) (Num.of_Z 365);
  now2 ← Date_now;
  idle ← randomInt (Num.of_Z 0) (Num.of_Z 7);
  major ← randomInt (Num.of_Z 1) (Num.of_Z 3);
  minor ← randomInt (Num.of_Z 0) (Num.of_Z 9);
  patch ← randomInt (Num.of_Z 0) (Num.of_Z 99);
  hw ← randomChoice "undefined" hardware;
  bandwidth ← randomInt (Num.of_Z 500) (Num.of_Z 10000);
  mret {|
    Node.nodeId := "NODE-" +:+ padNumber i 6;
    Node.operatorAddress := operatorAddress;
    Node.nodeType := nodeType;
    Node.region := region;
    Node.status := status;
    Node.stakedAmount := stakedAmount;
    Node.totalRewardsEarned := totalRewardsEarned;
    Node.uptime := uptime;
    Node.validationsPerformed := validationsPerformed;
    Node.validationsSuccessful :=
      Num.floor (Num.mul validationsPerformed (Num.of_string successRate));
    Node.validationsFailed :=
      Num.floor (Num.mul validationsPerformed
                   (Num.sub (Num.of_Z 1) (Num.of_string successRate)));
    Node.slashingEvents := slashingEvents;
    Node.registeredAt := Num.sub now1 (Num.mul age day);
    Node.lastHeartbeat := Num.sub now2 (Num.mul idle day);
    Node.metadata :=
      {| NodeMetadata.version :=
           "v" +:+ Num.to_string major +:+ "." +:+ Num.to_string minor
               +:+ "." +:+ Num.to_string patch;
         NodeMetadata.hardware := hw;
         NodeMetadata.bandwidth := bandwidth |}
  |}.

Definition generateNodes (count : nat) : G (list Node.t) :=
  repeat_gen count 1 generateNode.

Definition dataTypes : list string :=
  ["HEART_RATE"; "STEPS"; "SLEEP"; "ACTIVE_MINUTES"; "CALORIES"; "BLOOD_OXYGEN";
   "STRESS"; "HRV"].
Definition deviceTypes : list string :=
  ["APPLE_WATCH"; "FITBIT"; "GARMIN"; "OURA"; "WHOOP"; "SAMSUNG"; "XIAOMI"].
Definition validationStatuses : list string := ["VALIDATED"; "PENDING"; "REJECTED"].

Definition units : list (string * string) :=
  [("HEART_RATE", "bpm"); ("STEPS", "steps"); ("SLEEP", "minutes");
   ("ACTIVE_MINUTES", "minutes"); ("CALORIES", "kcal"); ("BLOOD_OXYGEN", "%");
   ("STRESS", "score"); ("HRV", "ms")]%string.

Definition valueRanges : list (string * (Z * Z)) :=
  [("HEART_RATE", (50, 180)); ("STEPS", (1000, 20000)); ("SLEEP", (180, 600));
   ("ACTIVE_MINUTES", (0, 300)); ("CALORIES", (1200, 4000));
   ("BLOOD_OXYGEN", (92, 100)); ("STRESS", (1, 100)); ("HRV", (20, 100))]%string.

(** [table[key]] on one of the two lookup tables; every data type has an
    entry, so the fallback is never read. *)
Definition table_get {V} (table : list (string * V)) (key : string) (missing : V) : V :=
  default missing (snd <$> List.find (fun kv => String.eqb (fst kv) key) table).

Definition generateHealthRecord (userAddresses nodeIds : list string) (i : Z)
  : G HealthRecord.t :=
  dataType ← randomChoice "undefined" dataTypes;
  let range := table_get valueRanges dataType (0, 0) in
  userAddress ← randomChoice "undefined" userAddresses;
  value ←
    (if String.eqb dataType "BLOOD_OXYGEN"
     then v ← randomFloat (Num.of_Z (fst range)) (Num.of_Z (snd range)) 1; mret (VString v)
     else v ← randomInt (Num.of_Z (fst range)) (Num.of_Z (snd range)); mret (VNumber v));
  deviceType ← randomChoice "undefined" deviceTypes;
  now ← Date_now;
  age ← randomInt (Num.of_Z 0) (Num.of_Z 30);
  validatedBy ← randomChoice "undefined" nodeIds;
  validationStatus ← randomChoice "undefined" validationStatuses;
  rewardEarned ← randomFloat (Fin 0.1) (Num.of_Z 5) 4;
  mret {|
    HealthRecord.recordId := "REC-" +:+ padNumber i 8;
    HealthRecord.userAddress := userAddress;
    HealthRecord.dataType := dataType;
    HealthRecord.value := value;
    HealthRecord.unit := table_get units dataType "undefined";
    HealthRecord.deviceType := deviceType;
    HealthRecord.timestamp := Num.sub now (Num.mul age day);
    HealthRecord.validatedBy := validatedBy;
    HealthRecord.validationStatus := validationStatus;
    HealthRecord.rewardEarned := rewardEarned
  |}.

Definition generateHealthRecords (count : nat) : G (list HealthRecord.t) :=
  userAddresses ← repeat_gen 200 0 (fun _ => randomAddress);
  let nodeIds := List.map (fun i => "NODE-" +:+ padNumber (Z.of_nat i + 1) 6) (seq 0 100) in
  repeat_gen count 1 (generateHealthRecord userAddresses nodeIds).

Definition lockPeriods : list number :=
  Num.of_Z <$> [7; 14; 30; 60; 90; 180; 365].

(** One turn of the loop of [generateStakers].  [randomChoice(nodes)] is
    [undefined] on an empty array, and reading its [nodeId] raises.  An
    out-of-range [lockPeriod] would be [undefined], which the arithmetic
    turns into [NaN]. *)
Definition generateStaker (nodes : list Node.t) (i : Z) : G (outcome Staker.t) :=
  lockPeriod ← randomChoice NaN lockPeriods;
  stakedAmount ← randomFloat (Num.of_Z 100) (Num.of_Z 50000) 6;
  walletAddress ← randomAddress;
  pendingRewards ← randomFloat (Num.of_Z 10) (Num.of_Z 500) 6;
  claimedRewards ← randomFloat (Num.of_Z 100) (Num.of_Z 2000) 6;
  now ← Date_now;
  node ← randomChoice None (Some <$> nodes);
  match node with
  | None => mret (Throw "TypeError: Cannot read properties of undefined (reading 'nodeId')")
  | Some node =>
      mret (Ok {|
        Staker.stakerId := "STAKER-" +:+ padNumber i 7;
        Staker.walletAddress := walletAddress;
        Staker.stakedAmount := stakedAmount;
        Staker.pendingRewards := pendingRewards;
        Staker.claimedRewards := claimedRewards;
        Staker.lockPeriod := lockPeriod;
        Staker.unlockTime := Num.add now (Num.mul lockPeriod day);
        Staker.stakingMultiplier := Num.add (Num.of_Z 1) (Num.div lockPeriod (Num.of_Z 365));
        Staker.delegatedTo := Node.nodeId node
      |})
  end.

Definition generateStakers (count : nat) (nodes : list Node.t) : G (outcome (list Staker.t)) :=
  repeat_try count 1 (generateStaker nodes).

Definition epochDuration : number := Num.of_Z (7 * 24 * 60 * 60 * 1000).

(** The callback of [nodes.slice(...).map(...)] in [generateEpochs]. *)
Definition generateNodeReward (node : Node.t) : G NodeReward.t :=
  reward ← randomFloat (Num.of_Z 100) (Num.of_Z 2000) 6;
  validations ← randomInt (Num.of_Z 1000) (Num.of_Z 10000);
  mret {| NodeReward.nodeId := Node.nodeId node;
          NodeReward.reward := reward;
          NodeReward.validations := validations |}.

(** One turn of the loop of [generateEpochs]. *)
Definition generateEpoch (nodes : list Node.t) (baseTime : number) (i : Z) : G Epoch.t :=
  let length := Z.of_nat (length nodes) in
  let startTime := Num.add baseTime (Num.mul (Num.of_Z (i - 1)) epochDuration) in
  activeNodes ← randomInt (Num.floor (Num.mul (Num.of_Z length) (Fin 0.7))) (Num.of_Z length);
  nodeRewards ← map_gen generateNodeReward (Arr.slice_list nodes 0 (Z.min 20 length));
  totalRewardsPool ← randomFloat (Num.of_Z 50000) (Num.of_Z 200000) 6;
  totalValidations ← randomInt (Num.of_Z 50000) (Num.of_Z 150000);
  activeStakers ← randomInt (Num.of_Z 300) (Num.of_Z 500);
  mret {|
    Epoch.epochNumber := Num.of_Z i;
    Epoch.startTime := startTime;
    Epoch.endTime := Num.add startTime epochDuration;
    Epoch.totalRewardsPool := totalRewardsPool;
    Epoch.totalValidations := totalValidations;
    Epoch.activeNodes := activeNodes;
    Epoch.activeStakers := activeStakers;
    Epoch.nodeRewards := Some nodeRewards
  |}.

Definition generateEpochs (count : nat) (nodes : list Node.t) : G (list Epoch.t) :=
  now ← Date_now;
  let baseTime := Num.sub now (Num.mul (Num.of_Z (Z.of_nat count)) epochDuration) in
  repeat_gen count 1 (generateEpoch nodes baseTime).

Definition txTypes : list string :=
  ["TRANSFER"; "STAKE"; "UNSTAKE"; "CLAIM_REWARD"; "DELEGATE"; "UNDELEGATE"].

(** The [statuses] of [generateTransactions]. *)
Definition txStatuses : list string := ["CONFIRMED"; "PENDING"; "FAILED"].

(** One turn of the loop of [generateTransactions]. *)
Definition generateTransaction (i : Z) : G Transaction.t :=
  txHash ← randomHash;
  txType ← randomChoice "undefined" txTypes;
  from ← randomAddress;
  to ← randomAddress;
  amount ← randomFloat (Num.of_Z 10) (Num.of_Z 5000) 6;
  gasUsed ← randomInt (Num.of_Z 21000) (Num.of_Z 200000);
  gasPrice ← randomInt (Num.of_Z 20) (Num.of_Z 200);
  now ← Date_now;
  age ← randomInt (Num.of_Z 0) (Num.of_Z 30);
  blockNumber ← randomInt (Num.of_Z 18000000) (Num.of_Z 19000000);
  status ← randomChoice "undefined" txStatuses;
  nonce ← randomInt (Num.of_Z 1) (Num.of_Z 1000);
  mret {|
    Transaction.txHash := txHash;
    Transaction.txType := txType;
    Transaction.from := from;
    Transaction.to := to;
    Transaction.amount := amount;
    Transaction.gasUsed := gasUsed;
    Transaction.gasPrice := gasPrice;
    Transaction.timestamp := Num.sub now (Num.mul age day);
    Transaction.blockNumber := blockNumber;
    Transaction.status := status;
    Transaction.nonce := nonce
  |}.

(** The loop, then [transactions.sort((a, b) => b.timestamp - a.timestamp)]. *)
Definition generateTransactions (count : nat) : G (list Transaction.t) :=
  transactions ← repeat_gen count 1 generateTransaction;
  mret (Arr.sort_list (fun a b =>
          Num.sub (Transaction.timestamp b) (Transaction.timestamp a)) transactions).

End Oracles.
End Generator.

Definition start : world := {| draws := 0; ticks := 0 |}.

(** ** client/src/api/index.ts *)

Inductive param :=
| PUndefined
| PNull
| PString (s : string)
| PNumber (n : number).

Module Client.

Definition hex_digit (d : Z) : ascii :=
  if d <? 10 then Str.of_code (48 + d) else Str.of_code (55 + d).

(** The application/x-www-form-urlencoded byte serialiser. *)
Definition encode_char (c : ascii) : string :=
  if Str.is_digit c || Str.is_lower c || Str.is_upper c
     || (Str.code c =? 42) || (Str.code c =? 45) || (Str.code c =? 46) || (Str.code c =? 95)
  then String c EmptyString
  else if Str.code c =? 32 then "+"
  else String "%" (String (hex_digit (Str.code c / 16))
                     (String (hex_digit (Str.code c mod 16)) EmptyString)).

Fixpoint encode (s : string) : string :=
  match s with
  | EmptyString => EmptyString
  | String c r => encode_char c +:+ encode r
  end.

(** [searchParams.toString()] *)
Definition serialize (searchParams : list (string * string)) : string :=
  String.concat "&" (List.map (fun kv => encode (fst kv) +:+ "=" +:+ encode (snd kv))
                       searchParams).

(** [String(value)] *)
Definition String_of (value : param) : string :=
  match value with
  | PUndefined => "undefined"
  | PNull => "null"
  | PString s => s
  | PNumber n => Num.to_string n
  end.

(** [value !== undefined && value !== null && value !== ''] *)
Definition is_set (value : param) : bool :=
  match value with
  | PUndefined | PNull => false
  | PString s => negb (String.eqb s "")
  | PNumber _ => true
  end.

(** The [URLSearchParams] filled by the [forEach] of [buildQueryString]. *)
Definition searchParams_of (params : list (string * param)) : list (string * string) :=
  foldl (fun searchParams '(key, value) =>
           if is_set value then searchParams ++ [(key, String_of value)]
           else searchParams) [] params.

Definition buildQueryString (params : list (string * param)) : string :=
  let queryString := serialize (searchParams_of params) in
  if Str.truthy queryString then "?" +:+ queryString else "".

End Client.

(** * Specification *)

(** ** Running computations *)

(** [wp m h Q]: running [m] from the heap [h] ends in an outcome and a heap
    that satisfy [Q]. *)
Definition wp {A} (m : M A) (h : heap) (Q : outcome A -> heap -> Prop) : Prop :=
  Q (m h).1 (m h).2.

(** The array behind [r] in the heap [h]. *)
Definition holds_at {T} `{Elem T} (h : heap) (r : ref T) (l : list T) : Prop :=
  h !! loc r = Some (wrap l).

(** An array allocated after the heap [h0] was taken. *)
Definition local {T} `{Elem T} (h0 h : heap) (r : ref T) (l : list T) : Prop :=
  h0 `prefix_of` h /\ (length h0 <= loc r)%nat /\ holds_at h r l.

(** The heap still starts with the five collections of [ds]. *)
Definition stores (ds : Dataset) (h : heap) : Prop := load_heap ds `prefix_of` h.

(** ** The pure content of the list handlers *)

(** [f s] applied when the query value [v] is truthy. *)
Definition when_set {A} (v : option string) (f : string -> A -> A) (x : A) : A :=
  if_truthy v (fun s => f s x) x.

(** The page cut out of the selected records, with its metadata. *)
Definition paginate {T} (l : list T) (page limit : Z) : Page T :=
  {| data := Arr.slice_list l ((page - 1) * limit) ((page - 1) * limit + limit);
     pagination := page_info page limit (Z.of_nat (length l))
                     (ceil_div (Z.of_nat (length l)) limit) |}.

Definition map_page {T U} (f : T -> U) (p : Page T) : Page U :=
  {| data := List.map f (data p); pagination := pagination p |}.

(** A filter of a list endpoint: the query parameter that switches it on and
    the test it applies. *)
Definition filter_spec (T : Type) : Type := string * (string -> T -> bool).



(** The filters as the handlers apply them: one after the other. *)
Definition filter_chain {T} (req : request) (fs : list (filter_spec T)) (l : list T)
  : list T :=
  foldl (fun acc f => when_set (query req !! f.1) (fun s => List.filter (f.2 s)) acc) l fs.

Definition node_filters : list (filter_spec Node.t) :=
  [("status", fun status n => String.eqb (Node.status n) (Str.toUpperCase status));
   ("nodeType", fun nodeType n => String.eqb (Node.nodeType n) (Str.toUpperCase nodeType));
   ("region", fun region n => String.eqb (Node.region n) (Str.toUpperCase region))]%string.

Definition staker_filters : list (filter_spec Staker.t) :=
  [("minStake", fun minStake s =>
      Num.ge (Num.parseFloat (Staker.stakedAmount s)) (Num.parseFloat minStake));
   ("maxStake", fun maxStake s =>
      Num.le (Num.parseFloat (Staker.stakedAmount s)) (Num.parseFloat maxStake))]%string.

Definition record_filters : list (filter_spec HealthRecord.t) :=
  [("dataType", fun dataType r =>
      String.eqb (HealthRecord.dataType r) (Str.toUpperCase dataType));
   ("deviceType", fun deviceType r =>
      String.eqb (HealthRecord.deviceType r) (Str.toUpperCase deviceType));
   ("validationStatus", fun validationStatus r =>
      String.eqb (HealthRecord.validationStatus r) (Str.toUpperCase validationStatus));
   ("userAddress", fun userAddress r =>
      String.eqb (Str.toLowerCase (HealthRecord.userAddress r)) (Str.toLowerCase userAddress));
   ("startDate", fun startDate r =>
      Num.ge (HealthRecord.timestamp r) (int_number (Num.parseInt startDate)));
   ("endDate", fun endDate r =>
      Num.le (HealthRecord.timestamp r) (int_number (Num.parseInt endDate)))]%string.

Definition tx_filters : list (filter_spec Transaction.t) :=
  [("txType", fun txType tx => String.eqb (Transaction.txType tx) (Str.toUpperCase txType));
   ("status", fun status tx => String.eqb (Transaction.status tx) (Str.toUpperCase status));
   ("address", fun address tx =>
      String.eqb (Str.toLowerCase (Transaction.from tx)) (Str.toLowerCase address)
      || String.eqb (Str.toLowerCase (Transaction.to tx)) (Str.toLowerCase address));
   ("startDate", fun startDate tx =>
      Num.ge (Transaction.timestamp tx) (int_number (Num.parseInt startDate)));
   ("endDate", fun endDate tx =>
      Num.le (Transaction.timestamp tx) (int_number (Num.parseInt endDate)))]%string.

Definition sort_order (req : request) : string :=
  default "desc"%string (query req !! "sortOrder").

Definition nodes_sorted (req : request) (l : list Node.t) : list Node.t :=
  when_set (query req !! "sortBy") (fun sortBy =>
    Arr.sort_list (fun a b =>
      compare_parsed (sort_order req) (Node.get a sortBy) (Node.get b sortBy))) l.

Definition stakers_sorted (req : request) (l : list Staker.t) : list Staker.t :=
  when_set (query req !! "sortBy") (fun sortBy =>
    Arr.sort_list (fun a b =>
      compare_parsed (sort_order req) (Staker.get a sortBy) (Staker.get b sortBy))) l.

Definition records_sorted (req : request) (l : list HealthRecord.t) : list HealthRecord.t :=
  let sortBy := default "timestamp"%string (query req !! "sortBy") in
  Arr.sort_list (fun a b =>
    compare_raw (sort_order req) (HealthRecord.get a sortBy) (HealthRecord.get b sortBy)) l.

Definition txs_sorted (req : request) (l : list Transaction.t) : list Transaction.t :=
  let sortBy := default "timestamp"%string (query req !! "sortBy") in
  Arr.sort_list (fun a b =>
    compare_parsed (sort_order req) (Transaction.get a sortBy) (Transaction.get b sortBy)) l.

Definition epochs_sorted (req : request) (l : list Epoch.t) : list Epoch.t :=
  Arr.sort_list (fun a b =>
    if String.eqb (sort_order req) "asc"
    then Num.sub (Epoch.epochNumber a) (Epoch.epochNumber b)
    else Num.sub (Epoch.epochNumber b) (Epoch.epochNumber a)) l.

(** The list item of an epoch. *)
Definition summary_of (e : Epoch.t) : EpochSummary.t :=
  {| EpochSummary.epochNumber := Epoch.epochNumber e;
     EpochSummary.startTime := Epoch.startTime e;
     EpochSummary.endTime := Epoch.endTime e;
     EpochSummary.totalRewardsPool := Epoch.totalRewardsPool e;
     EpochSummary.totalValidations := Epoch.totalValidations e;
     EpochSummary.activeNodes := Epoch.activeNodes e;
     EpochSummary.activeStakers := Epoch.activeStakers e;
     EpochSummary.topNodeRewardsCount :=
       match Epoch.nodeRewards e with
       | Some nodeRewards => Z.of_nat (length nodeRewards)
       | None => 0
       end |}.

(** ** The five list endpoints, uniformly *)

Inductive collection := Nodes | Stakers | HealthRecords | Epochs | Transactions.

Definition item (c : collection) : Type :=
  match c with
  | Nodes => Node.t
  | Stakers => Staker.t
  | HealthRecords => HealthRecord.t
  | Epochs => EpochSummary.t
  | Transactions => Transaction.t
  end.

Definition list_endpoint (c : collection)
  : exports -> request -> M (response (Page (item c))) :=
  match c with
  | Nodes => NodesRoute.index
  | Stakers => StakersRoute.index
  | HealthRecords => HealthRecordsRoute.index
  | Epochs => EpochsRoute.index
  | Transactions => TransactionsRoute.index
  end.




(** ** A small dataset for examples *)

Module Sample.

Definition node (id status stake uptime : string) : Node.t :=
  {| Node.nodeId := id;
     Node.operatorAddress := "0x00000000000000000000000000000000000000aa";
     Node.nodeType := "VALIDATOR";
     Node.region := "EU-WEST";
     Node.status := status;
     Node.stakedAmount := stake;
     Node.totalRewardsEarned := "100.000000";
     Node.uptime := uptime;
     Node.validationsPerformed := Num.of_Z 10000;
     Node.validationsSuccessful := Num.of_Z 9500;
     Node.validationsFailed := Num.of_Z 500;
     Node.slashingEvents := Num.of_Z 0;
     Node.registeredAt := Num.of_Z 1700000000000;
     Node.lastHeartbeat := Num.of_Z 1700000000000;
     Node.metadata :=
       {| NodeMetadata.version := "v1.0.0";
          NodeMetadata.hardware := "AWS-T3";
          NodeMetadata.bandwidth := Num.of_Z 1000 |} |}.

Definition staker (id stake node : string) : Staker.t :=
  {| Staker.stakerId := id;
     Staker.walletAddress := "0x00000000000000000000000000000000000000bb";
     Staker.stakedAmount := stake;
     Staker.pendingRewards := "10.000000";
     Staker.claimedRewards := "100.000000";
     Staker.lockPeriod := Num.of_Z 30;
     Staker.unlockTime := Num.of_Z 1702592000000;
     Staker.stakingMultiplier := Fin (395 # 365);
     Staker.delegatedTo := node |}.

Definition record (id dataType : string) (v : jsvalue) (status : string) : HealthRecord.t :=
  {| HealthRecord.recordId := id;
     HealthRecord.userAddress := "0x00000000000000000000000000000000000000cc";
     HealthRecord.dataType := dataType;
     HealthRecord.value := v;
     HealthRecord.unit := "%";
     HealthRecord.deviceType := "OURA";
     HealthRecord.timestamp := Num.of_Z 1700000000000;
     HealthRecord.validatedBy := "NODE-000001";
     HealthRecord.validationStatus := status;
     HealthRecord.rewardEarned := "1.0000" |}.

Definition reward (k : nat) : NodeReward.t :=
  {| NodeReward.nodeId := "NODE-" +:+ Str.padStart0 6 (Str.of_Z (Z.of_nat k));
     NodeReward.reward := "100.000000";
     NodeReward.validations := Num.of_Z 1000 |}.

Definition epoch (number : Z) (rewards : nat) : Epoch.t :=
  {| Epoch.epochNumber := Num.of_Z number;
     Epoch.startTime := Num.of_Z 1700000000000;
     Epoch.endTime := Num.of_Z 1700604800000;
     Epoch.totalRewardsPool := "50000.000000";
     Epoch.totalValidations := Num.of_Z 60000;
     Epoch.activeNodes := Num.of_Z 2;
     Epoch.activeStakers := Num.of_Z 300;
     Epoch.nodeRewards := Some (List.map reward (seq 1 rewards)) |}.

Definition tx (hash status : string) (time : Z) : Transaction.t :=
  {| Transaction.txHash := hash;
     Transaction.txType := "STAKE";
     Transaction.from := "0x00000000000000000000000000000000000000dd";
     Transaction.to := "0x00000000000000000000000000000000000000ee";
     Transaction.amount := "25.500000";
     Transaction.gasUsed := Num.of_Z 21000;
     Transaction.gasPrice := Num.of_Z 20;
     Transaction.timestamp := Num.of_Z time;
     Transaction.blockNumber := Num.of_Z 18000000;
     Transaction.status := status;
     Transaction.nonce := Num.of_Z 1 |}.

Definition dataset : Dataset :=
  {| ds_metadata := {| Metadata.generatedAt := "2024-01-01T00:00:00.000Z";
                       Metadata.version := "1.0.0" |};
     ds_nodes := [node "NODE-000001" "ACTIVE" "5000.000000" "90.0000";
                  node "NODE-000002" "INACTIVE" "12000.500000" "80.0000";
                  node "NODE-000003" "ACTIVE" "700.250000" "99.5000"];
     ds_stakers := [staker "STAKER-0000001" "100.500000" "NODE-000001";
                    staker "STAKER-0000002" "98.250000" "NODE-000002"];
     ds_healthRecords :=
       [record "REC-00000001" "BLOOD_OXYGEN" (VString "98.5") "VALIDATED";
        record "REC-00000002" "BLOOD_OXYGEN" (VString "100.0") "PENDING";
        record "REC-00000003" "HEART_RATE" (VNumber (Num.of_Z 72)) "VALIDATED"];
     ds_epochs := [epoch 1 20; epoch 2 51];
     ds_transactions := [tx "0x01" "CONFIRMED" 1700000002000;
                         tx "0x02" "FAILED" 1700000001000] |}.

Definition get (q : list (string * string)) : request :=
  {| query := list_to_map q; params := ∅ |}.

Definition lookup (name id : string) : request :=
  {| query := ∅; params := {[ name := id ]} |}.

End Sample.



(** ** Single-record lookups *)

(** The answer of a lookup, given the first stored record that matches. *)
Definition lookup_answer {T B} (found : option T) (body_of : T -> B) (missing : string)
  : response B :=
  match found with
  | Some x => Json (body_of x)
  | None => JsonError 404 missing
  end.

(** The [delegatedNode] property of a staker's detail. *)
Definition delegated_of (nodes : list Node.t) (s : Staker.t) : delegated :=
  if Str.truthy (Staker.delegatedTo s) then
    match List.find (fun n => String.eqb (Node.nodeId n) (Staker.delegatedTo s)) nodes with
    | Some n =>
        DelegatedNode
          {| NodeSummary.nodeId := Node.nodeId n;
             NodeSummary.nodeType := Node.nodeType n;
             NodeSummary.status := Node.status n;
             NodeSummary.uptime := Node.uptime n |}
    | None => DelegatedUndefined
    end
  else DelegatedNull.

(** An epoch with its [nodeRewards] replaced. *)
Definition with_rewards (e : Epoch.t) (rewards : list NodeReward.t) : Epoch.t :=
  {| Epoch.epochNumber := Epoch.epochNumber e;
     Epoch.startTime := Epoch.startTime e;
     Epoch.endTime := Epoch.endTime e;
     Epoch.totalRewardsPool := Epoch.totalRewardsPool e;
     Epoch.totalValidations := Epoch.totalValidations e;
     Epoch.activeNodes := Epoch.activeNodes e;
     Epoch.activeStakers := Epoch.activeStakers e;
     Epoch.nodeRewards := Some rewards |}.

(** The rewards of an epoch, none when the property is missing. *)
Definition rewards_of (e : Epoch.t) : list NodeReward.t := default [] (Epoch.nodeRewards e).

(** The test of [GET /api/epochs/:epochNumber]. *)
Definition epoch_matches (id : option string) (e : Epoch.t) : bool :=
  Num.eqb (Epoch.epochNumber e) (int_number (Num.parseInt (js_string id))).



(** ** The frame of a handler *)

(** A computation keeps the collections when, run from any heap that
    starts with the five collections of [ds], it ends, whatever its
    outcome, in a heap that still starts with them: the same records in the
    same order. *)
Definition keeps_collections {A} (ds : Dataset) (m : M A) : Prop :=
  forall h, stores ds h -> stores ds (m h).2.

(** ** Enumerations and orderings *)

(** Strictly ascending in code unit order. *)
Definition ascending (l : list string) : Prop :=
  Sorted (fun a b => Str.lt a b = true) l.

(** The sentence of the specification on the data-types endpoint: on every
    generated collection, however many records it has, the answer is the
    eight data types in ascending order. *)
Definition data_types_claim : Prop :=
  forall (random : nat -> Q) (clock : nat -> Z) (count : nat) ds req h,
    (forall k, (0 <= random k)%Q /\ (random k < 1)%Q) ->
    ds_healthRecords ds = (Generator.generateHealthRecords random clock count start).1 ->
    stores ds h ->
    exists l,
      (HealthRecordsRoute.data_types (load_exports ds) req h).1 = Ok (Json l)
      /\ ascending l /\ l ≡ₚ Generator.dataTypes.

(** ** The network health score *)

(** The uptime of a node as a rational, when its string is a finite
    numeral. *)
Definition uptime_of (n : Node.t) : Q :=
  match Num.parseFloat (Node.uptime n) with Fin q => q | _ => 0%Q end.

Definition Qsum (l : list Q) : Q := fold_right Qplus 0%Q l.

Definition count_of {T} (p : T -> bool) (l : list T) : Z :=
  Z.of_nat (length (List.filter p l)).

(** [part / total * 100] *)
Definition percentage (part total : Z) : Q := (inject_Z part / inject_Z total * 100)%Q.

Definition avg_uptime (ds : Dataset) : Q :=
  (Qsum (List.map uptime_of (ds_nodes ds)) / inject_Z (Z.of_nat (length (ds_nodes ds))))%Q.

Definition validation_rate (ds : Dataset) : Q :=
  percentage
    (count_of (fun r => String.eqb (HealthRecord.validationStatus r) "VALIDATED")
       (ds_healthRecords ds))
    (Z.of_nat (length (ds_healthRecords ds))).

Definition active_node_rate (ds : Dataset) : Q :=
  percentage (count_of (fun n => String.eqb (Node.status n) "ACTIVE") (ds_nodes ds))
    (Z.of_nat (length (ds_nodes ds))).

(** The unweighted mean of the three percentages. *)
Definition network_health (ds : Dataset) : Q :=
  ((avg_uptime ds + validation_rate ds + active_node_rate ds) / 3)%Q.

(** A dataset on which the three percentages are defined: no collection
    read by the score is empty and every uptime is a numeral in [0, 100]. *)
Definition scored (ds : Dataset) : Prop :=
  ds_nodes ds <> [] /\ ds_healthRecords ds <> [] /\ ds_epochs ds <> []
  /\ Forall (fun n => exists u, Num.parseFloat (Node.uptime n) = Fin u
                               /\ (0 <= u)%Q /\ (u <= 100)%Q) (ds_nodes ds).

(** The sentence of the specification: the score is the mean, printed with
    two decimals. *)
Definition network_health_claim : Prop :=
  forall ds req h,
    stores ds h -> scored ds ->
    exists body h',
      StatsRoute.index (load_exports ds) req h = (Ok (Json body), h')
      /\ PlatformStats.networkHealth (PlatformStats.network body)
         = Num.toFixed (Fin (network_health ds)) 2.

(** The three percentages and the score as the handler computes them, on
    numbers. *)
Definition avg_uptime_number (ds : Dataset) : number :=
  Num.div (foldl (fun sum n => Num.add sum (Num.parseFloat (Node.uptime n)))
             (Num.of_Z 0) (ds_nodes ds))
    (Num.of_Z (Z.of_nat (length (ds_nodes ds)))).

Definition validation_rate_number (ds : Dataset) : number :=
  Num.mul
    (Num.div
       (Num.of_Z (count_of (fun r => String.eqb (HealthRecord.validationStatus r) "VALIDATED")
                    (ds_healthRecords ds)))
       (Num.of_Z (Z.of_nat (length (ds_healthRecords ds)))))
    (Num.of_Z 100).

Definition active_node_rate_number (ds : Dataset) : number :=
  Num.mul
    (Num.div
       (Num.of_Z (count_of (fun n => String.eqb (Node.status n) "ACTIVE") (ds_nodes ds)))
       (Num.of_Z (Z.of_nat (length (ds_nodes ds)))))
    (Num.of_Z 100).

Definition score_number (ds : Dataset) : number :=
  Num.div
    (Num.add (Num.add (avg_uptime_number ds) (validation_rate_number ds))
       (active_node_rate_number ds))
    (Num.of_Z 3).

(** ** The validation counters of a generated node *)

(** The counters of a node split a total [vp] by a success rate [r] with
    four decimals in [0.90, 0.99], both parts rounded down. *)
Definition validations_split (n : Node.t) : Prop :=
  exists (vp : Z) (r : Q) (k : Z),
    (exists q, Node.validationsPerformed n = Fin q /\ (q == inject_Z vp)%Q)
    /\ 10000 <= vp <= 500000
    /\ (r == k # 10000)%Q /\ (0.90 <= r)%Q /\ (r <= 0.99)%Q
    /\ Node.validationsSuccessful n = Num.of_Z (Qfloor (inject_Z vp * r))
    /\ Node.validationsFailed n = Num.of_Z (Qfloor (inject_Z vp * (1 - r)))
    /\ (Qfloor (inject_Z vp * r) + Qfloor (inject_Z vp * (1 - r)) = vp
        \/ Qfloor (inject_Z vp * r) + Qfloor (inject_Z vp * (1 - r)) = vp - 1)
    /\ 0 <= Qfloor (inject_Z vp * r) <= vp
    /\ 0 <= Qfloor (inject_Z vp * (1 - r)) <= vp.

(** The text [toFixed] prints for the scaled integer [n] with four
    decimals. *)
Definition four_decimals (n : Z) : string :=
  Str.of_nonneg (n / 10 ^ 4) +:+ "." +:+ Str.fixed_digits 4 n.

(** Reading [four_decimals n] back gives [n / 10000]. *)
Definition reads_back (n : Z) : bool :=
  match Num.of_string (four_decimals n) with
  | Fin q => Qeq_bool q (n # 10000)
  | _ => false
  end.

(** ** Shapes of generated values *)

(** The draws of [Math.random()] lie in [0, 1). *)
Definition unit_interval (random : nat -> Q) : Prop :=
  forall k, (0 <= random k)%Q /\ (random k < 1)%Q.

(** The world after one more draw. *)
Definition drawn (n : nat) (w : world) : world :=
  {| draws := (draws w + n)%nat; ticks := ticks w |}.

Fixpoint all_chars (p : ascii -> bool) (s : string) : bool :=
  match s with
  | EmptyString => true
  | String c r => p c && all_chars p r
  end.

(** A digit of [0123456789abcdef]. *)
Definition lower_hex (c : ascii) : bool := Str.is_digit c || Str.is_between 97 102 c.

(** The values of the characters of a string of decimal digits. *)
Definition digits_of (s : string) : list Z :=
  Str.digit_val <$> list_ascii_of_string s.

(** [k] characters [0]. *)
Definition zeros (k : nat) : string := String.concat "" (replicate k "0"%string).

(** What one generated staker looks like, given the nodes it chose from
    and its place [i] in the loop. *)
Definition staker_of (nodes : list Node.t) (i : Z) (s : Staker.t) : Prop :=
  Staker.stakerId s = "STAKER-" +:+ Generator.padNumber i 7
  /\ (exists n, n ∈ nodes /\ Staker.delegatedTo s = Node.nodeId n)
  /\ (exists p, p ∈ [7; 14; 30; 60; 90; 180; 365]
        /\ Staker.lockPeriod s = Num.of_Z p
        /\ Staker.stakingMultiplier s = Fin (1 + inject_Z p / 365)).


(** ** A small generated dataset for examples

    Every draw is [1/2] and every clock reading is [1700000000000]. *)

Module Generated.

Definition halves : nat -> Q := fun _ => 1 # 2.

Definition clock : nat -> Z := fun _ => 1700000000000.

Definition nodes : list Node.t := (Generator.generateNodes halves clock 2 start).1.

Definition stakers : list Staker.t :=
  match (Generator.generateStakers halves clock 2 nodes start).1 with
  | Ok l => l
  | Throw _ => []
  end.

Definition healthRecords : list HealthRecord.t :=
  (Generator.generateHealthRecords halves clock 2 start).1.

Definition epochs : list Epoch.t := (Generator.generateEpochs halves clock 3 nodes start).1.

Definition transactions : list Transaction.t :=
  (Generator.generateTransactions halves clock 2 start).1.

Definition dataset : Dataset :=
  {| ds_metadata := {| Metadata.generatedAt := "2023-11-14T22:13:20.000Z";
                       Metadata.version := "1.0.0" |};
     ds_nodes := nodes;
     ds_stakers := stakers;
     ds_healthRecords := healthRecords;
     ds_epochs := epochs;
     ds_transactions := transactions |}.

End Generated.

(** The [delegatedNode] summary of a node. *)
Definition node_summary (n : Node.t) : NodeSummary.t :=
  {| NodeSummary.nodeId := Node.nodeId n;
     NodeSummary.nodeType := Node.nodeType n;
     NodeSummary.status := Node.status n;
     NodeSummary.uptime := Node.uptime n |}.

(** * Properties *)

Lemma wp_ret {A} (a : A) h Q : Q (Ok a) h -> wp (mret a) h Q.
Proof. exact id. Qed.

Lemma wp_throw {A} e h (Q : outcome A -> heap -> Prop) : Q (Throw e) h -> wp (throw e) h Q.
Proof. exact id. Qed.

Lemma wp_bind {A B} (m : M A) (f : A -> M B) h Q :
  wp m h (fun o h' => match o with
                      | Ok a => wp (f a) h' Q
                      | Throw e => Q (Throw e) h'
                      end) ->
  wp (m ≫= f) h Q.
Proof.
  unfold wp, mbind, M_bind. destruct (m h) as [[a|e] h']; simpl; auto.
Qed.

Lemma wp_try {A} (body : M A) handler h Q :
  wp body h (fun o h' => match o with
                         | Ok a => Q (Ok a) h'
                         | Throw e => wp (handler e) h' Q
                         end) ->
  wp (try_catch body handler) h Q.
Proof.
  unfold wp, try_catch. destruct (body h) as [[a|e] h']; simpl; auto.
Qed.

Lemma wp_mono {A} (m : M A) h (Q Q' : outcome A -> heap -> Prop) :
  wp m h Q -> (forall o h', Q o h' -> Q' o h') -> wp m h Q'.
Proof. unfold wp. auto. Qed.

Lemma wp_run {A} (m : M A) h Q : wp m h Q -> exists o h', m h = (o, h') /\ Q o h'.
Proof. unfold wp. destruct (m h) as [o h']. simpl. eauto. Qed.

Lemma holds_at_ext {T} `{Elem T} h h' (r : ref T) l :
  h `prefix_of` h' -> holds_at h r l -> holds_at h' r l.
Proof. intros Hp Hr. unfold holds_at in *. eapply prefix_lookup_Some; eauto. Qed.

Lemma local_ext {T} `{Elem T} h0 h h' (r : ref T) l :
  h `prefix_of` h' -> local h0 h r l -> local h0 h' r l.
Proof.
  intros Hp (H0 & Hr & Hl). repeat split; auto.
  - by etrans.
  - by eapply holds_at_ext.
Qed.

Lemma local_holds {T} `{Elem T} h0 h (r : ref T) l : local h0 h r l -> holds_at h r l.
Proof. by intros (_ & _ & ?). Qed.

Lemma local_prefix {T} `{Elem T} h0 h (r : ref T) l : local h0 h r l -> h0 `prefix_of` h.
Proof. by intros (? & _ & _). Qed.

Section Primitives.
Context {T : Type} `{Elem T}.

Lemma wp_read h (r : ref T) l Q :
  holds_at h r l -> Q (Ok l) h -> wp (Arr.read r) h Q.
Proof.
  unfold wp, Arr.read, holds_at. intros ->. by rewrite unwrap_wrap.
Qed.

Lemma wp_alloc h0 h (l : list T) Q :
  h0 `prefix_of` h ->
  (forall r h', local h0 h' r l -> h `prefix_of` h' -> Q (Ok r) h') ->
  wp (Arr.alloc l) h Q.
Proof.
  intros Hp HQ. unfold wp, Arr.alloc. simpl. apply HQ.
  - repeat split.
    + etrans; [done|]. by apply prefix_app_r.
    + simpl. by apply prefix_length.
    + unfold holds_at. simpl. by apply list_lookup_middle.
  - by apply prefix_app_r.
Qed.

Lemma wp_write h0 h (r : ref T) l l' Q :
  local h0 h r l ->
  (forall h', local h0 h' r l' -> Q (Ok ()) h') ->
  wp (Arr.write r l') h Q.
Proof.
  intros (Hp & Hr & Hl) HQ. unfold wp, Arr.write. simpl. apply HQ.
  unfold holds_at in Hl.
  destruct Hp as [k ->]. repeat split; auto.
  - exists (<[(loc r - length h0)%nat := wrap l']> k).
    rewrite insert_app_r_alt by done. done.
  - unfold holds_at. apply list_lookup_insert_eq. by eapply lookup_lt_Some.
Qed.

Lemma wp_spread h0 h (r : ref T) l Q :
  h0 `prefix_of` h -> holds_at h r l ->
  (forall r' h', local h0 h' r' l -> h `prefix_of` h' -> Q (Ok r') h') ->
  wp (Arr.spread r) h Q.
Proof.
  intros Hp Hr HQ. apply wp_bind. eapply wp_read; [done|]. by eapply wp_alloc.
Qed.

Lemma wp_filter h0 h p (r : ref T) l Q :
  h0 `prefix_of` h -> holds_at h r l ->
  (forall r' h', local h0 h' r' (List.filter p l) -> h `prefix_of` h' -> Q (Ok r') h') ->
  wp (Arr.filter p r) h Q.
Proof.
  intros Hp Hr HQ. apply wp_bind. eapply wp_read; [done|]. by eapply wp_alloc.
Qed.

Lemma wp_slice h0 h (r : ref T) l a b Q :
  h0 `prefix_of` h -> holds_at h r l ->
  (forall r' h', local h0 h' r' (Arr.slice_list l a b) -> h `prefix_of` h' -> Q (Ok r') h') ->
  wp (Arr.slice r a b) h Q.
Proof.
  intros Hp Hr HQ. apply wp_bind. eapply wp_read; [done|]. by eapply wp_alloc.
Qed.

Lemma wp_length h (r : ref T) l Q :
  holds_at h r l -> Q (Ok (Z.of_nat (length l))) h -> wp (Arr.length r) h Q.
Proof.
  intros Hr HQ. apply wp_bind. eapply wp_read; [done|]. by apply wp_ret.
Qed.

Lemma wp_elements h (r : ref T) l Q :
  holds_at h r l -> Q (Ok l) h -> wp (Arr.elements r) h Q.
Proof. apply wp_read. Qed.

Lemma wp_find h p (r : ref T) l Q :
  holds_at h r l -> Q (Ok (List.find p l)) h -> wp (Arr.find p r) h Q.
Proof.
  intros Hr HQ. apply wp_bind. eapply wp_read; [done|]. by apply wp_ret.
Qed.

Lemma wp_reduce {B} h (f : B -> T -> B) init (r : ref T) l Q :
  holds_at h r l -> Q (Ok (foldl f init l)) h -> wp (Arr.reduce f init r) h Q.
Proof.
  intros Hr HQ. apply wp_bind. eapply wp_read; [done|]. by apply wp_ret.
Qed.

Lemma wp_reduce1 h f (r : ref T) l Q :
  holds_at h r l ->
  match l with
  | [] => Q (Throw "TypeError: Reduce of empty array with no initial value") h
  | x :: l' => Q (Ok (foldl f x l')) h
  end ->
  wp (Arr.reduce1 f r) h Q.
Proof.
  intros Hr HQ. apply wp_bind. eapply wp_read; [done|]. by destruct l.
Qed.

Lemma wp_sort h0 h cmp (r : ref T) l Q :
  local h0 h r l ->
  (forall h', local h0 h' r (Arr.sort_list cmp l) -> Q (Ok r) h') ->
  wp (Arr.sort cmp r) h Q.
Proof.
  intros Hl HQ. apply wp_bind. eapply wp_read; [by eapply local_holds|].
  apply wp_bind. eapply wp_write; [done|]. intros h' Hl'. apply wp_ret. auto.
Qed.

Lemma wp_reverse h0 h (r : ref T) l Q :
  local h0 h r l ->
  (forall h', local h0 h' r (rev l) -> Q (Ok r) h') ->
  wp (Arr.reverse r) h Q.
Proof.
  intros Hl HQ. apply wp_bind. eapply wp_read; [by eapply local_holds|].
  apply wp_bind. eapply wp_write; [done|]. intros h' Hl'. apply wp_ret. auto.
Qed.

Lemma wp_push h0 h (r : ref T) l x Q :
  local h0 h r l ->
  (forall h', local h0 h' r (l ++ [x]) -> Q (Ok ()) h') ->
  wp (Arr.push r x) h Q.
Proof.
  intros Hl HQ. apply wp_bind. eapply wp_read; [by eapply local_holds|].
  by eapply wp_write.
Qed.

End Primitives.

Lemma wp_map {T U} `{Elem T} `{Elem U} h0 h (f : T -> U) (r : ref T) l Q :
  h0 `prefix_of` h -> holds_at h r l ->
  (forall r' h', local h0 h' r' (List.map f l) -> h `prefix_of` h' -> Q (Ok r') h') ->
  wp (Arr.map f r) h Q.
Proof.
  intros Hp Hr HQ. apply wp_bind. eapply wp_read; [done|]. by eapply wp_alloc.
Qed.



Example upper_active : Str.toUpperCase "Active-1" = "ACTIVE-1"%string.
Proof. reflexivity. Qed.

Example numeral_12345 : Str.of_Z 12345 = "12345"%string /\ Str.of_Z 0 = "0"%string
  /\ Str.of_Z (-70) = "-70"%string /\ Str.padStart0 6 "42" = "000042"%string.
Proof. repeat split. Qed.
Lemma wp_for_each {A} (I E : heap -> Prop) (l : list A) (body : A -> M ()) h :
  I h ->
  (forall x h, I h ->
     wp (body x) h (fun o h' => match o with Ok _ => I h' | Throw _ => E h' end)) ->
  wp (for_each l body) h (fun o h' => match o with Ok _ => I h' | Throw _ => E h' end).
Proof.
  intros Hi Hbody. revert h Hi. induction l as [|x l IH]; intros h Hi; simpl.
  - by apply wp_ret.
  - apply wp_bind. eapply wp_mono; [by apply Hbody|].
    intros [[]|e] h'; simpl; auto.
Qed.

(** ** The list handlers compute their pure content *)

Lemma wp_opt_filter {T} `{Elem T} h0 h v (p : string -> T -> bool) (r : ref T) l Q :
  local h0 h r l ->
  (forall r' h', local h0 h' r' (when_set v (fun s => List.filter (p s)) l) -> Q (Ok r') h') ->
  wp (if_truthy v (fun s => Arr.filter (p s) r) (mret r)) h Q.
Proof.
  intros Hl HQ. unfold when_set, if_truthy in *.
  destruct v as [s|]; [destruct (Str.truthy s)|].
  - eapply wp_filter; [by eapply local_prefix|by eapply local_holds|]. intros. by apply HQ.
  - apply wp_ret. by apply HQ.
  - apply wp_ret. by apply HQ.
Qed.

Lemma wp_opt_sort {T} `{Elem T} h0 h v (cmp : string -> T -> T -> number) (r : ref T) l Q :
  local h0 h r l ->
  (forall h', local h0 h' r (when_set v (fun s => Arr.sort_list (cmp s)) l) -> Q (Ok r) h') ->
  wp (if_truthy v (fun s => Arr.sort (cmp s) r) (mret r)) h Q.
Proof.
  intros Hl HQ. unfold when_set, if_truthy in *.
  destruct v as [s|]; [destruct (Str.truthy s)|].
  - eapply wp_sort; [done|]. intros. by apply HQ.
  - apply wp_ret. by apply HQ.
  - apply wp_ret. by apply HQ.
Qed.

(** The collections are where the data module put them. *)
Lemma stores_nodes ds h :
  stores ds h -> holds_at h (nodes (load_exports ds)) (ds_nodes ds).
Proof. intros Hs. eapply holds_at_ext; [exact Hs|]. reflexivity. Qed.

Lemma stores_stakers ds h :
  stores ds h -> holds_at h (stakers (load_exports ds)) (ds_stakers ds).
Proof. intros Hs. eapply holds_at_ext; [exact Hs|]. reflexivity. Qed.

Lemma stores_healthRecords ds h :
  stores ds h -> holds_at h (healthRecords (load_exports ds)) (ds_healthRecords ds).
Proof. intros Hs. eapply holds_at_ext; [exact Hs|]. reflexivity. Qed.

Lemma stores_epochs ds h :
  stores ds h -> holds_at h (epochs (load_exports ds)) (ds_epochs ds).
Proof. intros Hs. eapply holds_at_ext; [exact Hs|]. reflexivity. Qed.

Lemma stores_transactions ds h :
  stores ds h -> holds_at h (transactions (load_exports ds)) (ds_transactions ds).
Proof. intros Hs. eapply holds_at_ext; [exact Hs|]. reflexivity. Qed.

Create HintDb stores.
#[local] Hint Resolve stores_nodes stores_stakers stores_healthRecords stores_epochs
  stores_transactions : stores.

(** One step of symbolic execution from a heap that extends [h0]. *)
Ltac wp_prefix :=
  first
    [ eassumption
    | match goal with
      | H : local ?h0 ?h _ _ |- ?h0 `prefix_of` ?h => exact (local_prefix _ _ _ _ H)
      end ].
Ltac wp_holds h0 :=
  first
    [ match goal with
      | H : local _ ?h ?r _ |- holds_at ?h ?r _ => exact (local_holds _ _ _ _ H)
      end
    | by eauto with stores
    | eapply (holds_at_ext h0); [wp_prefix|reflexivity] ].
Ltac wp_prim h0 :=
  lazymatch goal with |- wp _ _ _ => idtac end;
  first
    [ apply wp_try
    | apply wp_ret
    | eapply (wp_opt_filter h0); [eassumption|]; intros ? ? ?
    | eapply (wp_opt_sort h0); [eassumption|]; intros ? ?
    | eapply (wp_sort h0); [eassumption|]; intros ? ?
    | eapply (wp_reverse h0); [eassumption|]; intros ? ?
    | eapply wp_length; [wp_holds h0|]
    | eapply wp_elements; [wp_holds h0|]
    | eapply wp_find; [wp_holds h0|]
    | eapply wp_reduce; [wp_holds h0|]
    | eapply (wp_spread h0); [wp_prefix|wp_holds h0|]; intros ? ? ? ?
    | eapply (wp_filter h0); [wp_prefix|wp_holds h0|]; intros ? ? ? ?
    | eapply (wp_slice h0); [wp_prefix|wp_holds h0|]; intros ? ? ? ?
    | eapply (wp_map h0); [wp_prefix|wp_holds h0|]; intros ? ? ? ?
    | eapply (wp_alloc h0); [wp_prefix|]; intros ? ? ? ? ].
Ltac wp_step h0 := first [wp_prim h0 | apply wp_bind].

Lemma nodes_index_run ds req h :
  stores ds h ->
  wp (NodesRoute.index (load_exports ds) req) h (fun o h' =>
    o = Ok (Json (paginate (nodes_sorted req (filter_chain req node_filters (ds_nodes ds)))
                    (parse_page req) (parse_limit req)))
    /\ stores ds h').
Proof.
  intros Hs. pose proof Hs as Hp. unfold stores in Hp. unfold NodesRoute.index.
  repeat wp_step (load_heap ds).
  split; [reflexivity|]. unfold stores. wp_prefix.
Qed.

Lemma stakers_index_run ds req h :
  stores ds h ->
  wp (StakersRoute.index (load_exports ds) req) h (fun o h' =>
    o = Ok (Json (paginate
                    (stakers_sorted req (filter_chain req staker_filters (ds_stakers ds)))
                    (parse_page req) (parse_limit req)))
    /\ stores ds h').
Proof.
  intros Hs. pose proof Hs as Hp. unfold stores in Hp. unfold StakersRoute.index.
  repeat wp_step (load_heap ds).
  split; [reflexivity|]. unfold stores. wp_prefix.
Qed.

Lemma records_index_run ds req h :
  stores ds h ->
  wp (HealthRecordsRoute.index (load_exports ds) req) h (fun o h' =>
    o = Ok (Json (paginate
                    (records_sorted req
                       (filter_chain req record_filters (ds_healthRecords ds)))
                    (parse_page req) (parse_limit req)))
    /\ stores ds h').
Proof.
  intros Hs. pose proof Hs as Hp. unfold stores in Hp. unfold HealthRecordsRoute.index.
  repeat wp_step (load_heap ds).
  split; [reflexivity|]. unfold stores. wp_prefix.
Qed.

Lemma txs_index_run ds req h :
  stores ds h ->
  wp (TransactionsRoute.index (load_exports ds) req) h (fun o h' =>
    o = Ok (Json (paginate
                    (txs_sorted req (filter_chain req tx_filters (ds_transactions ds)))
                    (parse_page req) (parse_limit req)))
    /\ stores ds h').
Proof.
  intros Hs. pose proof Hs as Hp. unfold stores in Hp. unfold TransactionsRoute.index.
  repeat wp_step (load_heap ds).
  split; [reflexivity|]. unfold stores. wp_prefix.
Qed.

Lemma epochs_index_run ds req h :
  stores ds h ->
  wp (EpochsRoute.index (load_exports ds) req) h (fun o h' =>
    o = Ok (Json (map_page summary_of
                    (paginate (epochs_sorted req (ds_epochs ds))
                       (parse_page req) (parse_limit req))))
    /\ stores ds h').
Proof.
  intros Hs. pose proof Hs as Hp. unfold stores in Hp. unfold EpochsRoute.index.
  repeat wp_step (load_heap ds).
  split; [reflexivity|]. unfold stores. wp_prefix.
Qed.

(** ** Arithmetic of pagination *)



Lemma insert_length {T} (cmp : T -> T -> number) x l :
  length (Arr.insert cmp x l) = S (length l).
Proof.
  induction l as [|y l IH]; simpl; [done|].
  destruct (Num.lt _ _); simpl; congruence.
Qed.

Lemma insert_perm {T} (cmp : T -> T -> number) x l : Arr.insert cmp x l ≡ₚ x :: l.
Proof.
  induction l as [|y l IH]; simpl; [done|].
  destruct (Num.lt _ _); [done|]. rewrite IH. apply Permutation_swap.
Qed.

Lemma sort_list_perm {T} (cmp : T -> T -> number) l : Arr.sort_list cmp l ≡ₚ l.
Proof.
  unfold Arr.sort_list.
  assert (forall acc, foldl (fun acc x => Arr.insert cmp x acc) acc l ≡ₚ acc ++ l) as Hg.
  { induction l as [|x l IH]; intros acc; simpl.
    - by rewrite app_nil_r.
    - rewrite IH, insert_perm. simpl. apply Permutation_middle. }
  apply Hg.
Qed.









(** ** C1: pagination metadata and page size *)

Lemma sample_stores : stores Sample.dataset (load_heap Sample.dataset).
Proof. by exists []; rewrite app_nil_r. Qed.



Lemma paginate_page {T} (l : list T) p n :
  page (pagination (paginate l p n)) = p /\ limit (pagination (paginate l p n)) = n.
Proof. done. Qed.




(** ** C4: page and limit parsing *)



(** ** C3: an empty filter value is no filter *)





Lemma append_nonempty (a b : string) : b <> EmptyString -> a +:+ b <> EmptyString.
Proof. destruct a; simpl; [done|discriminate]. Qed.

Lemma fixed_digits_nonempty w n : Str.fixed_digits (S w) n <> EmptyString.
Proof. simpl. by apply append_nonempty. Qed.

Lemma count_digits_pos fuel n : exists w, Str.count_digits fuel n = S w.
Proof. destruct fuel; simpl; [by exists O|]. destruct (n <? 10); eauto. Qed.

Lemma of_nonneg_nonempty n : Str.of_nonneg n <> EmptyString.
Proof.
  unfold Str.of_nonneg.
  destruct (count_digits_pos (Z.to_nat (Z.log2 n) + 1) n) as [w ->].
  apply fixed_digits_nonempty.
Qed.






(** ** C7 and C10: lookups and the epoch projections *)

Lemma node_by_id_run ds req h :
  stores ds h ->
  wp (NodesRoute.by_id (load_exports ds) req) h (fun o h' =>
    o = Ok (lookup_answer
              (List.find (fun n => bool_decide (Some (Node.nodeId n) = params req !! "nodeId"))
                 (ds_nodes ds)) id "Node not found")
    /\ h' = h).
Proof.
  intros Hs. unfold NodesRoute.by_id. repeat wp_step (load_heap ds).
  destruct (List.find _ _); by apply wp_ret.
Qed.

Lemma record_by_id_run ds req h :
  stores ds h ->
  wp (HealthRecordsRoute.by_id (load_exports ds) req) h (fun o h' =>
    o = Ok (lookup_answer
              (List.find (fun r => bool_decide
                            (Some (HealthRecord.recordId r) = params req !! "recordId"))
                 (ds_healthRecords ds)) id "Health record not found")
    /\ h' = h).
Proof.
  intros Hs. unfold HealthRecordsRoute.by_id. repeat wp_step (load_heap ds).
  destruct (List.find _ _); by apply wp_ret.
Qed.

Lemma tx_by_hash_run ds req h :
  stores ds h ->
  wp (TransactionsRoute.by_hash (load_exports ds) req) h (fun o h' =>
    o = Ok (lookup_answer
              (List.find (fun t => bool_decide
                            (Some (Transaction.txHash t) = params req !! "txHash"))
                 (ds_transactions ds)) id "Transaction not found")
    /\ h' = h).
Proof.
  intros Hs. unfold TransactionsRoute.by_hash. repeat wp_step (load_heap ds).
  destruct (List.find _ _); by apply wp_ret.
Qed.

Lemma staker_by_id_run ds req h :
  stores ds h ->
  wp (StakersRoute.by_id (load_exports ds) req) h (fun o h' =>
    o = Ok (lookup_answer
              (List.find (fun s => bool_decide
                            (Some (Staker.stakerId s) = params req !! "stakerId"))
                 (ds_stakers ds))
              (fun s => {| StakerDetail.staker := s;
                           StakerDetail.delegatedNode := delegated_of (ds_nodes ds) s |})
              "Staker not found")
    /\ h' = h).
Proof.
  intros Hs. unfold StakersRoute.by_id. repeat wp_step (load_heap ds).
  destruct (List.find _ (ds_stakers ds)) as [s|]; [|by apply wp_ret].
  unfold lookup_answer, delegated_of. apply wp_bind.
  destruct (Str.truthy (Staker.delegatedTo s)).
  - repeat wp_step (load_heap ds). destruct (List.find _ _); by repeat wp_step (load_heap ds).
  - by repeat wp_step (load_heap ds).
Qed.

Lemma slice_list_take {T} (l : list T) (n : nat) :
  Arr.slice_list l 0 (Z.of_nat n) = take n l.
Proof.
  unfold Arr.slice_list, Arr.clamp_index. simpl.
  destruct (Z.ltb_spec (Z.of_nat n) 0); [exfalso; lia|].
  rewrite (Z.min_l 0) by lia. change (Z.to_nat 0) with 0%nat.
  rewrite drop_0, Z.sub_0_r.
  destruct (Z.min_spec (Z.of_nat n) (Z.of_nat (length l))) as [[? ->]|[? ->]].
  - by rewrite Nat2Z.id.
  - rewrite Nat2Z.id. rewrite !take_ge; [done|lia|lia].
Qed.

Lemma epoch_by_number_run ds req h :
  stores ds h ->
  wp (EpochsRoute.by_number (load_exports ds) req) h (fun o h' =>
    o = Ok (lookup_answer
              (List.find (epoch_matches (params req !! "epochNumber")) (ds_epochs ds))
              (fun e => with_rewards e (take 50 (rewards_of e)))
              "Epoch not found")
    /\ h' = h).
Proof.
  intros Hs. unfold EpochsRoute.by_number. repeat wp_step (load_heap ds).
  fold (epoch_matches (params req !! "epochNumber")).
  destruct (List.find _ _) as [e|]; apply wp_ret; [|done].
  split; [|done]. unfold lookup_answer, with_rewards, rewards_of.
  destruct (Epoch.nodeRewards e) as [l|]; simpl; [|done].
  pose proof (slice_list_take l 50) as E. change (Z.of_nat 50) with 50 in E.
  by rewrite E.
Qed.





Lemma slice_list_subset {T} (l : list T) a b x : x ∈ Arr.slice_list l a b -> x ∈ l.
Proof.
  unfold Arr.slice_list. intros Hx.
  apply elem_of_take in Hx as (i & Hx & _). rewrite lookup_drop in Hx.
  by eapply list_elem_of_lookup_2.
Qed.

(** C10.  The items of the epoch list are built from stored epochs without
    their [nodeRewards]: each carries the seven scalar fields and, as
    [topNodeRewardsCount], the length of the stored array.  The epoch lookup
    answers with the first 50 node rewards at most, every other field being
    that of the stored epoch. *)
Theorem epoch_projections ds req h :
  stores ds h ->
  (exists pg h',
     EpochsRoute.index (load_exports ds) req h = (Ok (Json pg), h')
     /\ Forall (fun it =>
          exists e, e ∈ ds_epochs ds
            /\ EpochSummary.topNodeRewardsCount it = Z.of_nat (length (rewards_of e))
            /\ EpochSummary.epochNumber it = Epoch.epochNumber e
            /\ EpochSummary.startTime it = Epoch.startTime e
            /\ EpochSummary.endTime it = Epoch.endTime e
            /\ EpochSummary.totalRewardsPool it = Epoch.totalRewardsPool e
            /\ EpochSummary.totalValidations it = Epoch.totalValidations e
            /\ EpochSummary.activeNodes it = Epoch.activeNodes e
            /\ EpochSummary.activeStakers it = Epoch.activeStakers e) (data pg))
  /\ (forall e,
        List.find (epoch_matches (params req !! "epochNumber")) (ds_epochs ds) = Some e ->
        exists body,
          EpochsRoute.by_number (load_exports ds) req h = (Ok (Json body), h)
          /\ Epoch.nodeRewards body = Some (take 50 (rewards_of e))
          /\ (length (take 50 (rewards_of e)) <= 50)%nat
          /\ take 50 (rewards_of e) `prefix_of` rewards_of e
          /\ Epoch.epochNumber body = Epoch.epochNumber e
          /\ Epoch.startTime body = Epoch.startTime e
          /\ Epoch.endTime body = Epoch.endTime e
          /\ Epoch.totalRewardsPool body = Epoch.totalRewardsPool e
          /\ Epoch.totalValidations body = Epoch.totalValidations e
          /\ Epoch.activeNodes body = Epoch.activeNodes e
          /\ Epoch.activeStakers body = Epoch.activeStakers e).
Proof.
  intros Hs. split.
  - destruct (wp_run _ _ _ (epochs_index_run ds req h Hs)) as (o & h' & Hrun & -> & _).
    eexists _, h'. split; [exact Hrun|].
    unfold map_page. cbn [data]. apply Forall_forall. intros it Hit.
    apply list_elem_of_In, in_map_iff in Hit. destruct Hit as (e & <- & He).
    exists e. split.
    + apply list_elem_of_In in He. apply slice_list_subset in He.
      unfold epochs_sorted in He. by rewrite sort_list_perm in He.
    + unfold summary_of, rewards_of. simpl.
      by destruct (Epoch.nodeRewards e).
  - intros e He.
    destruct (wp_run _ _ _ (epoch_by_number_run ds req h Hs)) as (o & h' & Hrun & -> & ->).
    rewrite He in Hrun. eexists. split; [exact Hrun|]. simpl.
    repeat split; try done.
    + rewrite length_take. lia.
    + apply prefix_take.
Qed.

Lemma epoch_projections_witness :
  stores Sample.dataset (load_heap Sample.dataset)
  /\ exists body,
       EpochsRoute.by_number (load_exports Sample.dataset) (Sample.lookup "epochNumber" "2")
         (load_heap Sample.dataset) = (Ok (Json body), load_heap Sample.dataset)
       /\ Epoch.nodeRewards body = Some (take 50 (rewards_of (Sample.epoch 2 51))).
Proof.
  split; [exact sample_stores|].
  destruct (proj2 (epoch_projections Sample.dataset (Sample.lookup "epochNumber" "2")
                     (load_heap Sample.dataset) sample_stores)
              (Sample.epoch 2 51) eq_refl) as (body & Hrun & Hrewards & _).
  exists body. split; [exact Hrun|exact Hrewards].
Defined.

(** ** C8: no handler writes to a collection *)

(** A local array is still there in any later heap. *)
Ltac wp_local :=
  lazymatch goal with
  | |- local ?h0 ?h ?r _ =>
      first
        [ eassumption
        | match goal with
          | Hp : ?h1 `prefix_of` h |- _ =>
              eapply (local_ext h0 h1 h); [exact Hp|wp_local]
          end ]
  end.

Ltac frame_step h0 :=
  lazymatch goal with |- wp _ _ _ => idtac end;
  first
    [ wp_prim h0
    | eapply (wp_push h0); [wp_local|]; intros ? ?
    | eapply wp_reduce1; [wp_holds h0|]
    | apply wp_bind ].

Ltac frame_done := unfold stores; wp_prefix.

Ltac frame_start :=
  let h := fresh "h" in
  let Hs := fresh "Hs" in
  let Hp := fresh "Hp" in
  intros h Hs; pose proof Hs as Hp; unfold stores in Hp;
  change (wp ?m h (fun _ h' => stores ?ds h')) with (stores ds (m h).2);
  match goal with
  | |- stores ?ds (?m h).2 => change (wp m h (fun _ h' => stores ds h'))
  end.

Section Frames.
Variable ds : Dataset.
Variable req : request.

Lemma keeps_nodes_index : keeps_collections ds (NodesRoute.index (load_exports ds) req).
Proof.
  intros h Hs. destruct (wp_run _ _ _ (nodes_index_run ds req h Hs)) as (o & h' & E & _ & ?).
  by rewrite E.
Qed.

Lemma keeps_stakers_index : keeps_collections ds (StakersRoute.index (load_exports ds) req).
Proof.
  intros h Hs. destruct (wp_run _ _ _ (stakers_index_run ds req h Hs)) as (o & h' & E & _ & ?).
  by rewrite E.
Qed.

Lemma keeps_records_index :
  keeps_collections ds (HealthRecordsRoute.index (load_exports ds) req).
Proof.
  intros h Hs. destruct (wp_run _ _ _ (records_index_run ds req h Hs)) as (o & h' & E & _ & ?).
  by rewrite E.
Qed.

Lemma keeps_epochs_index : keeps_collections ds (EpochsRoute.index (load_exports ds) req).
Proof.
  intros h Hs. destruct (wp_run _ _ _ (epochs_index_run ds req h Hs)) as (o & h' & E & _ & ?).
  by rewrite E.
Qed.

Lemma keeps_txs_index :
  keeps_collections ds (TransactionsRoute.index (load_exports ds) req).
Proof.
  intros h Hs. destruct (wp_run _ _ _ (txs_index_run ds req h Hs)) as (o & h' & E & _ & ?).
  by rewrite E.
Qed.

Lemma keeps_nodes_stats : keeps_collections ds (NodesRoute.stats (load_exports ds) req).
Proof.
  frame_start. unfold NodesRoute.stats. repeat frame_step (load_heap ds). frame_done.
Qed.

Lemma keeps_stakers_stats : keeps_collections ds (StakersRoute.stats (load_exports ds) req).
Proof.
  frame_start. unfold StakersRoute.stats. repeat frame_step (load_heap ds). frame_done.
Qed.

Lemma keeps_epochs_stats : keeps_collections ds (EpochsRoute.stats (load_exports ds) req).
Proof.
  frame_start. unfold EpochsRoute.stats. repeat frame_step (load_heap ds). frame_done.
Qed.

Lemma keeps_txs_stats : keeps_collections ds (TransactionsRoute.stats (load_exports ds) req).
Proof.
  frame_start. unfold TransactionsRoute.stats. repeat frame_step (load_heap ds). frame_done.
Qed.

Lemma keeps_stats_overview :
  keeps_collections ds (StatsRoute.overview (load_exports ds) req).
Proof.
  frame_start. unfold StatsRoute.overview. repeat frame_step (load_heap ds). frame_done.
Qed.

Lemma keeps_stats_index : keeps_collections ds (StatsRoute.index (load_exports ds) req).
Proof.
  frame_start. unfold StatsRoute.index. repeat frame_step (load_heap ds).
  destruct (ds_epochs ds); repeat frame_step (load_heap ds); frame_done.
Qed.

Lemma keeps_epochs_current :
  keeps_collections ds (EpochsRoute.current (load_exports ds) req).
Proof.
  frame_start. unfold EpochsRoute.current. repeat frame_step (load_heap ds).
  destruct (ds_epochs ds); repeat frame_step (load_heap ds); frame_done.
Qed.

Lemma keeps_data_types :
  keeps_collections ds (HealthRecordsRoute.data_types (load_exports ds) req).
Proof.
  frame_start. unfold HealthRecordsRoute.data_types.
  repeat frame_step (load_heap ds). frame_done.
Qed.

Lemma keeps_device_types :
  keeps_collections ds (HealthRecordsRoute.device_types (load_exports ds) req).
Proof.
  frame_start. unfold HealthRecordsRoute.device_types.
  repeat frame_step (load_heap ds). frame_done.
Qed.

Lemma keeps_tx_types : keeps_collections ds (TransactionsRoute.types (load_exports ds) req).
Proof.
  frame_start. unfold TransactionsRoute.types.
  repeat frame_step (load_heap ds). frame_done.
Qed.

Lemma keeps_by_wallet : keeps_collections ds (StakersRoute.by_wallet (load_exports ds) req).
Proof.
  frame_start. unfold StakersRoute.by_wallet. frame_step (load_heap ds).
  destruct (params req !! "address"); [|apply wp_throw; by apply wp_ret].
  repeat frame_step (load_heap ds).
  destruct (List.find _ _); by apply wp_ret.
Qed.

Lemma keeps_node_by_id : keeps_collections ds (NodesRoute.by_id (load_exports ds) req).
Proof.
  intros h Hs. destruct (wp_run _ _ _ (node_by_id_run ds req h Hs)) as (o & h' & E & _ & ->).
  by rewrite E.
Qed.

Lemma keeps_staker_by_id : keeps_collections ds (StakersRoute.by_id (load_exports ds) req).
Proof.
  intros h Hs. destruct (wp_run _ _ _ (staker_by_id_run ds req h Hs)) as (o & h' & E & _ & ->).
  by rewrite E.
Qed.

Lemma keeps_record_by_id :
  keeps_collections ds (HealthRecordsRoute.by_id (load_exports ds) req).
Proof.
  intros h Hs. destruct (wp_run _ _ _ (record_by_id_run ds req h Hs)) as (o & h' & E & _ & ->).
  by rewrite E.
Qed.

Lemma keeps_epoch_by_number :
  keeps_collections ds (EpochsRoute.by_number (load_exports ds) req).
Proof.
  intros h Hs.
  destruct (wp_run _ _ _ (epoch_by_number_run ds req h Hs)) as (o & h' & E & _ & ->).
  by rewrite E.
Qed.

Lemma keeps_tx_by_hash :
  keeps_collections ds (TransactionsRoute.by_hash (load_exports ds) req).
Proof.
  intros h Hs. destruct (wp_run _ _ _ (tx_by_hash_run ds req h Hs)) as (o & h' & E & _ & ->).
  by rewrite E.
Qed.

Lemma keeps_records_stats now :
  keeps_collections ds (HealthRecordsRoute.stats (load_exports ds) now req).
Proof.
  frame_start. unfold HealthRecordsRoute.stats.
  repeat (lazymatch goal with
          | |- wp (for_each _ _) _ _ => fail
          | _ => frame_step (load_heap ds)
          end).
  match goal with
  | H : local _ ?h ?r (@nil DayCount.t) |- wp _ ?h _ =>
      eapply wp_mono;
        [eapply (wp_for_each
                   (fun h => exists acc, local (load_heap ds) h r acc)
                   (fun h => load_heap ds `prefix_of` h)); [by eauto|]|]
  end.
  - intros i hi [acc Hacc]. repeat frame_step (load_heap ds).
    unfold Date.iso_day. destruct (Z.abs _ <=? _).
    + destruct (Date.civil _) as [[? ?] ?]. repeat frame_step (load_heap ds). eauto.
    + apply wp_throw. wp_prefix.
  - intros [[]|e] h1; simpl.
    + intros [acc Hacc]. repeat frame_step (load_heap ds). frame_done.
    + intros Hp1. repeat frame_step (load_heap ds). frame_done.
Qed.

End Frames.

(** C8.  No list, aggregate, lookup or enumeration request changes a stored
    collection: run from a heap that starts with the five collections, every
    handler ends, whether it answers or fails, in a heap that starts with
    the same five arrays, the sorts having worked on copies. *)
Theorem handlers_keep_collections ds req now :
  (forall c, keeps_collections ds (list_endpoint c (load_exports ds) req))
  /\ keeps_collections ds (NodesRoute.stats (load_exports ds) req)
  /\ keeps_collections ds (StakersRoute.stats (load_exports ds) req)
  /\ keeps_collections ds (HealthRecordsRoute.stats (load_exports ds) now req)
  /\ keeps_collections ds (EpochsRoute.stats (load_exports ds) req)
  /\ keeps_collections ds (TransactionsRoute.stats (load_exports ds) req)
  /\ keeps_collections ds (StatsRoute.index (load_exports ds) req)
  /\ keeps_collections ds (StatsRoute.overview (load_exports ds) req)
  /\ keeps_collections ds (NodesRoute.by_id (load_exports ds) req)
  /\ keeps_collections ds (StakersRoute.by_id (load_exports ds) req)
  /\ keeps_collections ds (StakersRoute.by_wallet (load_exports ds) req)
  /\ keeps_collections ds (HealthRecordsRoute.by_id (load_exports ds) req)
  /\ keeps_collections ds (HealthRecordsRoute.data_types (load_exports ds) req)
  /\ keeps_collections ds (HealthRecordsRoute.device_types (load_exports ds) req)
  /\ keeps_collections ds (EpochsRoute.by_number (load_exports ds) req)
  /\ keeps_collections ds (EpochsRoute.current (load_exports ds) req)
  /\ keeps_collections ds (TransactionsRoute.by_hash (load_exports ds) req)
  /\ keeps_collections ds (TransactionsRoute.types (load_exports ds) req).
Proof.
  split.
  { intros []; simpl;
      auto using keeps_nodes_index, keeps_stakers_index, keeps_records_index,
        keeps_epochs_index, keeps_txs_index. }
  repeat split;
    auto using keeps_nodes_stats, keeps_stakers_stats, keeps_records_stats,
      keeps_epochs_stats, keeps_txs_stats, keeps_stats_index, keeps_stats_overview,
      keeps_node_by_id, keeps_staker_by_id, keeps_by_wallet, keeps_record_by_id,
      keeps_data_types, keeps_device_types, keeps_epoch_by_number, keeps_epochs_current,
      keeps_tx_by_hash, keeps_tx_types.
Qed.

Lemma handlers_keep_collections_witness :
  stores Sample.dataset (load_heap Sample.dataset)
  /\ stores Sample.dataset
       (StakersRoute.index (load_exports Sample.dataset)
          (Sample.get [("sortBy", "stakedAmount")]%string) (load_heap Sample.dataset)).2
  /\ stores Sample.dataset
       (TransactionsRoute.stats (load_exports Sample.dataset) (Sample.get [])
          (load_heap Sample.dataset)).2.
Proof.
  split; [exact sample_stores|]. split.
  - exact (proj1 (handlers_keep_collections Sample.dataset
                    (Sample.get [("sortBy", "stakedAmount")]%string) 0)
             Stakers (load_heap Sample.dataset) sample_stores).
  - exact (proj1 (proj2 (proj2 (proj2 (proj2 (proj2
             (handlers_keep_collections Sample.dataset (Sample.get []) 0))))))
             (load_heap Sample.dataset) sample_stores).
Defined.

(** ** Sorting *)

Section Sorting.
Context {T : Type} (cmp : T -> T -> number) (le : T -> T -> Prop).
Hypothesis before : forall x y, Num.lt (cmp x y) (Fin 0%Q) = true -> le x y.
Hypothesis after : forall x y, Num.lt (cmp x y) (Fin 0%Q) = false -> le y x.

Lemma insert_HdRel a x l :
  le a x -> HdRel le a l -> HdRel le a (Arr.insert cmp x l).
Proof.
  intros Hax Hal. destruct l as [|y l]; simpl; [by constructor|].
  destruct (Num.lt _ _); constructor; [done|]. by inversion Hal.
Qed.

Lemma insert_sorted x l : Sorted le l -> Sorted le (Arr.insert cmp x l).
Proof.
  induction l as [|y l IH]; intros Hl; simpl.
  - repeat constructor.
  - destruct (Num.lt (cmp x y) (Fin 0%Q)) eqn:E.
    + constructor; [done|]. constructor. by apply before.
    + inversion Hl; subst. constructor; [by apply IH|].
      apply insert_HdRel; [by apply after|done].
Qed.

Lemma sort_list_sorted l : Sorted le (Arr.sort_list cmp l).
Proof.
  unfold Arr.sort_list.
  assert (forall acc, Sorted le acc ->
            Sorted le (foldl (fun acc x => Arr.insert cmp x acc) acc l)) as Hg.
  { induction l as [|x l IH]; intros acc Hacc; simpl; [done|].
    apply IH. by apply insert_sorted. }
  apply Hg. constructor.
Qed.

End Sorting.

Lemma str_lt_asym a b : Str.lt a b = true -> Str.lt b a = false.
Proof.
  unfold Str.lt, String.ltb. rewrite (String.compare_antisym b a).
  by destruct (String.compare a b).
Qed.

Lemma str_lt_total a b : Str.lt a b = false -> a <> b -> Str.lt b a = true.
Proof.
  unfold Str.lt, String.ltb. rewrite (String.compare_antisym b a). intros Hab Hne.
  destruct (String.compare a b) eqn:E; simpl; try done.
  by apply String.compare_eq_iff in E.
Qed.

Lemma default_compare_lt a b :
  Num.lt (default_compare a b) (Fin 0%Q) = Str.lt a b.
Proof.
  unfold default_compare. destruct (Str.lt a b) eqn:E; [done|].
  by destruct (Str.lt b a).
Qed.

Lemma sorted_strict (l : list string) :
  NoDup l -> Sorted (fun a b => Str.lt b a = false) l -> ascending l.
Proof.
  unfold ascending. induction l as [|x l IH]; intros Hnd Hs; [constructor|].
  apply NoDup_cons in Hnd as [Hx Hnd]. inversion Hs as [|? ? Hs' Hhd]; subst.
  constructor; [by apply IH|].
  destruct Hhd as [|y l Hxy]; constructor.
  apply str_lt_total in Hxy; [done|]. intros ->. apply Hx. by left.
Qed.

Lemma set_of_spec (xs : list string) :
  NoDup (set_of xs) /\ forall s, s ∈ set_of xs <-> s ∈ xs.
Proof.
  unfold set_of.
  assert (forall acc, NoDup acc ->
    let r := foldl (fun acc x => if bool_decide (x ∈ acc) then acc else acc ++ [x]) acc xs in
    NoDup r /\ forall s, s ∈ r <-> s ∈ acc \/ s ∈ xs) as Hg.
  { induction xs as [|x xs IH]; intros acc Hacc; simpl.
    - split; [done|]. intros s. rewrite elem_of_nil. tauto.
    - destruct (bool_decide_reflect (x ∈ acc)) as [Hin|Hin].
      + destruct (IH acc Hacc) as [Hnd Hiff]. split; [done|].
        intros s. rewrite Hiff, elem_of_cons. split; [tauto|].
        intros [?|[->|?]]; tauto.
      + assert (NoDup (acc ++ [x])) as Hnd'.
        { apply NoDup_app. split; [done|]. split; [|apply NoDup_singleton].
          intros y Hy Hy'. apply list_elem_of_singleton in Hy' as ->. done. }
        destruct (IH _ Hnd') as [Hnd Hiff]. split; [done|].
        intros s. rewrite Hiff, elem_of_app, list_elem_of_singleton, elem_of_cons. tauto. }
  destruct (Hg [] (NoDup_nil_2)) as [Hnd Hiff]. split; [done|].
  intros s. rewrite Hiff, elem_of_nil. tauto.
Qed.

(** ** C5: the data types endpoint *)

Lemma data_types_run ds req h :
  stores ds h ->
  wp (HealthRecordsRoute.data_types (load_exports ds) req) h (fun o h' =>
    o = Ok (Json (Arr.sort_list default_compare
                    (set_of (List.map HealthRecord.dataType (ds_healthRecords ds)))))).
Proof.
  intros Hs. pose proof Hs as Hp. unfold stores in Hp.
  unfold HealthRecordsRoute.data_types. by repeat wp_step (load_heap ds).
Qed.

Lemma data_types_answer ds req h :
  stores ds h ->
  exists l h',
    HealthRecordsRoute.data_types (load_exports ds) req h = (Ok (Json l), h')
    /\ ascending l /\ NoDup l
    /\ (forall s, s ∈ l <->
                  exists r, r ∈ ds_healthRecords ds /\ HealthRecord.dataType r = s).
Proof.
  intros Hs.
  destruct (wp_run _ _ _ (data_types_run ds req h Hs)) as (o & h' & Hrun & ->).
  eexists _, h'. split; [exact Hrun|].
  destruct (set_of_spec (List.map HealthRecord.dataType (ds_healthRecords ds)))
    as [Hnd Hiff].
  assert (NoDup (Arr.sort_list default_compare
                   (set_of (List.map HealthRecord.dataType (ds_healthRecords ds)))))
    as Hnd' by by rewrite sort_list_perm.
  split; [|split; [done|]].
  - apply sorted_strict; [done|].
    apply (sort_list_sorted default_compare).
    + intros x y. rewrite default_compare_lt. apply str_lt_asym.
    + intros x y. by rewrite default_compare_lt.
  - intros s. rewrite sort_list_perm, Hiff, list_elem_of_In, in_map_iff.
    split; intros (r & ? & ?); exists r; by rewrite ?list_elem_of_In in *.
Qed.

(** *** The generator only draws data types from its table *)

Lemma G_bind_eq {A B} (m : G A) (f : A -> G B) w : (m ≫= f) w = f (m w).1 (m w).2.
Proof. unfold mbind, G_bind. by destruct (m w). Qed.

Lemma at_index_floor {T} (arr : list T) (r : Q) :
  (0 <= r)%Q -> (r < 1)%Q -> arr <> [] ->
  exists x,
    Generator.at_index arr
      (Num.floor (Num.mul (Fin r) (Num.of_Z (Z.of_nat (length arr))))) = Some x
    /\ x ∈ arr.
Proof.
  intros H0 H1 Hne.
  change (Num.floor (Num.mul (Fin r) (Num.of_Z (Z.of_nat (length arr)))))
    with (Fin (inject_Z (Qfloor (r * inject_Z (Z.of_nat (length arr)))))).
  set (n := Z.of_nat (length arr)).
  assert (0 < n) as Hn by (destruct arr; [done|simpl in n; lia]).
  set (z := Qfloor (r * inject_Z n)).
  assert (0 <= z < n) as Hz.
  { split.
    - change 0 with (Qfloor 0). apply Qfloor_resp_le.
      apply Qmult_le_0_compat; [done|]. change 0%Q with (inject_Z 0).
      rewrite <- Zle_Qle. lia.
    - rewrite Zlt_Qlt. eapply Qle_lt_trans; [apply Qfloor_le|].
      rewrite <- (Qmult_1_l (inject_Z n)) at 2.
      apply Qmult_lt_compat_r; [|done]. change 0%Q with (inject_Z 0).
      rewrite <- Zlt_Qlt. lia. }
  unfold Generator.at_index.
  assert (Qle_bool 0 (inject_Z z) = true) as ->.
  { apply Qle_bool_iff. change 0%Q with (inject_Z 0). rewrite <- Zle_Qle. lia. }
  assert (Qeq_bool (inject_Z z) (inject_Z (Qfloor (inject_Z z))) = true) as ->.
  { apply Qeq_bool_iff. by rewrite Qfloor_Z. }
  rewrite Qfloor_Z. simpl. destruct (arr !! Z.to_nat z) as [x|] eqn:E.
  - exists x. split; [done|]. by eapply list_elem_of_lookup_2.
  - apply lookup_ge_None in E. lia.
Qed.

Lemma randomChoice_in {T} random (undefined : T) arr w :
  (forall k, (0 <= random k)%Q /\ (random k < 1)%Q) -> arr <> [] ->
  (Generator.randomChoice random undefined arr w).1 ∈ arr.
Proof.
  intros Hr Hne. unfold Generator.randomChoice. rewrite G_bind_eq.
  unfold Generator.Math_random, mret, G_ret. cbn [fst snd].
  destruct (Hr (draws w)) as [H0 H1].
  destruct (at_index_floor arr (random (draws w)) H0 H1 Hne) as (x & Hx & Hin).
  by rewrite Hx.
Qed.

Lemma generateHealthRecord_dataType random clock addresses ids i w :
  (forall k, (0 <= random k)%Q /\ (random k < 1)%Q) ->
  HealthRecord.dataType
    (Generator.generateHealthRecord random clock addresses ids i w).1
  ∈ Generator.dataTypes.
Proof.
  intros Hr. unfold Generator.generateHealthRecord.
  repeat (rewrite G_bind_eq; cbn beta zeta).
  unfold mret at 1, G_ret at 1. cbn [fst HealthRecord.dataType].
  by apply randomChoice_in.
Qed.

Lemma repeat_gen_Forall {A} (P : A -> Prop) (body : Z -> G A) n i w :
  (forall i w, P (body i w).1) -> Forall P (repeat_gen n i body w).1.
Proof.
  intros Hbody. revert i w. induction n as [|n IH]; intros i w; simpl.
  - constructor.
  - rewrite !G_bind_eq. simpl. constructor; [apply Hbody|apply IH].
Qed.

Lemma generated_dataTypes random clock count :
  (forall k, (0 <= random k)%Q /\ (random k < 1)%Q) ->
  Forall (fun r => HealthRecord.dataType r ∈ Generator.dataTypes)
    (Generator.generateHealthRecords random clock count start).1.
Proof.
  intros Hr. unfold Generator.generateHealthRecords. rewrite G_bind_eq.
  apply repeat_gen_Forall. intros i w. by apply generateHealthRecord_dataType.
Qed.

(** C5, as stated, fails: with every draw equal to 0 the generator asked
    for one record makes a single HEART_RATE record, and the endpoint
    answers with that one name. *)
Lemma one_record_one_data_type : ~ data_types_claim.
Proof.
  intros Hclaim.
  pose (records := (Generator.generateHealthRecords (fun _ => 0%Q) (fun _ => 0) 1 start).1).
  pose (ds := {| ds_metadata := ds_metadata Sample.dataset;
                 ds_nodes := []; ds_stakers := [];
                 ds_healthRecords := records;
                 ds_epochs := []; ds_transactions := [] |}).
  destruct (Hclaim (fun _ => 0%Q) (fun _ => 0) 1%nat ds (Sample.get []) (load_heap ds))
    as (l & Hrun & _ & Hperm).
  - intros k. split; [apply Qle_refl|reflexivity].
  - reflexivity.
  - by exists []; rewrite app_nil_r.
  - vm_compute in Hrun. injection Hrun as <-.
    apply Permutation_length in Hperm. discriminate Hperm.
Qed.

(** C5, amended.  The data-types endpoint answers with the distinct
    [dataType] values observed in the stored records, in ascending code unit
    order.  On a generated collection they are among the eight fixed data
    types, and they are all eight exactly when each occurs in at least one
    record. *)
Theorem data_types_observed ds req h :
  stores ds h ->
  exists l h',
    HealthRecordsRoute.data_types (load_exports ds) req h = (Ok (Json l), h')
    /\ ascending l
    /\ (forall s, s ∈ l <->
                  exists r, r ∈ ds_healthRecords ds /\ HealthRecord.dataType r = s)
    /\ forall (random : nat -> Q) (clock : nat -> Z) (count : nat),
         (forall k, (0 <= random k)%Q /\ (random k < 1)%Q) ->
         ds_healthRecords ds
         = (Generator.generateHealthRecords random clock count start).1 ->
         (forall s, s ∈ l -> s ∈ Generator.dataTypes)
         /\ ((forall t, t ∈ Generator.dataTypes ->
                        exists r, r ∈ ds_healthRecords ds /\ HealthRecord.dataType r = t)
             <-> l ≡ₚ Generator.dataTypes).
Proof.
  intros Hs.
  destruct (data_types_answer ds req h Hs) as (l & h' & Hrun & Hasc & Hnd & Hiff).
  exists l, h'. split; [done|]. split; [done|]. split; [done|].
  intros random clock count Hr Hgen.
  assert (forall s, s ∈ l -> s ∈ Generator.dataTypes) as Hsub.
  { intros s Hin. apply Hiff in Hin as (r & Hr' & <-).
    pose proof (generated_dataTypes random clock count Hr) as Hall.
    rewrite <- Hgen in Hall. rewrite Forall_forall in Hall. by apply Hall. }
  split; [done|]. split.
  - intros Hall. apply NoDup_Permutation; [done|by compute_done|].
    intros s. split; [by apply Hsub|]. intros Hin. apply Hiff. by apply Hall.
  - intros Hperm t Ht. apply Hiff. by rewrite Hperm.
Qed.

Lemma data_types_observed_witness :
  stores Sample.dataset (load_heap Sample.dataset)
  /\ exists l h',
       HealthRecordsRoute.data_types (load_exports Sample.dataset) (Sample.get [])
         (load_heap Sample.dataset) = (Ok (Json l), h')
       /\ ascending l.
Proof.
  split; [exact sample_stores|].
  destruct (data_types_observed Sample.dataset (Sample.get []) (load_heap Sample.dataset)
              sample_stores) as (l & h' & Hrun & Hasc & _).
  exists l, h'. split; [exact Hrun|exact Hasc].
Defined.

(** ** C6: the network health score *)

Lemma Qltb_proper a b c d : (a == c)%Q -> (b == d)%Q -> Num.Qltb a b = Num.Qltb c d.
Proof.
  intros Hac Hbd. unfold Num.Qltb. f_equal.
  destruct (Qle_bool b a) eqn:E1, (Qle_bool d c) eqn:E2; try done.
  - apply Qle_bool_iff in E1. rewrite Hac, Hbd in E1. apply Qle_bool_iff in E1. congruence.
  - apply Qle_bool_iff in E2. rewrite <- Hac, <- Hbd in E2. apply Qle_bool_iff in E2.
    congruence.
Qed.

Lemma toFixed_proper q q' d : (q == q')%Q -> Num.toFixed (Fin q) d = Num.toFixed (Fin q') d.
Proof.
  intros Hq. unfold Num.toFixed.
  rewrite (Qltb_proper q 0 q' 0 Hq (Qeq_refl 0)).
  assert (Qfloor (Qabs q * inject_Z (10 ^ Z.of_nat d) + (1 # 2))
          = Qfloor (Qabs q' * inject_Z (10 ^ Z.of_nat d) + (1 # 2))) as ->; [|done].
  apply Qfloor_comp. by rewrite Hq.
Qed.

Lemma string_length_app (a b : string) :
  String.length (a +:+ b) = (String.length a + String.length b)%nat.
Proof. induction a as [|c a IH]; simpl; [done|]. by rewrite IH. Qed.

Lemma fixed_digits_length w n : String.length (Str.fixed_digits w n) = w.
Proof.
  revert n. induction w as [|w IH]; intros n; simpl; [done|].
  rewrite string_length_app, IH. simpl. lia.
Qed.

(** A finite number printed by [toFixed] with [d > 0] digits ends in a
    point and exactly [d] characters. *)
Lemma toFixed_decimals q d :
  exists whole frac,
    Num.toFixed (Fin q) (S d) = whole +:+ "." +:+ frac /\ String.length frac = S d.
Proof.
  unfold Num.toFixed.
  set (n := Qfloor _). set (ip := Str.of_nonneg _).
  destruct (Num.Qltb q 0).
  - exists (String "-" ip), (Str.fixed_digits (S d) n).
    split; [done|apply fixed_digits_length].
  - exists ip, (Str.fixed_digits (S d) n). split; [done|apply fixed_digits_length].
Qed.

Lemma stats_index_run ds req h :
  stores ds h -> ds_epochs ds <> [] ->
  wp (StatsRoute.index (load_exports ds) req) h (fun o h' =>
    exists body,
      o = Ok (Json body)
      /\ PlatformStats.networkHealth (PlatformStats.network body)
         = Num.toFixed (score_number ds) 1
      /\ PlatformStats.avgUptime (PlatformStats.network body)
         = Num.toFixed (avg_uptime_number ds) 2
      /\ PlatformStats.validationRate (PlatformStats.healthData body)
         = Num.toFixed (validation_rate_number ds) 2).
Proof.
  intros Hs Hne. pose proof Hs as Hp. unfold stores in Hp.
  unfold StatsRoute.index. repeat frame_step (load_heap ds).
  destruct (ds_epochs ds) as [|e es]; [done|].
  repeat frame_step (load_heap ds). eexists. split; [reflexivity|]. by repeat split.
Qed.

Lemma sum_uptimes (l : list Node.t) acc :
  Forall (fun n => exists u, Num.parseFloat (Node.uptime n) = Fin u
                             /\ (0 <= u)%Q /\ (u <= 100)%Q) l ->
  exists s,
    foldl (fun sum n => Num.add sum (Num.parseFloat (Node.uptime n))) (Fin acc) l = Fin s
    /\ (s == acc + Qsum (List.map uptime_of l))%Q.
Proof.
  intros Hall. revert acc. induction Hall as [|n l (u & Hu & _) _ IH]; intros acc; simpl.
  - exists acc. split; [done|]. unfold Qsum. simpl. ring.
  - rewrite Hu. simpl. destruct (IH (acc + u)%Q) as (s & -> & Hs).
    exists s. split; [done|]. rewrite Hs. unfold uptime_of at 2. rewrite Hu.
    unfold Qsum. simpl. ring.
Qed.

Lemma uptimes_range (l : list Node.t) :
  Forall (fun n => exists u, Num.parseFloat (Node.uptime n) = Fin u
                             /\ (0 <= u)%Q /\ (u <= 100)%Q) l ->
  (0 <= Qsum (List.map uptime_of l))%Q
  /\ (Qsum (List.map uptime_of l) <= 100 * inject_Z (Z.of_nat (length l)))%Q.
Proof.
  induction 1 as [|n l (u & Hu & H0 & H1) _ [IH0 IH1]]; unfold Qsum in *.
  - simpl. split; [apply Qle_refl|]. ring_simplify. apply Qle_refl.
  - cbn [List.map fold_right length]. unfold uptime_of at 1 3. rewrite Hu.
    rewrite Nat2Z.inj_succ. unfold Z.succ. rewrite inject_Z_plus.
    split; [lra|]. change (inject_Z 1) with 1%Q. lra.
Qed.

Lemma of_Z_fin z : Num.of_Z z = Fin (inject_Z z).
Proof. done. Qed.

Lemma div_by_int x z :
  z <> 0 -> Num.div (Fin x) (Num.of_Z z) = Fin (x / inject_Z z).
Proof.
  intros Hz. unfold Num.div, Num.of_Z.
  destruct (Qeq_bool (inject_Z z) 0) eqn:E; [|done].
  apply Qeq_bool_iff in E. unfold Qeq in E. simpl in E. lia.
Qed.

Lemma percentage_range part total :
  0 <= part <= total -> 0 < total ->
  (0 <= percentage part total)%Q /\ (percentage part total <= 100)%Q.
Proof.
  intros Hpart Htotal. unfold percentage.
  assert (0 < inject_Z total)%Q as Ht.
  { change 0%Q with (inject_Z 0). rewrite <- Zlt_Qlt. lia. }
  assert (0 <= inject_Z part / inject_Z total)%Q as H0.
  { apply Qle_shift_div_l; [done|]. ring_simplify.
    change 0%Q with (inject_Z 0). rewrite <- Zle_Qle. lia. }
  assert (inject_Z part / inject_Z total <= 1)%Q as H1.
  { apply Qle_shift_div_r; [done|]. ring_simplify. rewrite <- Zle_Qle. lia. }
  split; lra.
Qed.

Lemma count_of_range {T} (p : T -> bool) l :
  0 <= count_of p l <= Z.of_nat (length l).
Proof.
  unfold count_of. pose proof (filter_length_le p l) as Hle.
  split; [lia|]. apply inj_le. exact Hle.
Qed.

Lemma network_health_range ds :
  scored ds -> (0 <= network_health ds)%Q /\ (network_health ds <= 100)%Q.
Proof.
  intros (Hn & Hr & _ & Hall). unfold network_health.
  assert (0 < Z.of_nat (length (ds_nodes ds))) as Hnodes.
  { destruct (ds_nodes ds); [done|simpl; lia]. }
  assert (0 < Z.of_nat (length (ds_healthRecords ds))) as Hrecords.
  { destruct (ds_healthRecords ds); [done|simpl; lia]. }
  destruct (uptimes_range _ Hall) as [U0 U1].
  assert (0 < inject_Z (Z.of_nat (length (ds_nodes ds))))%Q as Hq.
  { change 0%Q with (inject_Z 0). rewrite <- Zlt_Qlt. lia. }
  assert (0 <= avg_uptime ds)%Q as A0.
  { unfold avg_uptime. apply Qle_shift_div_l; [done|]. by ring_simplify. }
  assert (avg_uptime ds <= 100)%Q as A1.
  { unfold avg_uptime. by apply Qle_shift_div_r. }
  destruct (percentage_range _ _ (count_of_range
              (fun r => String.eqb (HealthRecord.validationStatus r) "VALIDATED")
              (ds_healthRecords ds)) Hrecords) as [V0 V1].
  destruct (percentage_range _ _ (count_of_range
              (fun n => String.eqb (Node.status n) "ACTIVE") (ds_nodes ds)) Hnodes)
    as [N0 N1].
  fold (validation_rate ds) in V0, V1. fold (active_node_rate ds) in N0, N1.
  split.
  - apply Qle_shift_div_l; [reflexivity|]. lra.
  - apply Qle_shift_div_r; [reflexivity|]. lra.
Qed.

Lemma score_numbers ds :
  scored ds ->
  exists u v m,
    avg_uptime_number ds = Fin u /\ (u == avg_uptime ds)%Q
    /\ validation_rate_number ds = Fin v /\ (v == validation_rate ds)%Q
    /\ score_number ds = Fin m /\ (m == network_health ds)%Q.
Proof.
  intros (Hn & Hr & _ & Hall).
  assert (Z.of_nat (length (ds_nodes ds)) <> 0) as Hnodes.
  { destruct (ds_nodes ds); [done|simpl; lia]. }
  assert (Z.of_nat (length (ds_healthRecords ds)) <> 0) as Hrecords.
  { destruct (ds_healthRecords ds); [done|simpl; lia]. }
  destruct (sum_uptimes (ds_nodes ds) (inject_Z 0) Hall) as (s & Hs & Hsum).
  assert (avg_uptime_number ds
          = Fin (s / inject_Z (Z.of_nat (length (ds_nodes ds))))) as Eu.
  { unfold avg_uptime_number. unfold Num.of_Z at 1. rewrite Hs. by rewrite div_by_int. }
  assert (validation_rate_number ds = Fin (validation_rate ds)) as Ev.
  { unfold validation_rate_number. rewrite (of_Z_fin (count_of _ _)).
    by rewrite div_by_int. }
  assert (active_node_rate_number ds = Fin (active_node_rate ds)) as Ea.
  { unfold active_node_rate_number. rewrite (of_Z_fin (count_of _ _)).
    by rewrite div_by_int. }
  assert (s / inject_Z (Z.of_nat (length (ds_nodes ds))) == avg_uptime ds)%Q as Hu.
  { unfold avg_uptime. rewrite Hsum. change (inject_Z 0) with 0%Q.
    by rewrite Qplus_0_l. }
  eexists _, _, _. split; [exact Eu|]. split; [exact Hu|].
  split; [exact Ev|]. split; [reflexivity|].
  unfold score_number. rewrite Eu, Ev, Ea. cbn [Num.add].
  rewrite (div_by_int _ 3) by done. split; [reflexivity|].
  unfold network_health. rewrite Hu. reflexivity.
Qed.

(** C6, as stated, fails on the format: on the sample dataset the mean is
    74.388..., which the handler prints as 74.4, not as 74.39. *)
Lemma network_health_one_decimal : ~ network_health_claim.
Proof.
  intros Hclaim.
  assert (scored Sample.dataset) as Hscored.
  { repeat split; try done.
    repeat constructor; eexists; (split; [vm_compute; reflexivity|]); by split. }
  destruct (Hclaim Sample.dataset (Sample.get []) (load_heap Sample.dataset)
              sample_stores Hscored) as (body & h' & Hrun & Hscore).
  vm_compute in Hrun. injection Hrun as <- <-.
  vm_compute in Hscore. discriminate Hscore.
Qed.

(** C6, amended.  On a dataset with at least one node, health record and
    epoch whose uptimes are numerals in [0, 100], the composite endpoint
    answers 200; [networkHealth] is the unweighted mean of the average
    uptime, the validation rate and the active-node rate, lies in [0, 100]
    and is printed with one decimal, while [avgUptime] and [validationRate]
    are printed with two. *)
Theorem network_health_score ds req h :
  stores ds h -> scored ds ->
  exists body h',
    StatsRoute.index (load_exports ds) req h = (Ok (Json body), h')
    /\ PlatformStats.networkHealth (PlatformStats.network body)
       = Num.toFixed (Fin (network_health ds)) 1
    /\ (0 <= network_health ds)%Q /\ (network_health ds <= 100)%Q
    /\ (exists whole frac,
          PlatformStats.networkHealth (PlatformStats.network body)
          = whole +:+ "." +:+ frac /\ String.length frac = 1%nat)
    /\ PlatformStats.avgUptime (PlatformStats.network body)
       = Num.toFixed (Fin (avg_uptime ds)) 2
    /\ PlatformStats.validationRate (PlatformStats.healthData body)
       = Num.toFixed (Fin (validation_rate ds)) 2.
Proof.
  intros Hs Hscored. pose proof Hscored as (_ & _ & Hne & _).
  destruct (wp_run _ _ _ (stats_index_run ds req h Hs Hne))
    as (o & h' & Hrun & body & -> & Hscore & Huptime & Hrate).
  destruct (score_numbers ds Hscored) as (u & v & m & Eu & Hu & Ev & Hv & Em & Hm).
  destruct (network_health_range ds Hscored) as [H0 H1].
  exists body, h'. split; [exact Hrun|].
  rewrite Hscore, Huptime, Hrate, Eu, Ev, Em.
  split; [by apply toFixed_proper|]. split; [done|]. split; [done|].
  split; [apply toFixed_decimals|]. split; by apply toFixed_proper.
Qed.

Lemma network_health_score_witness :
  stores Sample.dataset (load_heap Sample.dataset)
  /\ scored Sample.dataset
  /\ exists body h',
       StatsRoute.index (load_exports Sample.dataset) (Sample.get [])
         (load_heap Sample.dataset) = (Ok (Json body), h')
       /\ PlatformStats.networkHealth (PlatformStats.network body) = "74.4"%string.
Proof.
  assert (scored Sample.dataset) as Hscored.
  { repeat split; try done.
    repeat constructor; eexists; (split; [vm_compute; reflexivity|]); by split. }
  split; [exact sample_stores|]. split; [exact Hscored|].
  destruct (network_health_score Sample.dataset (Sample.get []) (load_heap Sample.dataset)
              sample_stores Hscored) as (body & h' & Hrun & Hscore & _).
  exists body, h'. split; [exact Hrun|]. rewrite Hscore. by vm_compute.
Defined.

(** ** C9: the validation counters of generated nodes *)

Lemma rates_read_back : forallb reads_back (seqZ 9000 901) = true.
Proof. vm_compute. reflexivity. Qed.

Lemma rate_reads_back n :
  9000 <= n <= 9900 ->
  exists q, Num.of_string (four_decimals n) = Fin q /\ (q == n # 10000)%Q.
Proof.
  intros Hn. pose proof rates_read_back as Hall.
  rewrite forallb_forall in Hall.
  assert (reads_back n = true) as Hb.
  { apply Hall. apply list_elem_of_In, elem_of_seqZ. lia. }
  unfold reads_back in Hb. destruct (Num.of_string (four_decimals n)) as [| |q]; try done.
  exists q. split; [done|]. by apply Qeq_bool_iff.
Qed.

Lemma floor_scaled (u : Q) (m : Z) :
  (0 <= u)%Q -> (u < 1)%Q -> 0 < m -> 0 <= Qfloor (u * inject_Z m) <= m - 1.
Proof.
  intros H0 H1 Hm.
  assert (0 < inject_Z m)%Q as Hq.
  { change 0%Q with (inject_Z 0). rewrite <- Zlt_Qlt. lia. }
  split.
  - change 0 with (Qfloor 0). apply Qfloor_resp_le. by apply Qmult_le_0_compat; [|apply Qlt_le_weak].
  - assert (Qfloor (u * inject_Z m) < m); [|lia].
    rewrite Zlt_Qlt. eapply Qle_lt_trans; [apply Qfloor_le|].
    rewrite <- (Qmult_1_l (inject_Z m)) at 2. by apply Qmult_lt_compat_r.
Qed.

Lemma randomInt_value random lo hi w :
  (forall k, (0 <= random k)%Q /\ (random k < 1)%Q) -> lo <= hi ->
  exists q z,
    (Generator.randomInt random (Num.of_Z lo) (Num.of_Z hi) w).1 = Fin q
    /\ (q == inject_Z z)%Q /\ lo <= z <= hi.
Proof.
  intros Hr Hle. destruct (Hr (draws w)) as [H0 H1].
  unfold Generator.randomInt. rewrite G_bind_eq.
  unfold Generator.Math_random, mret, G_ret. cbn [fst snd].
  unfold Num.of_Z. cbn [Num.sub Num.neg Num.add Num.mul Num.floor]. unfold Num.of_Z.
  cbn [Num.add].
  set (m := (inject_Z hi + - inject_Z lo + inject_Z 1)%Q).
  assert (m == inject_Z (hi - lo + 1))%Q as Hm.
  { unfold m, Z.sub. rewrite !inject_Z_plus, inject_Z_opp. reflexivity. }
  eexists _, (Qfloor (random (draws w) * m) + lo). split; [reflexivity|].
  split; [by rewrite inject_Z_plus|].
  rewrite (Qfloor_comp _ (random (draws w) * inject_Z (hi - lo + 1))) by by rewrite Hm.
  pose proof (floor_scaled (random (draws w)) (hi - lo + 1) H0 H1 ltac:(lia)). lia.
Qed.

Lemma successRate_value random w :
  (forall k, (0 <= random k)%Q /\ (random k < 1)%Q) ->
  exists q k,
    Num.of_string (Generator.randomFloat random (Fin 0.90) (Fin 0.99) 4 w).1 = Fin q
    /\ (q == k # 10000)%Q /\ 9000 <= k <= 9900.
Proof.
  intros Hr. destruct (Hr (draws w)) as [H0 H1].
  unfold Generator.randomFloat. rewrite G_bind_eq.
  unfold Generator.Math_random, mret, G_ret. cbn [fst snd].
  cbn [Num.sub Num.neg Num.add Num.mul].
  set (x := (random (draws w) * (0.99 + Qopp 0.90) + 0.90)%Q).
  assert (0.90 <= x)%Q as Hx0 by (unfold x; lra).
  assert (x < 0.99)%Q as Hx1 by (unfold x; lra).
  unfold Num.toFixed.
  assert (Num.Qltb x 0 = false) as ->.
  { unfold Num.Qltb. apply negb_false_iff, Qle_bool_iff. lra. }
  set (n := Qfloor (Qabs x * inject_Z (10 ^ Z.of_nat 4) + (1 # 2))).
  assert (9000 <= n <= 9900) as Hn.
  { unfold n. rewrite Qabs_pos by lra.
    change (inject_Z (10 ^ Z.of_nat 4)) with 10000%Q. split.
    - change 9000 with (Qfloor (inject_Z 9000)). apply Qfloor_resp_le.
      change (inject_Z 9000) with 9000%Q. lra.
    - assert (Qfloor (x * 10000 + (1 # 2)) < 9901); [|lia].
      rewrite Zlt_Qlt. eapply Qle_lt_trans; [apply Qfloor_le|].
      change (inject_Z 9901) with 9901%Q. lra. }
  change (Str.of_nonneg (n / 10 ^ Z.of_nat 4) +:+ "." +:+ Str.fixed_digits 4 n)
    with (four_decimals n).
  destruct (rate_reads_back n Hn) as (q & Hq & Heq). by exists q, n.
Qed.

Lemma floor_of_product (vp k : Z) :
  Qfloor (inject_Z vp * (k # 10000)) = (vp * k) / 10000.
Proof. unfold Qfloor, Qmult, inject_Z. simpl. done. Qed.

Lemma floor_of_complement (vp k : Z) :
  Qfloor (inject_Z vp * (1 - (k # 10000))) = (vp * (10000 - k)) / 10000.
Proof.
  unfold Qfloor, Qmult, Qminus, Qplus, Qopp, inject_Z. simpl.
  f_equal. lia.
Qed.

Lemma split_arithmetic (vp k : Z) :
  0 <= vp -> 9000 <= k <= 9900 ->
  let vs := (vp * k) / 10000 in
  let vf := (vp * (10000 - k)) / 10000 in
  (vs + vf = vp \/ vs + vf = vp - 1) /\ 0 <= vs <= vp /\ 0 <= vf <= vp.
Proof.
  intros Hvp Hk vs vf.
  pose proof (Z.div_mod (vp * k) 10000 ltac:(lia)) as E1.
  pose proof (Z.mod_pos_bound (vp * k) 10000 ltac:(lia)) as B1.
  pose proof (Z.div_mod (vp * (10000 - k)) 10000 ltac:(lia)) as E2.
  pose proof (Z.mod_pos_bound (vp * (10000 - k)) 10000 ltac:(lia)) as B2.
  fold vs in E1. fold vf in E2.
  assert (0 <= vp * k) by nia. assert (0 <= vp * (10000 - k)) by nia.
  assert (vp * k <= vp * 10000) by nia. assert (vp * (10000 - k) <= vp * 10000) by nia.
  repeat split; lia.
Qed.

(** ** The helpers of the generator *)

Lemma num_neg_Z a : Num.neg (Num.of_Z a) = Num.of_Z (- a).
Proof. reflexivity. Qed.

Lemma num_add_Z a b : Num.add (Num.of_Z a) (Num.of_Z b) = Num.of_Z (a + b).
Proof. unfold Num.of_Z, Num.add, Qplus, inject_Z. simpl. do 2 f_equal. lia. Qed.

Lemma num_sub_Z a b : Num.sub (Num.of_Z a) (Num.of_Z b) = Num.of_Z (a - b).
Proof. unfold Num.sub. by rewrite num_neg_Z, num_add_Z. Qed.

Lemma num_mul_Z a b : Num.mul (Num.of_Z a) (Num.of_Z b) = Num.of_Z (a * b).
Proof. unfold Num.of_Z, Num.mul, Qmult, inject_Z. simpl. done. Qed.

Lemma randomInt_run random lo hi w :
  Generator.randomInt random (Num.of_Z lo) (Num.of_Z hi) w
  = (Num.of_Z (Qfloor (random (draws w) * inject_Z (hi - lo + 1)) + lo), drawn 1 w).
Proof.
  unfold Generator.randomInt. rewrite G_bind_eq.
  unfold Generator.Math_random, mret, G_ret. cbn [fst snd].
  rewrite num_sub_Z, num_add_Z. unfold drawn. rewrite Nat.add_1_r.
  change (Num.mul (Fin ?r) (Num.of_Z ?m)) with (Fin (r * inject_Z m)).
  cbn [Num.floor]. by rewrite num_add_Z.
Qed.

Lemma randomInt_bounds random lo hi w :
  unit_interval random -> lo <= hi ->
  exists z,
    Generator.randomInt random (Num.of_Z lo) (Num.of_Z hi) w = (Num.of_Z z, drawn 1 w)
    /\ lo <= z <= hi.
Proof.
  intros Hr Hle. destruct (Hr (draws w)) as [H0 H1].
  rewrite randomInt_run. eexists. split; [reflexivity|].
  pose proof (floor_scaled (random (draws w)) (hi - lo + 1) H0 H1 ltac:(lia)). lia.
Qed.

(** X1. [randomInt(min, max)] on integers [min <= max], with a draw in
    [0, 1), returns an integer between [min] and [max], both included, and
    consumes exactly one draw; with [min = max] it returns [min]. *)
Theorem randomInt_in_range random lo hi w :
  unit_interval random -> lo <= hi ->
  exists z,
    Generator.randomInt random (Num.of_Z lo) (Num.of_Z hi) w = (Num.of_Z z, drawn 1 w)
    /\ lo <= z <= hi /\ (lo = hi -> z = lo).
Proof.
  intros Hr Hle.
  destruct (randomInt_bounds random lo hi w Hr Hle) as (z & Hrun & Hz).
  exists z. split; [done|]. split; [done|]. lia.
Qed.

Lemma randomInt_in_range_witness :
  unit_interval (fun _ => 1 # 2) /\ 0 <= 15
  /\ exists z,
       Generator.randomInt (fun _ => 1 # 2) (Num.of_Z 0) (Num.of_Z 15) start
       = (Num.of_Z z, drawn 1 start)
       /\ 0 <= z <= 15 /\ (0 = 15 -> z = 0).
Proof.
  assert (unit_interval (fun _ => 1 # 2)) as H.
  { intros _. split; [unfold Qle; simpl; lia | reflexivity]. }
  split; [exact H|]. split; [lia|].
  exact (randomInt_in_range (fun _ => 1 # 2) 0 15 start H ltac:(lia)).
Defined.

(** X2. [randomChoice(arr)] with a draw in [0, 1) returns an element of a
    non-empty array and [undefined] on an empty one, and consumes exactly
    one draw; every element of the array is returned for some draw. *)
Theorem randomChoice_member {T} random (undefined : T) arr w :
  unit_interval random ->
  (arr <> [] -> (Generator.randomChoice random undefined arr w).1 ∈ arr)
  /\ (arr = [] -> (Generator.randomChoice random undefined arr w).1 = undefined)
  /\ (Generator.randomChoice random undefined arr w).2 = drawn 1 w
  /\ (forall i x, arr !! i = Some x ->
        exists r, (0 <= r)%Q /\ (r < 1)%Q
          /\ (Generator.randomChoice (fun _ => r) undefined arr w).1 = x).
Proof.
  intros Hr. split; [by apply randomChoice_in|]. split; [|split].
  - intros ->. unfold Generator.randomChoice. rewrite G_bind_eq.
    unfold Generator.Math_random, mret, G_ret. cbn [fst snd length].
    change (Num.mul (Fin ?r) (Num.of_Z ?m)) with (Fin (r * inject_Z m)).
    cbn [Num.floor]. unfold Generator.at_index, Num.of_Z.
    by destruct (_ && _); rewrite ?lookup_nil.
  - unfold Generator.randomChoice. rewrite G_bind_eq.
    unfold Generator.Math_random, mret, G_ret, drawn. cbn [fst snd].
    by rewrite Nat.add_1_r.
  - intros i x Hix.
    pose proof (lookup_lt_Some _ _ _ Hix) as Hlt.
    set (n := Z.of_nat (length arr)).
    assert (0 < n) as Hn by lia.
    exists (Z.of_nat i # Z.to_pos n)%Q.
    assert (0 <= Z.of_nat i # Z.to_pos n)%Q as H0 by (unfold Qle; simpl; lia).
    assert (Z.of_nat i # Z.to_pos n < 1)%Q as H1.
    { unfold Qlt. simpl. rewrite Z2Pos.id by lia. lia. }
    split; [done|]. split; [done|].
    unfold Generator.randomChoice. rewrite G_bind_eq.
    unfold Generator.Math_random, mret, G_ret. cbn [fst snd]. fold n.
    change (Num.mul (Fin ?r) (Num.of_Z ?m)) with (Fin (r * inject_Z m)).
    cbn [Num.floor].
    assert ((Z.of_nat i # Z.to_pos n) * inject_Z n == inject_Z (Z.of_nat i))%Q as E.
    { unfold Qeq, Qmult, inject_Z. simpl. rewrite Pos.mul_1_r, Z2Pos.id by lia. lia. }
    rewrite (Qfloor_comp _ _ E), Qfloor_Z.
    unfold Generator.at_index, Num.of_Z.
    rewrite Qfloor_Z, Nat2Z.id, Hix.
    assert (Qle_bool 0 (inject_Z (Z.of_nat i)) = true) as ->.
    { apply Qle_bool_iff. unfold Qle. simpl. lia. }
    by rewrite (proj2 (Qeq_bool_iff _ _) (Qeq_refl _)).
Qed.

Lemma randomChoice_member_witness :
  unit_interval (fun _ => 1 # 2)
  /\ (Generator.randomChoice (fun _ => 1 # 2) "undefined"%string Generator.statuses start).1
     ∈ Generator.statuses.
Proof.
  assert (unit_interval (fun _ => 1 # 2)) as H.
  { intros _. split; [unfold Qle; simpl; lia | reflexivity]. }
  split; [exact H|].
  apply (randomChoice_member (fun _ => 1 # 2) "undefined"%string Generator.statuses start H).
  discriminate.
Defined.

Lemma append_cons x (a b : string) : String x a +:+ b = String x (a +:+ b).
Proof. reflexivity. Qed.

Lemma append_assoc_str (a b c : string) : (a +:+ b) +:+ c = a +:+ (b +:+ c).
Proof. induction a as [|x a IH]; [done|]. by rewrite !append_cons, IH. Qed.

Lemma append_empty_r (a : string) : a +:+ "" = a.
Proof. induction a as [|x a IH]; [done|]. by rewrite append_cons, IH. Qed.

Lemma all_chars_app p (a b : string) :
  all_chars p (a +:+ b) = all_chars p a && all_chars p b.
Proof.
  induction a as [|x a IH]; [done|].
  rewrite append_cons. cbn [all_chars]. by rewrite IH, andb_assoc.
Qed.

Lemma str_map_app f (a b : string) : Str.map f (a +:+ b) = Str.map f a +:+ Str.map f b.
Proof.
  induction a as [|x a IH]; [done|].
  rewrite append_cons. cbn [Str.map]. by rewrite IH.
Qed.

Lemma char_at_hex z :
  0 <= z <= 15 ->
  exists c, Generator.char_at "0123456789abcdef" (Num.of_Z z) = String c EmptyString
            /\ lower_hex c = true /\ Str.lower_char c = c.
Proof.
  intros Hz.
  assert (Forall (fun z =>
            exists c, Generator.char_at "0123456789abcdef" (Num.of_Z z) = String c EmptyString
                      /\ lower_hex c = true /\ Str.lower_char c = c) (seqZ 0 16)) as Hall.
  { repeat (constructor; [eexists; split; [reflexivity|]; by vm_compute|]). constructor. }
  rewrite Forall_forall in Hall. apply Hall. apply elem_of_seqZ. lia.
Qed.

Lemma random_hex_run random n acc w :
  unit_interval random ->
  exists body,
    Generator.random_hex random n acc w = (acc +:+ body, drawn n w)
    /\ String.length body = n /\ all_chars lower_hex body = true
    /\ Str.toLowerCase body = body.
Proof.
  intros Hr. revert acc w. induction n as [|n IH]; intros acc w.
  - exists EmptyString. simpl. unfold mret, G_ret, drawn.
    rewrite append_empty_r, Nat.add_0_r. by destruct w.
  - simpl. rewrite G_bind_eq.
    destruct (randomInt_bounds random 0 15 w Hr ltac:(lia)) as (z & -> & Hz).
    cbn [fst snd].
    destruct (char_at_hex z Hz) as (c & -> & Hc & Hlow).
    destruct (IH (acc +:+ String c EmptyString) (drawn 1 w)) as (body & -> & Hlen & Hhex & Hl).
    exists (String c body). rewrite append_assoc_str, append_cons.
    split; [f_equal; unfold drawn; simpl; f_equal; lia|].
    unfold Str.toLowerCase in *. cbn [String.length all_chars Str.map].
    by rewrite Hlen, Hc, Hhex, Hlow, Hl.
Qed.

(** X3. With draws in [0, 1), [randomAddress()] returns the text [0x]
    followed by exactly 40 characters of [0123456789abcdef], and
    [randomHash()] the text [0x] followed by exactly 64 of them; they
    consume 40 and 64 draws, and the results are unchanged by
    [toLowerCase()]. *)
Theorem random_address_shape random w :
  unit_interval random ->
  (exists body,
     Generator.randomAddress random w = ("0x" +:+ body, drawn 40 w)
     /\ String.length body = 40%nat /\ all_chars lower_hex body = true
     /\ Str.toLowerCase ("0x" +:+ body) = "0x" +:+ body)
  /\ (exists body,
        Generator.randomHash random w = ("0x" +:+ body, drawn 64 w)
        /\ String.length body = 64%nat /\ all_chars lower_hex body = true
        /\ Str.toLowerCase ("0x" +:+ body) = "0x" +:+ body).
Proof.
  intros Hr. split.
  - destruct (random_hex_run random 40 "0x" w Hr) as (body & Hrun & Hlen & Hhex & Hl).
    exists body. split; [done|]. split; [done|]. split; [done|].
    unfold Str.toLowerCase in *. by rewrite str_map_app, Hl.
  - destruct (random_hex_run random 64 "0x" w Hr) as (body & Hrun & Hlen & Hhex & Hl).
    exists body. split; [done|]. split; [done|]. split; [done|].
    unfold Str.toLowerCase in *. by rewrite str_map_app, Hl.
Qed.

Lemma random_address_shape_witness :
  unit_interval (fun _ => 1 # 2)
  /\ exists body,
       Generator.randomAddress (fun _ => 1 # 2) start = ("0x" +:+ body, drawn 40 start)
       /\ String.length body = 40%nat /\ all_chars lower_hex body = true
       /\ Str.toLowerCase ("0x" +:+ body) = "0x" +:+ body.
Proof.
  assert (unit_interval (fun _ => 1 # 2)) as H.
  { intros _. split; [unfold Qle; simpl; lia | reflexivity]. }
  split; [exact H|].
  exact (proj1 (random_address_shape (fun _ => 1 # 2) start H)).
Defined.

(** ** Decimal numerals: printing and reading back *)

Lemma code_of_code z : 0 <= z < 256 -> Str.code (Str.of_code z) = z.
Proof.
  intros Hz. unfold Str.code, Str.of_code.
  rewrite N_ascii_embedding by lia. lia.
Qed.

Lemma digit_char_digit d :
  0 <= d <= 9 ->
  Str.is_digit (Str.digit_char d) = true /\ Str.digit_val (Str.digit_char d) = d.
Proof.
  intros Hd. unfold Str.is_digit, Str.is_between, Str.digit_val, Str.digit_char.
  rewrite code_of_code by lia. split; [|lia].
  apply andb_true_iff. split; apply Z.leb_le; lia.
Qed.

Lemma radix_val_digit c :
  Str.is_digit c = true -> Str.radix_val 10 c = Some (Str.digit_val c).
Proof.
  intros Hc. unfold Str.radix_val, Str.hex_val. rewrite Hc.
  unfold Str.is_digit, Str.is_between in Hc. apply andb_true_iff in Hc as [H1 H2].
  apply Z.leb_le in H1, H2. unfold Str.digit_val.
  by destruct (Z.ltb_spec (Str.code c - 48) 10); [|lia].
Qed.

Lemma digits_of_cons c s : digits_of (String c s) = Str.digit_val c :: digits_of s.
Proof. reflexivity. Qed.

Lemma digits_of_app (a b : string) : digits_of (a +:+ b) = digits_of a ++ digits_of b.
Proof.
  induction a as [|x a IH]; [done|].
  by rewrite append_cons, !digits_of_cons, IH.
Qed.

Lemma span_digits_app (s t : string) :
  all_chars Str.is_digit s = true ->
  Str.span_digits 10 (s +:+ t)
  = (digits_of s ++ (Str.span_digits 10 t).1, (Str.span_digits 10 t).2).
Proof.
  induction s as [|c s IH]; intros Hs.
  - change ("" +:+ t) with t. by destruct (Str.span_digits 10 t).
  - cbn [all_chars] in Hs. apply andb_true_iff in Hs as [Hc Hs].
    rewrite append_cons. cbn [Str.span_digits].
    rewrite (radix_val_digit c Hc), (IH Hs). by rewrite digits_of_cons.
Qed.

Lemma span_digits_all (s : string) :
  all_chars Str.is_digit s = true -> Str.span_digits 10 s = (digits_of s, EmptyString).
Proof.
  intros Hs. rewrite <- (append_empty_r s) at 1.
  rewrite (span_digits_app s "" Hs). simpl. by rewrite app_nil_r.
Qed.

Lemma fixed_digits_digits w n : all_chars Str.is_digit (Str.fixed_digits w n) = true.
Proof.
  revert n. induction w as [|w IH]; intros n; [done|].
  cbn [Str.fixed_digits]. rewrite all_chars_app, IH. cbn [all_chars].
  pose proof (Z.mod_pos_bound n 10 ltac:(lia)).
  by rewrite (proj1 (digit_char_digit (n mod 10) ltac:(lia))).
Qed.

Lemma digits_value_snoc ds d :
  Str.digits_value 10 (ds ++ [d]) = Str.digits_value 10 ds * 10 + d.
Proof. unfold Str.digits_value. by rewrite foldl_app. Qed.

Lemma fixed_digits_value w n :
  0 <= n -> Str.digits_value 10 (digits_of (Str.fixed_digits w n)) = n mod 10 ^ Z.of_nat w.
Proof.
  revert n. induction w as [|w IH]; intros n Hn.
  - simpl. by rewrite Z.mod_1_r.
  - cbn [Str.fixed_digits]. rewrite digits_of_app, digits_of_cons.
    change (digits_of "") with (@nil Z). rewrite digits_value_snoc.
    rewrite IH by (apply Z.div_pos; lia).
    pose proof (Z.mod_pos_bound n 10 ltac:(lia)).
    rewrite (proj2 (digit_char_digit (n mod 10) ltac:(lia))).
    rewrite Nat2Z.inj_succ, Z.pow_succ_r by lia.
    rewrite (Z.rem_mul_r n 10 (10 ^ Z.of_nat w)) by lia. lia.
Qed.

Lemma count_digits_bound fuel n :
  0 <= n < 2 ^ Z.of_nat fuel -> n < 10 ^ Z.of_nat (Str.count_digits fuel n).
Proof.
  revert n. induction fuel as [|fuel IH]; intros n Hn.
  - simpl in *. lia.
  - cbn [Str.count_digits]. destruct (Z.ltb_spec n 10) as [Hlt|Hge]; [simpl; lia|].
    rewrite Nat2Z.inj_succ, Z.pow_succ_r in * by lia.
    assert (n / 10 < 10 ^ Z.of_nat (Str.count_digits fuel (n / 10))) as Hrec.
    { apply IH. split; [apply Z.div_pos; lia|].
      apply Z.div_lt_upper_bound; lia. }
    pose proof (Z.mul_succ_div_gt n 10 ltac:(lia)). lia.
Qed.

Lemma of_nonneg_value n :
  0 <= n ->
  all_chars Str.is_digit (Str.of_nonneg n) = true
  /\ Str.digits_value 10 (digits_of (Str.of_nonneg n)) = n.
Proof.
  intros Hn. unfold Str.of_nonneg. split; [apply fixed_digits_digits|].
  rewrite fixed_digits_value by done. apply Z.mod_small. split; [done|].
  apply count_digits_bound. split; [done|].
  rewrite Nat2Z.inj_add, Z2Nat.id by apply Z.log2_nonneg.
  destruct (Z.eq_dec n 0) as [->|Hne]; [done|].
  change (Z.of_nat 1) with 1. rewrite Z.add_1_r.
  apply Z.log2_spec. lia.
Qed.

Lemma zeros_succ k : zeros (S k) = String "0" (zeros k).
Proof.
  unfold zeros. destruct k as [|k]; [done|].
  change (replicate (S (S k)) "0"%string) with ("0"%string :: replicate (S k) "0"%string).
  cbn [String.concat replicate]. reflexivity.
Qed.

Lemma zeros_facts k :
  String.length (zeros k) = k /\ all_chars Str.is_digit (zeros k) = true
  /\ forall ds, Str.digits_value 10 (digits_of (zeros k) ++ ds) = Str.digits_value 10 ds.
Proof.
  induction k as [|k (Hlen & Hd & Hv)]; [done|].
  rewrite zeros_succ. cbn [String.length all_chars]. rewrite Hlen, Hd.
  split; [done|]. split; [done|]. intros ds.
  specialize (Hv ds). unfold digits_of, Str.digits_value in *. simpl. exact Hv.
Qed.

Lemma digit_first c r :
  Str.is_digit c = true ->
  Str.trim_start (String c r) = String c r
  /\ Num.split_sign (String c r) = (false, String c r).
Proof.
  intros Hc.
  destruct c as [[] [] [] [] [] [] [] []];
    try (vm_compute in Hc; discriminate Hc); by split.
Qed.

Lemma digits_no_radix_prefix s :
  all_chars Str.is_digit s = true ->
  Str.starts_with "0x" s || Str.starts_with "0X" s = false.
Proof.
  destruct s as [|c [|c' r]]; intros Hs.
  - done.
  - unfold Str.starts_with. cbn [String.prefix].
    by destruct (ascii_dec "0"%char c).
  - cbn [all_chars] in Hs.
    apply andb_true_iff in Hs as [_ Hs]. apply andb_true_iff in Hs as [Hc' _].
    unfold Str.starts_with. cbn [String.prefix].
    destruct (ascii_dec "0"%char c) as [_|_]; [|done].
    destruct (ascii_dec "x"%char c') as [<-|_]; [by vm_compute in Hc'|].
    destruct (ascii_dec "X"%char c') as [<-|_]; [by vm_compute in Hc'|]. done.
Qed.

Lemma parseInt_digits s :
  s <> EmptyString -> all_chars Str.is_digit s = true ->
  Num.parseInt s = Some (Str.digits_value 10 (digits_of s)).
Proof.
  intros Hne Hs. destruct s as [|c r]; [done|].
  pose proof Hs as Hc. cbn [all_chars] in Hc. apply andb_true_iff in Hc as [Hc _].
  destruct (digit_first c r Hc) as [Htrim Hsign].
  unfold Num.parseInt. rewrite Htrim, Hsign.
  rewrite (digits_no_radix_prefix _ Hs), (span_digits_all _ Hs).
  by rewrite digits_of_cons.
Qed.

Lemma padStart0_zeros width s :
  Str.padStart0 width s = zeros (width - String.length s) +:+ s.
Proof. reflexivity. Qed.

Lemma padNumber_value n width :
  0 <= n ->
  Num.parseInt (Generator.padNumber n width) = Some n
  /\ all_chars Str.is_digit (Generator.padNumber n width) = true.
Proof.
  intros Hn. unfold Generator.padNumber, Str.of_Z.
  destruct (Z.ltb_spec n 0) as [|_]; [lia|].
  destruct (of_nonneg_value n Hn) as [Hd Hv].
  destruct (zeros_facts (width - String.length (Str.of_nonneg n))) as (_ & Hz & Hzv).
  rewrite padStart0_zeros.
  assert (all_chars Str.is_digit
            (zeros (width - String.length (Str.of_nonneg n)) +:+ Str.of_nonneg n) = true)
    as Hall by (by rewrite all_chars_app, Hz, Hd).
  split; [|done].
  rewrite parseInt_digits; [|apply append_nonempty, of_nonneg_nonempty|done].
  by rewrite digits_of_app, Hzv, Hv.
Qed.



(** ** Generated collections *)

(** Runs the statements of a generator one after the other, naming each
    result and the world after it. *)
Ltac run_gen :=
  cbv beta delta [mbind G_bind];
  repeat match goal with
         | |- context [match ?X with pair _ _ => _ end] =>
             let a := fresh "a" in
             let w := fresh "w" in
             let E := fresh "E" in
             destruct X as [a w] eqn:E
         end.

Lemma repeat_gen_map {A B} (f : A -> B) (g : Z -> B) n i (body : Z -> G A) w :
  (forall j w, f (body j w).1 = g j) ->
  f <$> (repeat_gen n i body w).1 = g <$> seqZ i (Z.of_nat n).
Proof.
  intros Hf. revert i w. induction n as [|n IH]; intros i w; [done|].
  rewrite seqZ_cons by lia. cbn [repeat_gen]. rewrite !G_bind_eq.
  unfold mret, G_ret. cbn [fst fmap list_fmap].
  rewrite Hf. f_equal.
  replace (Z.pred (Z.of_nat (S n))) with (Z.of_nat n) by lia.
  apply IH.
Qed.

Lemma generateNode_nodeId random clock i w :
  Node.nodeId (Generator.generateNode random clock i w).1
  = "NODE-" +:+ Generator.padNumber i 6.
Proof. unfold Generator.generateNode. run_gen. reflexivity. Qed.

Lemma generateHealthRecord_recordId random clock addresses ids i w :
  HealthRecord.recordId (Generator.generateHealthRecord random clock addresses ids i w).1
  = "REC-" +:+ Generator.padNumber i 8.
Proof. unfold Generator.generateHealthRecord. run_gen. reflexivity. Qed.

Lemma repeat_gen_length {A} n i (body : Z -> G A) w : length (repeat_gen n i body w).1 = n.
Proof.
  rewrite <- (length_fmap (fun _ => ())).
  rewrite (repeat_gen_map _ (fun _ => ()) n i body w) by done.
  rewrite length_fmap, length_seqZ. lia.
Qed.

Lemma padded_ids_NoDup (prefix : string) width i n :
  0 <= i ->
  NoDup ((fun j => prefix +:+ Generator.padNumber j width) <$> seqZ i (Z.of_nat n)).
Proof.
  intros Hi. apply NoDup_fmap_2_strong; [|apply NoDup_seqZ].
  intros a b Ha Hb E. apply elem_of_seqZ in Ha, Hb.
  apply String.app_inj in E.
  assert (Some a = Some b) as [= ->]; [|done].
  rewrite <- (proj1 (padNumber_value a width ltac:(lia))).
  rewrite <- (proj1 (padNumber_value b width ltac:(lia))). by rewrite E.
Qed.

Lemma generated_node_ids random clock count w :
  let nodes := (Generator.generateNodes random clock count w).1 in
  length nodes = count
  /\ Node.nodeId <$> nodes
     = (fun i => "NODE-" +:+ Generator.padNumber i 6) <$> seqZ 1 (Z.of_nat count)
  /\ NoDup (Node.nodeId <$> nodes).
Proof.
  intros nodes.
  assert (Node.nodeId <$> nodes
          = (fun i => "NODE-" +:+ Generator.padNumber i 6) <$> seqZ 1 (Z.of_nat count)) as Hn.
  { apply repeat_gen_map. intros j w'. apply generateNode_nodeId. }
  split; [apply repeat_gen_length|]. split; [done|].
  rewrite Hn. by apply padded_ids_NoDup.
Qed.

Lemma generated_record_ids random clock count w :
  let records := (Generator.generateHealthRecords random clock count w).1 in
  length records = count
  /\ HealthRecord.recordId <$> records
     = (fun i => "REC-" +:+ Generator.padNumber i 8) <$> seqZ 1 (Z.of_nat count)
  /\ NoDup (HealthRecord.recordId <$> records).
Proof.
  intros records.
  assert (HealthRecord.recordId <$> records
          = (fun i => "REC-" +:+ Generator.padNumber i 8) <$> seqZ 1 (Z.of_nat count)) as Hr.
  { unfold records, Generator.generateHealthRecords. rewrite G_bind_eq.
    apply repeat_gen_map. intros j w'. apply generateHealthRecord_recordId. }
  split. { unfold records, Generator.generateHealthRecords. rewrite G_bind_eq.
           apply repeat_gen_length. }
  split; [done|]. rewrite Hr. by apply padded_ids_NoDup.
Qed.

(** X5. Whatever the draws and the clock, [generateNodes(count)] returns
    [count] nodes whose ids are [NODE-000001], [NODE-000002], ... in
    order, and [generateHealthRecords(count)] returns [count] records
    whose ids are [REC-00000001], [REC-00000002], ... in order; within
    either collection no id occurs twice. *)
Theorem generated_ids random clock count w :
  let nodes := (Generator.generateNodes random clock count w).1 in
  let records := (Generator.generateHealthRecords random clock count w).1 in
  length nodes = count
  /\ Node.nodeId <$> nodes
     = (fun i => "NODE-" +:+ Generator.padNumber i 6) <$> seqZ 1 (Z.of_nat count)
  /\ NoDup (Node.nodeId <$> nodes)
  /\ length records = count
  /\ HealthRecord.recordId <$> records
     = (fun i => "REC-" +:+ Generator.padNumber i 8) <$> seqZ 1 (Z.of_nat count)
  /\ NoDup (HealthRecord.recordId <$> records).
Proof.
  intros nodes records.
  destruct (generated_node_ids random clock count w) as (H1 & H2 & H3).
  destruct (generated_record_ids random clock count w) as (H4 & H5 & H6).
  by repeat split.
Qed.

Lemma find_by_key {T} (key : T -> string) (l : list T) j x :
  NoDup (key <$> l) -> l !! j = Some x ->
  List.find (fun y => bool_decide (Some (key y) = Some (key x))) l = Some x.
Proof.
  revert j. induction l as [|y l IH]; intros j Hnd Hj; [done|].
  rewrite fmap_cons in Hnd. apply NoDup_cons in Hnd as [Hy Hnd].
  cbn [List.find]. destruct j as [|j].
  - injection Hj as ->. by rewrite bool_decide_eq_true_2.
  - simpl in Hj. rewrite bool_decide_eq_false_2; [by eapply IH|].
    intros [= E]. apply Hy. rewrite E. apply list_elem_of_fmap.
    exists x. split; [done|]. by eapply list_elem_of_lookup_2.
Qed.

(** X6. On a dataset whose nodes were made by [generateNodes] and whose
    health records were made by [generateHealthRecords], every stored
    record can be fetched by its id: [GET /api/nodes/:nodeId] with the id
    of the [j]-th node answers 200 with that node, and
    [GET /api/health-records/:recordId] with the id of the [j]-th record
    answers 200 with that record. *)
Theorem generated_records_found random clock count count' w w' ds h j :
  ds_nodes ds = (Generator.generateNodes random clock count w).1 ->
  ds_healthRecords ds = (Generator.generateHealthRecords random clock count' w').1 ->
  stores ds h ->
  (forall n, ds_nodes ds !! j = Some n ->
     NodesRoute.by_id (load_exports ds) (Sample.lookup "nodeId" (Node.nodeId n)) h
     = (Ok (Json n), h))
  /\ (forall r, ds_healthRecords ds !! j = Some r ->
        HealthRecordsRoute.by_id (load_exports ds)
          (Sample.lookup "recordId" (HealthRecord.recordId r)) h
        = (Ok (Json r), h)).
Proof.
  intros Hnodes Hrecords Hs.
  destruct (generated_node_ids random clock count w) as (_ & _ & Hnd).
  destruct (generated_record_ids random clock count' w') as (_ & _ & Hrd).
  rewrite <- Hnodes in Hnd. rewrite <- Hrecords in Hrd.
  split.
  - intros n Hj.
    pose proof (node_by_id_run ds (Sample.lookup "nodeId" (Node.nodeId n)) h Hs) as Hrun.
    unfold wp in Hrun. destruct Hrun as [Ho Hh].
    destruct (NodesRoute.by_id _ _ h) as [o h'']. simpl in Ho, Hh. subst o h''.
    unfold Sample.lookup. cbn [params]. rewrite lookup_singleton_eq.
    by rewrite (find_by_key Node.nodeId _ j n Hnd Hj).
  - intros r Hj.
    pose proof (record_by_id_run ds (Sample.lookup "recordId" (HealthRecord.recordId r)) h Hs)
      as Hrun.
    unfold wp in Hrun. destruct Hrun as [Ho Hh].
    destruct (HealthRecordsRoute.by_id _ _ h) as [o h'']. simpl in Ho, Hh. subst o h''.
    unfold Sample.lookup. cbn [params]. rewrite lookup_singleton_eq.
    by rewrite (find_by_key HealthRecord.recordId _ j r Hrd Hj).
Qed.

(** ** Sorting by a numeric key, largest first *)

Lemma Qltb_true a b : Num.Qltb a b = true <-> (a < b)%Q.
Proof.
  unfold Num.Qltb. rewrite negb_true_iff. split.
  - intros H. apply Qnot_le_lt. intros Hle. apply Qle_bool_iff in Hle. congruence.
  - intros H. destruct (Qle_bool b a) eqn:E; [|done].
    apply Qle_bool_iff in E. lra.
Qed.

Lemma Qltb_false a b : Num.Qltb a b = false <-> (b <= a)%Q.
Proof.
  unfold Num.Qltb. rewrite negb_false_iff. apply Qle_bool_iff.
Qed.

Lemma sub_negative_before x y :
  Num.lt (Num.sub y x) (Fin 0%Q) = true -> Num.lt x y = false.
Proof.
  destruct x as [|[]|x], y as [|[]|y]; try done.
  unfold Num.sub, Num.neg, Num.add, Num.lt.
  rewrite Qltb_true, Qltb_false. lra.
Qed.

Lemma sub_negative_after x y :
  Num.lt (Num.sub y x) (Fin 0%Q) = false -> Num.lt y x = false.
Proof.
  destruct x as [|[]|x], y as [|[]|y]; try done.
  unfold Num.sub, Num.neg, Num.add, Num.lt.
  rewrite !Qltb_false. lra.
Qed.

Lemma sort_descending {T} (key : T -> number) (l : list T) :
  Sorted (fun a b => Num.lt (key a) (key b) = false)
    (Arr.sort_list (fun a b => Num.sub (key b) (key a)) l).
Proof.
  apply sort_list_sorted.
  - intros x y. apply sub_negative_before.
  - intros x y. apply sub_negative_after.
Qed.

(** ** generateStakers *)

Lemma repeat_try_ok {A} (P : Z -> A -> Prop) n i (body : Z -> G (outcome A)) w :
  (forall i w, exists x w', body i w = (Ok x, w') /\ P i x) ->
  exists l w', repeat_try n i body w = (Ok l, w')
               /\ Forall2 P (seqZ i (Z.of_nat n)) l.
Proof.
  intros Hbody. revert i w. induction n as [|n IH]; intros i w.
  - exists [], w. split; [done|]. constructor.
  - destruct (Hbody i w) as (x & w1 & Hx & HP).
    destruct (IH (i + 1) w1) as (l & w2 & Hl & Hall).
    exists (x :: l), w2. cbn [repeat_try]. rewrite G_bind_eq, Hx. cbn [fst snd].
    rewrite G_bind_eq, Hl. split; [done|].
    rewrite seqZ_cons by lia. constructor; [done|].
    by replace (Z.pred (Z.of_nat (S n))) with (Z.of_nat n) by lia.
Qed.

Lemma repeat_try_throw {A} n i (body : Z -> G (outcome A)) w :
  (forall i w, exists e w', body i w = (Throw e, w')) ->
  exists e w', repeat_try (S n) i body w = (Throw e, w').
Proof.
  intros Hbody. destruct (Hbody i w) as (e & w' & He).
  exists e, w'. cbn [repeat_try]. by rewrite G_bind_eq, He.
Qed.

Lemma lockPeriod_value (x : number) :
  x ∈ Generator.lockPeriods ->
  exists p, p ∈ [7; 14; 30; 60; 90; 180; 365] /\ x = Num.of_Z p
            /\ Num.add (Num.of_Z 1) (Num.div x (Num.of_Z 365)) = Fin (1 + inject_Z p / 365).
Proof.
  unfold Generator.lockPeriods. intros (p & -> & Hp)%list_elem_of_fmap.
  exists p. split; [done|]. split; [done|]. reflexivity.
Qed.

Lemma generateStaker_run random clock nodes i w :
  unit_interval random -> nodes <> [] ->
  exists s w', Generator.generateStaker random clock nodes i w = (Ok s, w')
               /\ staker_of nodes i s.
Proof.
  intros Hr Hne.
  assert (Some <$> nodes <> []) as Hne' by (destruct nodes; [congruence|discriminate]).
  assert (Generator.lockPeriods <> []) as Hlp by discriminate.
  unfold Generator.generateStaker. run_gen.
  match goal with
  | E : Generator.randomChoice _ None _ ?w = _ |- _ =>
      pose proof (randomChoice_in random None (Some <$> nodes) w Hr Hne') as Hin;
      rewrite E in Hin; cbn [fst] in Hin
  end.
  apply list_elem_of_fmap in Hin as (n & -> & Hn).
  match goal with
  | E : Generator.randomChoice _ NaN _ ?w = _ |- _ =>
      pose proof (randomChoice_in random NaN Generator.lockPeriods w Hr Hlp) as Hp;
      rewrite E in Hp; cbn [fst] in Hp
  end.
  apply lockPeriod_value in Hp as (p & Hp & -> & Hm).
  eexists _, _. split; [reflexivity|].
  split; [reflexivity|]. split; [exists n; split; [exact Hn|reflexivity]|].
  exists p. split; [exact Hp|]. split; [reflexivity|exact Hm].
Qed.

Lemma randomChoice_none {T} random (undefined : T) w :
  (Generator.randomChoice random undefined [] w).1 = undefined.
Proof.
  unfold Generator.randomChoice. rewrite G_bind_eq.
  unfold Generator.Math_random, mret, G_ret. cbn [fst snd length].
  change (Num.mul (Fin ?r) (Num.of_Z ?m)) with (Fin (r * inject_Z m)).
  cbn [Num.floor]. unfold Generator.at_index, Num.of_Z.
  by destruct (_ && _); rewrite ?lookup_nil.
Qed.

Lemma generateStaker_throws random clock i w :
  unit_interval random ->
  exists e w', Generator.generateStaker random clock [] i w = (Throw e, w').
Proof.
  intros Hr. unfold Generator.generateStaker. run_gen.
  match goal with
  | E : Generator.randomChoice _ None _ ?w = _ |- _ =>
      pose proof (randomChoice_none random (@None Node.t) w) as Hnone;
      change (Some <$> []) with (@nil (option Node.t)) in E;
      rewrite E in Hnone; cbn [fst] in Hnone
  end.
  subst. eexists _, _. reflexivity.
Qed.

(** X7. With draws in [0, 1), [generateStakers(count, nodes)] on a
    non-empty [nodes] returns [count] stakers; the [i]-th has the id
    [STAKER-] followed by [i] padded to 7 digits, is delegated to the id of
    one of the given nodes, has a lock period among 7, 14, 30, 60, 90, 180
    and 365 days and the multiplier [1 + lockPeriod / 365].  On an empty
    [nodes] with [count > 0] it raises (reading [nodeId] off [undefined]),
    and with [count = 0] it returns the empty list. *)
Theorem generated_stakers random clock count nodes w :
  unit_interval random ->
  (nodes <> [] ->
   exists stakers w',
     Generator.generateStakers random clock count nodes w = (Ok stakers, w')
     /\ length stakers = count
     /\ Forall2 (staker_of nodes) (seqZ 1 (Z.of_nat count)) stakers)
  /\ (nodes = [] -> (0 < count)%nat ->
      exists e w', Generator.generateStakers random clock count nodes w = (Throw e, w'))
  /\ (count = 0%nat -> Generator.generateStakers random clock count nodes w = (Ok [], w)).
Proof.
  intros Hr. split; [|split].
  - intros Hne.
    destruct (repeat_try_ok (staker_of nodes) count 1
                (Generator.generateStaker random clock nodes) w) as (l & w' & Hrun & Hall).
    { intros i w0. by apply generateStaker_run. }
    exists l, w'. split; [exact Hrun|]. split; [|exact Hall].
    apply Forall2_length in Hall. rewrite length_seqZ in Hall. lia.
  - intros -> Hpos. destruct count as [|n]; [lia|].
    apply repeat_try_throw. intros i w0. by apply generateStaker_throws.
  - intros ->. reflexivity.
Qed.

Lemma generated_stakers_witness :
  unit_interval (fun _ => 1 # 2)
  /\ exists stakers w',
       Generator.generateStakers (fun _ => 1 # 2) (fun _ => 0) 2
         (ds_nodes Sample.dataset) start = (Ok stakers, w')
       /\ length stakers = 2%nat.
Proof.
  assert (unit_interval (fun _ => 1 # 2)) as H.
  { intros _. split; [unfold Qle; simpl; lia | reflexivity]. }
  split; [exact H|].
  destruct (proj1 (generated_stakers (fun _ => 1 # 2) (fun _ => 0) 2
                     (ds_nodes Sample.dataset) start H) ltac:(discriminate))
    as (stakers & w' & Hrun & Hlen & _).
  exists stakers, w'. split; [exact Hrun|exact Hlen].
Defined.

(** ** Generated stakers and their nodes *)

Lemma find_by_test {T} (key : T -> string) (p : T -> bool) (l : list T) j x :
  NoDup (key <$> l) -> l !! j = Some x ->
  (forall y, p y = true <-> key y = key x) ->
  List.find p l = Some x.
Proof.
  intros Hnd Hj Hp. revert j Hnd Hj. induction l as [|y l IH]; intros j Hnd Hj; [done|].
  rewrite fmap_cons in Hnd. apply NoDup_cons in Hnd as [Hy Hnd].
  cbn [List.find]. destruct j as [|j].
  - injection Hj as ->. by rewrite (proj2 (Hp x) eq_refl).
  - simpl in Hj. destruct (p y) eqn:E; [|by eapply IH].
    apply Hp in E. exfalso. apply Hy. rewrite E. apply list_elem_of_fmap.
    exists x. split; [done|]. by eapply list_elem_of_lookup_2.
Qed.

Lemma Forall2_keys {A B} (f : B -> string) (g : A -> string) (P : A -> B -> Prop) l1 l2 :
  (forall a b, P a b -> f b = g a) -> Forall2 P l1 l2 -> f <$> l2 = g <$> l1.
Proof.
  intros HP Hall. induction Hall as [|a b l1 l2 Hab _ IH]; [done|].
  rewrite !fmap_cons. by rewrite (HP a b Hab), IH.
Qed.

Lemma truthy_node_id x : Str.truthy ("NODE-" +:+ x) = true.
Proof. reflexivity. Qed.

Lemma by_id_run {A} (m : M A) h (Q : outcome A -> heap -> Prop) o :
  wp m h (fun o' h' => o' = o /\ h' = h) -> m h = (o, h).
Proof. unfold wp. destruct (m h) as [o' h']. simpl. by intros [-> ->]. Qed.

Lemma generated_stakers_ok random clock count nodes w stakers w' :
  unit_interval random ->
  Generator.generateStakers random clock count nodes w = (Ok stakers, w') ->
  Forall2 (staker_of nodes) (seqZ 1 (Z.of_nat count)) stakers
  /\ NoDup (Staker.stakerId <$> stakers).
Proof.
  intros Hr Hrun. unfold Generator.generateStakers in Hrun.
  destruct nodes as [|n nodes].
  - destruct count as [|k].
    + injection Hrun as <- _. split; constructor.
    + destruct (repeat_try_throw k 1 (Generator.generateStaker random clock []) w)
        as (e' & w1 & He').
      { intros i w2. by apply generateStaker_throws. }
      congruence.
  - destruct (repeat_try_ok (staker_of (n :: nodes)) count 1
                (Generator.generateStaker random clock (n :: nodes)) w)
      as (l & w1 & Hl & Hall).
    { intros i w0. by apply generateStaker_run. }
    rewrite Hl in Hrun. injection Hrun as -> _. split; [exact Hall|].
    rewrite (Forall2_keys Staker.stakerId
               (fun i => "STAKER-" +:+ Generator.padNumber i 7) _ _ _
               (fun a b Hab => proj1 Hab) Hall).
    by apply padded_ids_NoDup.
Qed.

Lemma delegated_of_generated random clock count w nodes s n :
  nodes = (Generator.generateNodes random clock count w).1 ->
  n ∈ nodes -> Staker.delegatedTo s = Node.nodeId n ->
  delegated_of nodes s = DelegatedNode (node_summary n).
Proof.
  intros Hnodes Hn Hdel.
  destruct (generated_node_ids random clock count w) as (_ & Hids & Hnd).
  rewrite <- Hnodes in Hids, Hnd.
  assert (exists i, Node.nodeId n = "NODE-" +:+ Generator.padNumber i 6) as [i Hid].
  { assert (Node.nodeId n ∈ Node.nodeId <$> nodes) as Hin.
    { apply list_elem_of_fmap. by exists n. }
    rewrite Hids in Hin. apply list_elem_of_fmap in Hin as (i & Hi & _). by exists i. }
  apply list_elem_of_lookup in Hn as [k Hk].
  unfold delegated_of. rewrite Hdel.
  rewrite (find_by_test Node.nodeId _ _ k n Hnd Hk).
  2:{ intros y. by rewrite String.eqb_eq. }
  assert (Str.truthy (Node.nodeId n) = true) as -> by (rewrite Hid; apply truthy_node_id).
  reflexivity.
Qed.

(** X8. On a dataset whose nodes were made by [generateNodes] and whose
    stakers were made by [generateStakers] from those nodes, every staker
    is delegated to a stored node, and [GET /api/stakers/:stakerId] with
    the id of a stored staker answers 200 with that staker and, as
    [delegatedNode], the id, type, status and uptime of the node it is
    delegated to: never [null] and never a missing property. *)
Theorem generated_staker_detail random clock random' clock' count count' w w' w'' ds h j s :
  unit_interval random' ->
  ds_nodes ds = (Generator.generateNodes random clock count w).1 ->
  Generator.generateStakers random' clock' count' (ds_nodes ds) w' = (Ok (ds_stakers ds), w'') ->
  stores ds h ->
  ds_stakers ds !! j = Some s ->
  exists n,
    n ∈ ds_nodes ds /\ Node.nodeId n = Staker.delegatedTo s
    /\ StakersRoute.by_id (load_exports ds) (Sample.lookup "stakerId" (Staker.stakerId s)) h
       = (Ok (Json {| StakerDetail.staker := s;
                      StakerDetail.delegatedNode := DelegatedNode (node_summary n) |}), h).
Proof.
  intros Hr Hnodes Hstakers Hs Hj.
  destruct (generated_stakers_ok _ _ _ _ _ _ _ Hr Hstakers) as [Hall Hsd].
  destruct (Forall2_lookup_r _ _ _ _ _ Hall Hj) as (i & _ & _ & (n & Hn & Hdel) & _).
  exists n. split; [exact Hn|]. split; [by rewrite Hdel|].
  apply (by_id_run _ _ (fun _ _ => True)).
  eapply wp_mono; [by apply staker_by_id_run|].
  intros o h' [-> ->]. split; [|reflexivity].
  unfold Sample.lookup. cbn [params]. rewrite lookup_singleton_eq.
  rewrite (find_by_test Staker.stakerId _ _ j s Hsd Hj).
  2:{ intros y. rewrite bool_decide_eq_true. split; [by intros [= ->]|by intros ->]. }
  unfold lookup_answer.
  by rewrite (delegated_of_generated random clock count w (ds_nodes ds) s n Hnodes Hn Hdel).
Qed.

Lemma generated_staker_detail_witness :
  unit_interval Generated.halves
  /\ stores Generated.dataset (load_heap Generated.dataset)
  /\ exists s n,
       ds_stakers Generated.dataset !! 0%nat = Some s
       /\ n ∈ ds_nodes Generated.dataset /\ Node.nodeId n = Staker.delegatedTo s.
Proof.
  assert (unit_interval Generated.halves) as H.
  { intros k. unfold Generated.halves. split; [unfold Qle; simpl; lia | reflexivity]. }
  assert (stores Generated.dataset (load_heap Generated.dataset)) as Hs.
  { by exists []; rewrite app_nil_r. }
  assert (ds_nodes Generated.dataset
          = (Generator.generateNodes Generated.halves Generated.clock 2 start).1) as Hn
    by reflexivity.
  assert (Generator.generateStakers Generated.halves Generated.clock 2
            (ds_nodes Generated.dataset) start
          = (Ok (ds_stakers Generated.dataset),
             (Generator.generateStakers Generated.halves Generated.clock 2
                Generated.nodes start).2)) as Hst
    by (vm_compute; reflexivity).
  assert (ds_stakers Generated.dataset !! 0%nat
          = Some (default (Sample.staker "" "" "") (Generated.stakers !! 0%nat))) as Hj
    by (vm_compute; reflexivity).
  split; [exact H|]. split; [exact Hs|].
  destruct (generated_staker_detail _ _ _ _ _ _ _ _ _ _ _ _ _ H Hn Hst Hs Hj)
    as (n & Hin & Hid & _).
  eexists _, n. split; [exact Hj|]. split; [exact Hin|exact Hid].
Defined.

Lemma halves_unit : unit_interval Generated.halves.
Proof. intros k. unfold Generated.halves. split; [unfold Qle; simpl; lia | reflexivity]. Qed.

Lemma generated_stores : stores Generated.dataset (load_heap Generated.dataset).
Proof. by exists []; rewrite app_nil_r. Qed.

Lemma generated_records_found_witness :
  stores Generated.dataset (load_heap Generated.dataset)
  /\ forall n, ds_nodes Generated.dataset !! 1%nat = Some n ->
       NodesRoute.by_id (load_exports Generated.dataset)
         (Sample.lookup "nodeId" (Node.nodeId n)) (load_heap Generated.dataset)
       = (Ok (Json n), load_heap Generated.dataset).
Proof.
  split; [exact generated_stores|].
  assert (ds_nodes Generated.dataset
          = (Generator.generateNodes Generated.halves Generated.clock 2 start).1) as Hn.
  { unfold Generated.dataset, Generated.nodes. cbn [ds_nodes]. reflexivity. }
  assert (ds_healthRecords Generated.dataset
          = (Generator.generateHealthRecords Generated.halves Generated.clock 2 start).1)
    as Hr.
  { unfold Generated.dataset, Generated.healthRecords. cbn [ds_healthRecords]. reflexivity. }
  exact (proj1 (generated_records_found _ _ _ _ _ _ _ _ 1 Hn Hr generated_stores)).
Defined.
